(** * React-Bootstrap to Material UI codemods: a shallow embedding

    The repository holds several jscodeshift transforms that rewrite a
    parsed module: JSX element names, their attributes, utility classes of
    [className] into the [sx] attribute, and the import section.  Each
    transform of [src/] is embedded below in a module of its own, over one
    shared model of the syntax tree.

    Conventions of the model.
    - A module is its import section followed by its other statements; the
      scripts insert imports "before the first import" or "after the last
      import", which are the two ends of the import section.
    - An expression that the scripts never look into is kept as its source
      text ([EOther]).  JSX nested inside such an expression is not
      represented, except inside an expression child of an element.
    - Strings are sequences of 8-bit characters; the white space and word
      characters of regular expressions are the ASCII ones.
    - [obj[key]] on a plain object also finds the members inherited from
      [Object.prototype]; [Js.get] tells the three cases apart.
    - A [TypeError] (or a builder that rejects its argument) aborts the
      whole transform; it is the [None] of the walker monad [W].
    - [find(...).forEach(cb)] visits the matching nodes in document order.
      The callbacks of the scripts only change the node they visit and the
      names of direct children that no filter of the same pass selects, so
      the visit is a map over the tree whose effects are logged in document
      order. *)

From Stdlib Require Import String Ascii List Bool Arith ZArith Lia.
Set Warnings "-register-all".
Import ListNotations.
Open Scope string_scope.
Open Scope list_scope.

(* ===================================================================== *)
(** ** JavaScript values, plain objects and strings *)
(* ===================================================================== *)

Module Js.

(** Payload of a literal node.  The numbers of the scripts are integers:
    the literals of a tree hold safe integers (below [2^53] in size), and
    a number read off a run of digits is the nearest Number, which is an
    integer or an infinity. *)
Inductive Value :=
| JString (s : string)
| JNumber (n : Z)
| JInfinity (negative : bool)
| JNaN
| JBool (b : bool).

(** What the code can read out of a node: a payload or [undefined]. *)
Definition Read := option Value.

(** Names every plain object inherits from [Object.prototype]. *)
Definition object_prototype_keys : list string :=
  [ "constructor"; "__proto__"; "hasOwnProperty"; "isPrototypeOf";
    "propertyIsEnumerable"; "toLocaleString"; "toString"; "valueOf";
    "__defineGetter__"; "__defineSetter__"; "__lookupGetter__";
    "__lookupSetter__" ].

Definition mem (k : string) (l : list string) : bool :=
  existsb (String.eqb k) l.

Definition inherited (k : string) : bool := mem k object_prototype_keys.

(** A plain object literal: its own properties, in insertion order. *)
Definition Obj (V : Type) := list (string * V).

Fixpoint own {V} (o : Obj V) (k : string) : option V :=
  match o with
  | [] => None
  | (k', v) :: r => if String.eqb k k' then Some v else own r k
  end.

Definition values {V} (o : Obj V) : list V := map snd o.

Definition hasOwnProperty {V} (o : Obj V) (k : string) : bool :=
  match own o k with Some _ => true | None => false end.

(** [o[k]] *)
Inductive Lookup (V : Type) :=
| Own (v : V)
| Inherited
| Undefined.
Arguments Own {V} v.
Arguments Inherited {V}.
Arguments Undefined {V}.

Definition get {V} (o : Obj V) (k : string) : Lookup V :=
  match own o k with
  | Some v => Own v
  | None => if inherited k then Inherited else Undefined
  end.

(** [k in o] *)
Definition has {V} (o : Obj V) (k : string) : bool :=
  match get o k with Undefined => false | _ => true end.

(** [Object.assign(target, {k: v})] for one entry: an existing key keeps
    its place and takes the new value, a new key goes last. *)
Fixpoint assign1 {V} (o : Obj V) (k : string) (v : V) : Obj V :=
  match o with
  | [] => [(k, v)]
  | (k', v') :: r =>
      if String.eqb k k' then (k', v) :: r else (k', v') :: assign1 r k v
  end.

Definition assign {V} (o src : Obj V) : Obj V :=
  fold_left (fun acc kv => assign1 acc (fst kv) (snd kv)) src o.

(** ASCII classes of the regular expressions and of [trim]. *)
Definition is_digit (c : ascii) : bool :=
  let n := nat_of_ascii c in (Nat.leb 48 n && Nat.leb n 57)%bool.

Definition is_word (c : ascii) : bool :=
  let n := nat_of_ascii c in
  ((Nat.leb 48 n && Nat.leb n 57) || (Nat.leb 65 n && Nat.leb n 90)
   || (Nat.leb 97 n && Nat.leb n 122) || Nat.eqb n 95)%bool.

Definition is_space (c : ascii) : bool :=
  let n := nat_of_ascii c in
  ((Nat.leb 9 n && Nat.leb n 13) || Nat.eqb n 32)%bool.

Definition digit_value (c : ascii) : Z := Z.of_nat (nat_of_ascii c - 48).

(** [s.startsWith(p)], returning what follows the prefix. *)
Fixpoint strip_prefix (p s : string) : option string :=
  match p with
  | EmptyString => Some s
  | String a p' =>
      match s with
      | EmptyString => None
      | String b s' => if Ascii.eqb a b then strip_prefix p' s' else None
      end
  end.

Definition startsWith (s p : string) : bool :=
  match strip_prefix p s with Some _ => true | None => false end.

Fixpoint trimStart (s : string) : string :=
  match s with
  | EmptyString => EmptyString
  | String c r => if is_space c then trimStart r else s
  end.

(** Drops the trailing white space: a character stays when something
    other than white space follows it or it is not white space itself. *)
Fixpoint trimEnd (s : string) : string :=
  match s with
  | EmptyString => EmptyString
  | String c r =>
      match trimEnd r with
      | EmptyString => if is_space c then EmptyString else String c EmptyString
      | r' => String c r'
      end
  end.

Definition trim (s : string) : string := trimEnd (trimStart s).

(** [parts.join(sep)] *)
Fixpoint join (sep : string) (parts : list string) : string :=
  match parts with
  | [] => EmptyString
  | [p] => p
  | p :: r => p ++ sep ++ join sep r
  end.

(** [s.split(' ')]: the pieces between single spaces, empty ones kept. *)
Fixpoint split_space_aux (cur : string) (s : string) : list string :=
  match s with
  | EmptyString => [cur]
  | String c r =>
      if Ascii.eqb c " "%char
      then cur :: split_space_aux EmptyString r
      else split_space_aux (cur ++ String c EmptyString) r
  end.

Definition split_space (s : string) : list string :=
  split_space_aux EmptyString s.

Definition is_empty (s : string) : bool :=
  match s with EmptyString => true | _ => false end.

(** [l.map(f)] where [f] may throw. *)
Fixpoint mapOpt {A B} (f : A -> option B) (l : list A) : option (list B) :=
  match l with
  | [] => Some []
  | a :: r =>
      match f a with
      | None => None
      | Some b => match mapOpt f r with None => None | Some r' => Some (b :: r') end
      end
  end.

(** The value of a run of decimal digits, as [parseInt] and [Number] read
    it; [None] when [s] is empty or holds another character. *)
Fixpoint digits_value_aux (acc : Z) (s : string) : option Z :=
  match s with
  | EmptyString => Some acc
  | String c r =>
      if is_digit c then digits_value_aux (10 * acc + digit_value c) r else None
  end.

Definition digits_value (s : string) : option Z :=
  match s with
  | EmptyString => None
  | _ => digits_value_aux 0 s
  end.

(** The Number nearest to a natural number: itself below [2^53], and
    beyond that the multiple of the power of two that leaves 53 binary
    digits, ties going to the even one. *)
Definition nearest_double (n : Z) : Z :=
  (if n <? 2 ^ 53 then n
   else
     let e := Z.log2 n - 52 in
     let q := Z.shiftr n e in
     let r := n - Z.shiftl q e in
     let half := Z.shiftl 1 (e - 1) in
     let q' := if (half <? r) || ((r =? half) && Z.odd q) then q + 1 else q in
     Z.shiftl q' e)%Z.

(** The Number that [Number] and [parseInt] give for the integer a run of
    decimal digits spells, with its sign: what reaches [2^1024] is an
    infinity. *)
Definition of_integer (z : Z) : Value :=
  let m := nearest_double (Z.abs z) in
  if (2 ^ 1024 <=? m)%Z then JInfinity (z <? 0)%Z else JNumber (Z.sgn z * m)%Z.

End Js.

(* ===================================================================== *)
(** ** The syntax tree *)
(* ===================================================================== *)

Module Ast.
Import Js.

(** [node.type] of a literal.  A parser with the ESTree plug-in tags every
    literal [Literal]; the Babel-flavoured parsers and the builders
    [j.stringLiteral], [j.numericLiteral], [j.booleanLiteral] tag by
    payload ([StringLiteral], ...).  The scripts test these tags. *)
Inductive LitKind := Literal | Typed.

Inductive PropKey :=
| KIdentifier (name : string)      (* an identifier: [key.name] is defined *)
| KLiteral (v : Value)             (* a quoted or numeric key *)
| KComputed (src : string).        (* [[src]], any expression but an identifier *)

Inductive Expr :=
| ELiteral (kind : LitKind) (v : Value)
| EObject (properties : list ObjMember)
| EOther (src : string)
with ObjMember :=
| Property (key : PropKey) (value : Expr)
| SpreadElement (argument : Expr).

Definition expr_type (e : Expr) : string :=
  match e with
  | ELiteral Literal _ => "Literal"
  | ELiteral Typed (JString _) => "StringLiteral"
  | ELiteral Typed (JBool _) => "BooleanLiteral"
  | ELiteral Typed _ => "NumericLiteral"
  | EObject _ => "ObjectExpression"
  | EOther _ => "Expression"
  end.

(** [attr.value] *)
Inductive AttrValue :=
| NoValue                                   (* [<X flag>]: null *)
| Bare (e : Expr)                           (* [name="..."] *)
| JSXExpressionContainer (expression : Expr).

Inductive Attr :=
| JSXAttribute (name : string) (value : AttrValue)
| JSXSpreadAttribute (argument : string).

Inductive JSXName :=
| JSXIdentifier (name : string)
| JSXMemberExpression (object : JSXName) (property : string).

(** A JSX element carries its opening and its closing name apart, as the
    tree does; [closing = None] is a self-closing element.  An expression
    child lists the elements written inside it. *)
Inductive Node :=
| JSXElement (opening : JSXName) (closing : option JSXName)
             (attributes : list Attr) (children : list Node)
| JSXText (value : string)
| JSXExpressionChild (inner : list Node).

Inductive ImportSpec :=
| ImportSpecifier (imported local : string)
| ImportDefaultSpecifier (local : string)
| ImportNamespaceSpecifier (local : string).

Record ImportDeclaration := mkImport {
  specifiers : list ImportSpec;
  source_kind : LitKind;
  source : string
}.

(** What a statement declares.  [Within outer inner] is a statement of
    kind [outer] that holds the declarations [inner] inside it: further
    declarators, and the declarations in the body of a function or of a
    class and in blocks, at whatever depth, in document order. *)
Inductive StmtKind :=
| VariableFunction (id : string)     (* [const X = (...) => ...] *)
| FunctionDeclaration (id : string)
| ClassDeclaration (id : string)
| OtherStatement
| Within (outer : StmtKind) (inner : list StmtKind).

Record Stmt := mkStmt { kind : StmtKind; jsx : list Node }.

(** The declarations that [root.find] meets in a statement, in document
    order. *)
Fixpoint declarations (k : StmtKind) : list StmtKind :=
  match k with
  | Within outer inner =>
      declarations outer
      ++ (fix each (l : list StmtKind) : list StmtKind :=
            match l with
            | [] => []
            | x :: r => declarations x ++ each r
            end) inner
  | other => [other]
  end.

Record Program := mkProgram {
  imports : list ImportDeclaration;
  body : list Stmt
}.

(** What a transform hands back to the runner. *)
Inductive Output :=
| ReturnsNull                 (* [return null]: nothing to do *)
| ReturnsSource               (* [return fileInfo.source]: input as is *)
| ToSource (p : Program).     (* [return root.toSource(...)] *)

Definition unchanged (o : Output) : bool :=
  match o with ToSource _ => false | _ => true end.

(** [name.name]: defined on an identifier only. *)
Definition name_of (n : JSXName) : option string :=
  match n with JSXIdentifier s => Some s | _ => None end.

Definition name_is (n : JSXName) (s : string) : bool :=
  match n with JSXIdentifier s' => String.eqb s' s | _ => false end.

(** [name.type === 'JSXMemberExpression' && name.object.name === o],
    giving [name.property.name]. *)
Definition member_of (n : JSXName) (o : string) : option string :=
  match n with
  | JSXMemberExpression obj p => if name_is obj o then Some p else None
  | _ => None
  end.

Definition local_name (s : ImportSpec) : string :=
  match s with
  | ImportSpecifier _ l => l
  | ImportDefaultSpecifier l => l
  | ImportNamespaceSpecifier l => l
  end.

Definition attr_named (n : string) (a : Attr) : bool :=
  match a with
  | JSXAttribute n' _ => String.eqb n' n
  | JSXSpreadAttribute _ => false
  end.

(** The opening names of the elements of a tree, in document order. *)
Fixpoint opening_names (n : Node) : list JSXName :=
  match n with
  | JSXElement o _ _ kids => o :: flat_map opening_names kids
  | JSXText _ => []
  | JSXExpressionChild inner => flat_map opening_names inner
  end.

(** The nodes directly below a node. *)
Definition children_of (n : Node) : list Node :=
  match n with
  | JSXElement _ _ _ kids => kids
  | JSXText _ => []
  | JSXExpressionChild inner => inner
  end.

(** An element addressed as a member of another: [<Parent.Child>]. *)
Definition qualified (n : Node) : bool :=
  match n with
  | JSXElement (JSXMemberExpression _ _) _ _ _ => true
  | _ => false
  end.

(** What an element is apart from its children: names and attributes. *)
Definition tag (n : Node) : option (JSXName * option JSXName * list Attr) :=
  match n with
  | JSXElement o c a _ => Some (o, c, a)
  | _ => None
  end.

(** An attribute whose value is a computed expression: neither a literal
    nor an object written in place. *)
Definition computed (a : Attr) : bool :=
  match a with
  | JSXAttribute _ (JSXExpressionContainer (EOther _)) => true
  | _ => false
  end.

(** [f] applied to the attribute list of every element of a tree. *)
Fixpoint map_attributes (f : list Attr -> list Attr) (n : Node) : Node :=
  match n with
  | JSXElement o c a kids => JSXElement o c (f a) (map (map_attributes f) kids)
  | JSXText s => JSXText s
  | JSXExpressionChild inner => JSXExpressionChild (map (map_attributes f) inner)
  end.

(** Re-reading a printed module: the parser tags every literal its own
    way, whatever builder made the node. *)
Fixpoint retag_expr (k : LitKind) (e : Expr) : Expr :=
  match e with
  | ELiteral _ v => ELiteral k v
  | EObject ps =>
      EObject ((fix each (l : list ObjMember) : list ObjMember :=
                  match l with
                  | [] => []
                  | Property key v :: r => Property key (retag_expr k v) :: each r
                  | SpreadElement a :: r => SpreadElement (retag_expr k a) :: each r
                  end) ps)
  | EOther s => EOther s
  end.

Definition retag_attr (k : LitKind) (a : Attr) : Attr :=
  match a with
  | JSXAttribute n NoValue => JSXAttribute n NoValue
  | JSXAttribute n (Bare e) => JSXAttribute n (Bare (retag_expr k e))
  | JSXAttribute n (JSXExpressionContainer e) =>
      JSXAttribute n (JSXExpressionContainer (retag_expr k e))
  | JSXSpreadAttribute s => JSXSpreadAttribute s
  end.

Fixpoint retag_node (k : LitKind) (n : Node) : Node :=
  match n with
  | JSXElement o c a kids =>
      JSXElement o c (map (retag_attr k) a) (map (retag_node k) kids)
  | JSXText s => JSXText s
  | JSXExpressionChild inner => JSXExpressionChild (map (retag_node k) inner)
  end.

Definition retag_import (k : LitKind) (d : ImportDeclaration) :=
  mkImport (specifiers d) k (source d).

Definition reparse (k : LitKind) (p : Program) : Program :=
  mkProgram (map (retag_import k) (imports p))
            (map (fun s => mkStmt (kind s) (map (retag_node k) (jsx s))) (body p)).

End Ast.

(* ===================================================================== *)
(** ** Walking the tree: [root.find(...).forEach(callback)] *)
(* ===================================================================== *)

Module Walk.
Import Ast.

Section Effects.
Context {E : Type}.

(** A computation that may throw and logs its effects in order. *)
Definition W (A : Type) : Type := option (A * list E).

Definition ret {A} (a : A) : W A := Some (a, []).
Definition throw {A} : W A := None.
Definition tell (e : E) : W unit := Some (tt, [e]).

Definition bind {A B} (m : W A) (f : A -> W B) : W B :=
  match m with
  | None => None
  | Some (a, l1) =>
      match f a with
      | None => None
      | Some (b, l2) => Some (b, l1 ++ l2)
      end
  end.

Fixpoint mapW {A B} (f : A -> W B) (l : list A) : W (list B) :=
  match l with
  | [] => ret []
  | a :: r => bind (f a) (fun b => bind (mapW f r) (fun r' => ret (b :: r')))
  end.

(** The callback runs on every element, in document order: its effects
    come before those of the elements below it. *)
Fixpoint forEachElement (cb : Node -> W Node) (n : Node) : W Node :=
  let each :=
    fix each (l : list Node) : W (list Node) :=
      match l with
      | [] => ret []
      | k :: r =>
          bind (forEachElement cb k) (fun k' =>
          bind (each r) (fun r' => ret (k' :: r')))
      end in
  match n with
  | JSXElement o c a kids =>
      match each kids with
      | None => None
      | Some (kids', below) =>
          match cb (JSXElement o c a kids') with
          | None => None
          | Some (n', here) => Some (n', here ++ below)
          end
      end
  | JSXText s => ret (JSXText s)
  | JSXExpressionChild inner =>
      bind (each inner) (fun inner' => ret (JSXExpressionChild inner'))
  end.

Definition forEachRoot (cb : Node -> W Node) (b : list Stmt) : W (list Stmt) :=
  mapW (fun s => bind (mapW (forEachElement cb) (jsx s))
                      (fun r => ret (mkStmt (kind s) r))) b.

End Effects.

Arguments W E A : clear implicits.

End Walk.

(* ===================================================================== *)
(** ** Utility-class rules given as regular expressions *)
(* ===================================================================== *)

(** Both regex tables of the repository hold rules of two shapes only:
    [/\b<prefix>(\d)\b/g] with the style [{key: Number(m[1])}], and
    [/\b<word>\b/g] with a fixed style [{key: 'value'}].  Every prefix and
    word starts and ends with a word character or a dash after one, so the
    leading [\b] asks for no word character before the match and the
    trailing one for none after it. *)
Module ClassRegex.
Import Js.

Inductive SxValue :=
| SxNumber (n : Z)
| SxString (s : string).

Inductive Rule :=
| DigitRule (prefix key : string)
| WordRule (word key value : string).

Definition rule_key (r : Rule) : string :=
  match r with DigitRule _ k => k | WordRule _ k _ => k end.

Definition at_boundary (rest : string) : bool :=
  match rest with
  | EmptyString => true
  | String c _ => negb (is_word c)
  end.

(** A match of the pattern that starts at the head of [s]: its length and
    the style value it yields.  The caller checks the leading [\b]. *)
Definition match_here (r : Rule) (s : string) : option (nat * SxValue) :=
  match r with
  | DigitRule p _ =>
      match strip_prefix p s with
      | Some (String d rest) =>
          if is_digit d && at_boundary rest
          then Some (S (String.length p), SxNumber (digit_value d))
          else None
      | _ => None
      end
  | WordRule w _ v =>
      match strip_prefix w s with
      | Some rest =>
          if at_boundary rest then Some (String.length w, SxString v) else None
      | None => None
      end
  end.

(** One left-to-right pass of a global regex over [s]: the values of the
    matches in order (the [exec] loop) and [s] with every match replaced by
    [repl] (the [replace] call).  [prev_word] tells whether the character
    before the head is a word character; [skip] counts the characters of a
    match still to be dropped. *)
Fixpoint scan (r : Rule) (repl : string) (prev_word : bool) (skip : nat)
         (s : string) : list SxValue * string :=
  match s with
  | EmptyString => ([], EmptyString)
  | String c s' =>
      match skip with
      | S k => scan r repl (is_word c) k s'
      | O =>
          match (if prev_word then None else match_here r s) with
          | Some (len, v) =>
              let (ms, rest) := scan r repl (is_word c) (Nat.pred len) s' in
              (v :: ms, (repl ++ rest)%string)
          | None =>
              let (ms, rest) := scan r repl (is_word c) 0 s' in
              (ms, String c rest)
          end
      end
  end.

(** [rules.forEach(rule => { while (m = rule.re.exec(cls)) Object.assign(sxObj,
    rule.sx(m)); cls = cls.replace(rule.re, repl).trim(); })] *)
Definition apply_rule (repl : string) (acc : Obj SxValue * string) (r : Rule)
  : Obj SxValue * string :=
  let (ms, rest) := scan r repl false 0 (snd acc) in
  (fold_left (fun o v => assign1 o (rule_key r) v) ms (fst acc), trim rest).

Definition extract (rules : list Rule) (repl : string) (cls : string)
  : Obj SxValue * string :=
  fold_left (apply_rule repl) rules ([], cls).

(** [typeof v === 'number' ? j.numericLiteral(v) : j.stringLiteral(v)] *)
Definition sx_expr (k : Ast.LitKind) (v : SxValue) : Ast.Expr :=
  match v with
  | SxNumber n => Ast.ELiteral k (JNumber n)
  | SxString s => Ast.ELiteral k (JString s)
  end.

End ClassRegex.

(* ===================================================================== *)
(** ** Helpers shared by the scripts that merge into an [sx] object *)
(* ===================================================================== *)

Module SxMerge.
Import Js Ast ClassRegex.

(** [properties.find(prop => prop.key.name === key)], as a truth value;
    reading [key.name] of a spread element throws. *)
Fixpoint find_key (key : string) (properties : list ObjMember) : option bool :=
  match properties with
  | [] => Some false
  | Property (KIdentifier n) _ :: r =>
      if String.eqb n key then Some true else find_key key r
  | Property _ _ :: r => find_key key r
  | SpreadElement _ :: _ => None
  end.

(** [entries.forEach(([key, value]) => { if (!properties.find(...))
    properties.push(mk(key, value)) })] *)
Fixpoint push_missing (mk : string * SxValue -> ObjMember)
         (properties : list ObjMember) (entries : Obj SxValue)
  : option (list ObjMember) :=
  match entries with
  | [] => Some properties
  | kv :: r =>
      match find_key (fst kv) properties with
      | None => None
      | Some true => push_missing mk properties r
      | Some false => push_missing mk (properties ++ [mk kv]) r
      end
  end.

(** The first attribute that satisfies [p], rewritten by [f]. *)
Fixpoint update_first (p : Attr -> bool) (f : Attr -> option Attr)
         (l : list Attr) : option (list Attr) :=
  match l with
  | [] => Some []
  | a :: r =>
      if p a then option_map (fun a' => a' :: r) (f a)
      else option_map (cons a) (update_first p f r)
  end.

(** The attribute at position [i], replaced. *)
Fixpoint set_nth (i : nat) (a : Attr) (l : list Attr) : list Attr :=
  match l, i with
  | [], _ => []
  | _ :: r, O => a :: r
  | b :: r, S k => b :: set_nth k a r
  end.

End SxMerge.

(* ===================================================================== *)
(** ** src/js/bootstrap_mui_claude.js *)
(* ===================================================================== *)

Module BootstrapMuiClaude.
Import Js Ast Walk ClassRegex.

Inductive Effect :=
| AddMUIImport (componentName : string)
| SetHasChanges.

Record MuiProps := { variant : string; color : string }.

Definition BUTTON_VARIANTS : Obj MuiProps :=
  [ ("primary", {| variant := "contained"; color := "primary" |});
    ("secondary", {| variant := "contained"; color := "secondary" |});
    ("success", {| variant := "contained"; color := "success" |});
    ("danger", {| variant := "contained"; color := "error" |});
    ("warning", {| variant := "contained"; color := "warning" |});
    ("info", {| variant := "contained"; color := "info" |});
    ("light", {| variant := "outlined"; color := "inherit" |});
    ("dark", {| variant := "contained"; color := "inherit" |});
    ("link", {| variant := "text"; color := "primary" |});
    ("outline-primary", {| variant := "outlined"; color := "primary" |});
    ("outline-secondary", {| variant := "outlined"; color := "secondary" |}) ].

Definition SIZE_MAP : Obj string := [ ("sm", "small"); ("lg", "large") ].

Definition ALERT_SEVERITY : Obj string :=
  [ ("primary", "info"); ("secondary", "info"); ("success", "success");
    ("danger", "error"); ("warning", "warning"); ("info", "info") ].

Definition CLASS_TO_SX : list Rule :=
  [ DigitRule "mb-" "mb"; DigitRule "mt-" "mt"; DigitRule "ms-" "ml";
    DigitRule "me-" "mr"; DigitRule "mx-" "mx"; DigitRule "my-" "my";
    DigitRule "p-" "p"; DigitRule "px-" "px"; DigitRule "py-" "py";
    DigitRule "pt-" "pt"; DigitRule "pb-" "pb";
    WordRule "d-flex" "display" "flex";
    WordRule "d-none" "display" "none";
    WordRule "text-center" "textAlign" "center";
    WordRule "justify-content-center" "justifyContent" "center";
    WordRule "align-items-center" "alignItems" "center";
    WordRule "flex-column" "flexDirection" "column";
    DigitRule "gap-" "gap" ].

(** [table[value]] for the payload of a literal.  No table of this file
    has a key that spells a number or a boolean. *)
Definition get_value {V} (o : Obj V) (v : Value) : Lookup V :=
  match v with
  | JString s => get o s
  | _ => Undefined
  end.

(** [attr.value?.type === 'Literal'], giving [attr.value.value]. *)
Definition literal_value (v : AttrValue) : option Value :=
  match v with
  | Bare (ELiteral Literal p) => Some p
  | _ => None
  end.

(** [j.jsxAttribute(j.jsxIdentifier(n), j.stringLiteral(s))] *)
Definition stringAttr (n s : string) : Attr :=
  JSXAttribute n (Bare (ELiteral Typed (JString s))).

(** *** Imports *)

(** [s.includes(sub)] *)
Fixpoint includes (s sub : string) : bool :=
  startsWith s sub ||
  match s with
  | EmptyString => false
  | String _ r => includes r sub
  end.

Definition addMUIImport (componentName : string)
           (imports : list ImportDeclaration) : list ImportDeclaration :=
  let importPath := ("@mui/material/" ++ componentName)%string in
  if existsb (fun d => String.eqb (source d) importPath) imports
  then imports
  else mkImport [ImportDefaultSpecifier componentName] Typed importPath :: imports.

Definition is_bootstrap_import (d : ImportDeclaration) : bool :=
  String.eqb (source d) "react-bootstrap" || includes (source d) "bootstrap/dist/css".

Record State := mkState {
  st_imports : list ImportDeclaration;
  hasChanges : bool
}.

Definition removeBootstrapImports (st : State) : State :=
  mkState (filter (fun d => negb (is_bootstrap_import d)) (st_imports st)) true.

Definition perform (st : State) (e : Effect) : State :=
  match e with
  | AddMUIImport c => mkState (addMUIImport c (st_imports st)) (hasChanges st)
  | SetHasChanges => mkState (st_imports st) true
  end.

(** *** mergeSxProp *)

(** [p.key?.name === k] *)
Definition key_is (k : string) (p : ObjMember) : bool :=
  match p with
  | Property (KIdentifier n) _ => String.eqb n k
  | _ => false
  end.

Definition sx_property (kv : string * SxValue) : ObjMember :=
  Property (KIdentifier (fst kv)) (sx_expr Typed (snd kv)).

(** [Object.entries(sxObj).forEach(([k, v]) => { if (!props.find(...)) props.push(...) })] *)
Definition push_missing (props : list ObjMember) (sxObj : Obj SxValue)
  : list ObjMember :=
  fold_left (fun ps kv => if existsb (key_is (fst kv)) ps then ps
                          else ps ++ [sx_property kv]) sxObj props.

(** The first attribute that satisfies [p], rewritten by [f]. *)
Fixpoint update_first (p : Attr -> bool) (f : Attr -> Attr) (l : list Attr)
  : list Attr :=
  match l with
  | [] => []
  | a :: r => if p a then f a :: r else a :: update_first p f r
  end.

Definition merge_into (sxObj : Obj SxValue) (a : Attr) : Attr :=
  match a with
  | JSXAttribute n (JSXExpressionContainer (EObject props)) =>
      JSXAttribute n (JSXExpressionContainer (EObject (push_missing props sxObj)))
  | _ => a
  end.

Definition mergeSxProp (attrs : list Attr) (sxObj : Obj SxValue) : list Attr :=
  match sxObj with
  | [] => attrs
  | _ =>
      if existsb (attr_named "sx") attrs
      then update_first (attr_named "sx") (merge_into sxObj) attrs
      else attrs ++
           [JSXAttribute "sx" (JSXExpressionContainer (EObject (map sx_property sxObj)))]
  end.

(** *** The element passes

    Each pass is [root.find(j.JSXElement, filter).forEach(callback)]; the
    callback below starts with the filter. *)

Definition W := Walk.W Effect.

Definition set_name (n : JSXName) (s : string) : JSXName :=
  match n with
  | JSXIdentifier _ => JSXIdentifier s
  | other => other
  end.

(** [name.name = s] on the opening name, and on the closing one if any. *)
Definition rename_in_place (s : string) (o : JSXName) (c : option JSXName)
  : JSXName * option JSXName :=
  (set_name o s, option_map (fun n => set_name n s) c).

(** [openingElement.name = j.jsxIdentifier(s);
     if (closingElement) closingElement.name = j.jsxIdentifier(s)] *)
Definition replace_name (s : string) (c : option JSXName)
  : JSXName * option JSXName :=
  (JSXIdentifier s, option_map (fun _ => JSXIdentifier s) c).

(** What one attribute of a Button contributes to [newAttrs], and whether
    it sets [hasVariant]. *)
Definition buttonAttr (attr : Attr) : option (list Attr * bool) :=
  match attr with
  | JSXSpreadAttribute _ => Some ([attr], false)
  | JSXAttribute name value =>
      match literal_value value with
      | Some bsVariant =>
          if String.eqb name "variant" then
            match get_value BUTTON_VARIANTS bsVariant with
            | Own muiProps =>
                Some ([stringAttr "variant" (variant muiProps);
                       stringAttr "color" (color muiProps)], true)
            | Undefined => Some ([], true)
            | Inherited => None
            end
          else if String.eqb name "size" then
            match get_value SIZE_MAP bsVariant with
            | Own muiSize => Some ([stringAttr "size" muiSize], false)
            | Undefined => Some ([attr], false)
            | Inherited => None
            end
          else Some ([attr], false)
      | None => Some ([attr], false)
      end
  end.

Fixpoint collect (f : Attr -> option (list Attr * bool)) (attrs : list Attr)
  : option (list Attr * bool) :=
  match attrs with
  | [] => Some ([], false)
  | a :: r =>
      match f a with
      | None => None
      | Some (out, flag) =>
          match collect f r with
          | None => None
          | Some (outs, flags) => Some (out ++ outs, flag || flags)
          end
      end
  end.

Definition buttonAttrs (attrs : list Attr) : option (list Attr) :=
  match collect buttonAttr attrs with
  | None => None
  | Some (newAttrs, hasVariant) =>
      Some (if hasVariant then newAttrs
            else stringAttr "variant" "contained" :: newAttrs)
  end.

Definition transformButton (n : Node) : W Node :=
  match n with
  | JSXElement o c attrs kids =>
      if name_is o "Button" then
        match buttonAttrs attrs with
        | None => None
        | Some newAttrs =>
            Some (JSXElement o c newAttrs kids, [AddMUIImport "Button"; SetHasChanges])
        end
      else ret n
  | _ => ret n
  end.

Definition alertAttr (attr : Attr) : option Attr :=
  match attr with
  | JSXAttribute name value =>
      if String.eqb name "variant" then
        match literal_value value with
        | Some v =>
            match get_value ALERT_SEVERITY v with
            | Own severity => Some (stringAttr "severity" severity)
            | Undefined => Some (stringAttr "severity" "info")
            | Inherited => None
            end
        | None => Some attr
        end
      else Some attr
  | _ => Some attr
  end.

Definition transformAlert (n : Node) : W Node :=
  match n with
  | JSXElement o c attrs kids =>
      if name_is o "Alert" then
        match mapOpt alertAttr attrs with
        | None => None
        | Some attrs' =>
            Some (JSXElement o c attrs' kids, [AddMUIImport "Alert"; SetHasChanges])
        end
      else ret n
  | _ => ret n
  end.

Definition modalAttr (attr : Attr) : Attr :=
  match attr with
  | JSXAttribute name value =>
      if String.eqb name "show" then JSXAttribute "open" value
      else if String.eqb name "onHide" then JSXAttribute "onClose" value
      else attr
  | _ => attr
  end.

Definition dialogPart (prop : string) : option string :=
  if String.eqb prop "Header" || String.eqb prop "Title" then Some "DialogTitle"
  else if String.eqb prop "Body" then Some "DialogContent"
  else if String.eqb prop "Footer" then Some "DialogActions"
  else None.

(** The function mapped over [path.node.children].  Assigning to
    [child.closingElement.name] throws on a self-closing child. *)
Definition modalChild (child : Node) : W Node :=
  match child with
  | JSXElement name closing attrs kids =>
      match member_of name "Modal" with
      | Some prop =>
          match dialogPart prop with
          | Some target =>
              match closing with
              | None => None
              | Some _ =>
                  Some (JSXElement (JSXIdentifier target) (Some (JSXIdentifier target))
                                   attrs kids,
                        [AddMUIImport target])
              end
          | None => ret child
          end
      | None => ret child
      end
  | _ => ret child
  end.

Definition transformModal (n : Node) : W Node :=
  match n with
  | JSXElement o c attrs kids =>
      if name_is o "Modal" then
        let (o', c') := rename_in_place "Dialog" o c in
        bind (mapW modalChild kids) (fun kids' =>
        bind (tell (AddMUIImport "Dialog")) (fun _ =>
        bind (tell SetHasChanges) (fun _ =>
        ret (JSXElement o' c' (map modalAttr attrs) kids'))))
      else ret n
  | _ => ret n
  end.

Definition has_attr (n : string) (attrs : list Attr) : bool :=
  existsb (attr_named n) attrs.

Definition transformRow (n : Node) : W Node :=
  match n with
  | JSXElement o c attrs kids =>
      if name_is o "Row" then
        let (o', c') := rename_in_place "Grid" o c in
        let attrs1 :=
          if has_attr "container" attrs then attrs
          else attrs ++ [JSXAttribute "container" NoValue] in
        let attrs2 :=
          if has_attr "spacing" attrs1 then attrs1
          else attrs1 ++ [JSXAttribute "spacing"
                            (JSXExpressionContainer (ELiteral Typed (JNumber 2)))] in
        Some (JSXElement o' c' attrs2 kids, [AddMUIImport "Grid"; SetHasChanges])
      else ret n
  | _ => ret n
  end.

Definition transformCol (n : Node) : W Node :=
  match n with
  | JSXElement o c attrs kids =>
      if name_is o "Col" then
        let (o', c') := rename_in_place "Grid" o c in
        let attrs' :=
          if has_attr "item" attrs then attrs
          else JSXAttribute "item" NoValue :: attrs in
        Some (JSXElement o' c' attrs' kids, [AddMUIImport "Grid"; SetHasChanges])
      else ret n
  | _ => ret n
  end.

(** [attrs.splice(attrs.findIndex(p), 1)] *)
Fixpoint remove_first (p : Attr -> bool) (l : list Attr) : list Attr :=
  match l with
  | [] => []
  | a :: r => if p a then r else a :: remove_first p r
  end.

Definition transformContainerElement (n : Node) : W Node :=
  match n with
  | JSXElement o c attrs kids =>
      if name_is o "Container" then
        if has_attr "fluid" attrs then
          Some (JSXElement o c
                  (remove_first (attr_named "fluid") attrs ++
                   [JSXAttribute "maxWidth"
                      (JSXExpressionContainer (ELiteral Typed (JBool false)))])
                  kids,
                [SetHasChanges; AddMUIImport "Container"])
        else Some (n, [AddMUIImport "Container"])
      else ret n
  | _ => ret n
  end.

Definition transformCard (n : Node) : W Node :=
  match n with
  | JSXElement o c attrs kids =>
      match member_of o "Card" with
      | Some prop =>
          if String.eqb prop "Body" then
            let (o', c') := replace_name "CardContent" c in
            Some (JSXElement o' c' attrs kids, [AddMUIImport "CardContent"; SetHasChanges])
          else if String.eqb prop "Header" then
            let (o', c') := replace_name "CardHeader" c in
            Some (JSXElement o' c' attrs kids, [AddMUIImport "CardHeader"; SetHasChanges])
          else if String.eqb prop "Title" then
            let (o', c') := replace_name "Typography" c in
            Some (JSXElement o' c'
                    (attrs ++ [stringAttr "variant" "h5"; stringAttr "component" "div"])
                    kids,
                  [AddMUIImport "Typography"; SetHasChanges])
          else ret n
      | None =>
          if name_is o "Card" then Some (n, [AddMUIImport "Card"]) else ret n
      end
  | _ => ret n
  end.

Definition transformFormControl (n : Node) : W Node :=
  match n with
  | JSXElement o c attrs kids =>
      match member_of o "Form" with
      | Some prop =>
          if String.eqb prop "Control" then
            let (o', c') := replace_name "TextField" c in
            Some (JSXElement o' c' attrs kids, [AddMUIImport "TextField"; SetHasChanges])
          else ret n
      | None => ret n
      end
  | _ => ret n
  end.

(** *** transformClassNamesToSx

    [root.find(j.JSXAttribute, { name: { name: 'className' } })] collects the
    attribute nodes first; the callback then edits the attribute list of
    the element that holds each of them.  Within one element the attributes
    are taken by their position in the list as it was collected; once a
    callback has filtered the [className] attributes out of the list, the
    later ones are no longer part of it ([attached = false]). *)

(** [val && val.type === 'Literal' && typeof val.value === 'string'] *)
Definition class_string (v : AttrValue) : option string :=
  match v with
  | Bare (ELiteral Literal (JString s)) => Some s
  | _ => None
  end.

Record ClassState := mkClassState {
  cur : list Attr;
  attached : bool;
  changed : bool
}.

Definition not_className (a : Attr) : bool := negb (attr_named "className" a).

Definition classNameStep (st : ClassState) (i : nat) (value : AttrValue)
  : ClassState :=
  match class_string value with
  | None => st
  | Some s =>
      let (sxObj, cls) := extract CLASS_TO_SX "" s in
      match sxObj with
      | [] => st
      | _ =>
          let merged := mergeSxProp (cur st) sxObj in
          if is_empty cls
          then mkClassState (filter not_className merged) false true
          else mkClassState
                 (if attached st
                  then SxMerge.set_nth i (stringAttr "className" cls) merged
                  else merged)
                 (attached st) true
      end
  end.

Fixpoint classNameLoop (i : nat) (collected : list Attr) (st : ClassState)
  : ClassState :=
  match collected with
  | [] => st
  | JSXAttribute n v :: r =>
      classNameLoop (S i) r
        (if String.eqb n "className" then classNameStep st i v else st)
  | JSXSpreadAttribute _ :: r => classNameLoop (S i) r st
  end.

Definition classNames (attrs : list Attr) : ClassState :=
  classNameLoop 0 attrs (mkClassState attrs true false).

Definition transformClassName (n : Node) : W Node :=
  match n with
  | JSXElement o c attrs kids =>
      let st := classNames attrs in
      Some (JSXElement o c (cur st) kids,
            if changed st then [SetHasChanges] else [])
  | _ => ret n
  end.

(** *** The transform *)

Definition runPass (cb : Node -> W Node) (st : State * list Stmt)
  : option (State * list Stmt) :=
  match forEachRoot cb (snd st) with
  | None => None
  | Some (body', log) => Some (fold_left perform log (fst st), body')
  end.

Fixpoint runPasses (passes : list (Node -> W Node)) (st : State * list Stmt)
  : option (State * list Stmt) :=
  match passes with
  | [] => Some st
  | cb :: r =>
      match runPass cb st with
      | None => None
      | Some st' => runPasses r st'
      end
  end.

Definition passes : list (Node -> W Node) :=
  [ transformButton; transformAlert; transformModal;
    transformRow; transformCol;
    transformContainerElement; transformCard; transformFormControl;
    transformClassName ].

(** [module.exports = function(fileInfo, api)]: [None] when a pass throws. *)
Definition transform (p : Program) : option Output :=
  match runPasses passes
          (removeBootstrapImports (mkState (imports p) false), body p) with
  | None => None
  | Some (st, body') =>
      Some (if hasChanges st
            then ToSource (mkProgram (st_imports st) body')
            else ReturnsNull)
  end.

End BootstrapMuiClaude.

(* ===================================================================== *)
(** ** src/js/bootstrap_mui_deep.js *)
(* ===================================================================== *)

(** In this script [None] also stands for a run that reads a member of
    [Object.prototype] out of a rule table and stores it in the tree. *)
Module BootstrapMuiDeep.
Import Js Ast Walk ClassRegex SxMerge.

Inductive Effect := SetHasChanges.

Definition W := Walk.W Effect.

Inductive DefaultProp :=
| PBool (b : bool)
| PNumber (n : Z)
| PString (s : string)
| PObject (o : Obj SxValue).

Record Config := mkConfig {
  name : string;
  import : string;
  propMap : option (Obj (Obj string));
  props : Obj DefaultProp
}.

Definition plain (n i : string) : Config := mkConfig n i None [].

Definition severityMap : Obj string :=
  [ ("primary", "info"); ("secondary", "info"); ("success", "success");
    ("danger", "error"); ("warning", "warning"); ("info", "info");
    ("light", "info"); ("dark", "info") ].

Definition COMPONENT_MAP : Obj Config :=
  [ ("Button",
     mkConfig "Button" "@mui/material/Button"
       (Some
          [ ("variant",
             [ ("primary", "contained"); ("secondary", "outlined");
               ("success", "contained"); ("danger", "contained");
               ("warning", "contained"); ("info", "contained");
               ("light", "outlined"); ("dark", "contained"); ("link", "text") ]);
            ("color",
             [ ("primary", "primary"); ("secondary", "secondary");
               ("success", "success"); ("danger", "error");
               ("warning", "warning"); ("info", "info");
               ("light", "default"); ("dark", "primary"); ("link", "primary") ]);
            ("size", [ ("sm", "small"); ("lg", "large") ]) ])
       []);
    ("Alert", plain "Alert" "@mui/material/Alert");
    ("Container", plain "Container" "@mui/material/Container");
    ("Card", plain "Card" "@mui/material/Card");
    ("Badge", plain "Badge" "@mui/material/Badge");
    ("Spinner", plain "CircularProgress" "@mui/material/CircularProgress");
    ("Row", mkConfig "Grid" "@mui/material/Grid" None
              [ ("container", PBool true); ("spacing", PNumber 2) ]);
    ("Col", mkConfig "Grid" "@mui/material/Grid" None
              [ ("item", PBool true); ("xs", PNumber 12) ]);
    ("Navbar", plain "AppBar" "@mui/material/AppBar");
    ("Nav", plain "Toolbar" "@mui/material/Toolbar");
    ("Form", plain "Box" "@mui/material/Box");
    ("FormControl", plain "TextField" "@mui/material/TextField");
    ("FormLabel", plain "InputLabel" "@mui/material/InputLabel");
    ("Form.Check", plain "Checkbox" "@mui/material/Checkbox");
    ("Modal", plain "Dialog" "@mui/material/Dialog") ].

Definition SUBCOMPONENT_MAP : list ((string * string) * Config) :=
  [ (("Card", "Body"), plain "CardContent" "@mui/material/CardContent");
    (("Card", "Header"), plain "CardHeader" "@mui/material/CardHeader");
    (("Card", "Footer"), plain "Box" "@mui/material/Box");
    (("Card", "Title"),
     mkConfig "Typography" "@mui/material/Typography" None
       [ ("variant", PString "h5"); ("component", PString "div") ]);
    (("Card", "Text"),
     mkConfig "Typography" "@mui/material/Typography" None
       [ ("variant", PString "body2"); ("color", PString "text.secondary") ]);
    (("Modal", "Header"), plain "DialogTitle" "@mui/material/DialogTitle");
    (("Modal", "Body"), plain "DialogContent" "@mui/material/DialogContent");
    (("Modal", "Footer"), plain "DialogActions" "@mui/material/DialogActions");
    (("Modal", "Title"), plain "DialogTitle" "@mui/material/DialogTitle");
    (("Navbar", "Brand"),
     mkConfig "Typography" "@mui/material/Typography" None
       [ ("variant", PString "h6"); ("component", PString "div");
         ("sx", PObject [ ("flexGrow", SxNumber 1) ]) ]) ].

(** ['m-0': { m: 0 }, ..., 'm-5': { m: 5 }] for one spacing property. *)
Definition spacing (p : string) : Obj (string * SxValue) :=
  map (fun d => ((p ++ "-" ++ fst d)%string, (p, SxNumber (snd d))))
      [ ("0", 0%Z); ("1", 1%Z); ("2", 2%Z); ("3", 3%Z); ("4", 4%Z); ("5", 5%Z) ].

Definition str (cls key value : string) : string * (string * SxValue) :=
  (cls, (key, SxString value)).

(** Every entry of the table is an object with one key. *)
Definition CLASSNAME_TO_SX : Obj (string * SxValue) :=
  spacing "m" ++ spacing "mt" ++ spacing "mb" ++ spacing "ml" ++ spacing "mr"
  ++ spacing "mx" ++ spacing "my" ++ spacing "p" ++ spacing "pt"
  ++ spacing "pb" ++ spacing "pl" ++ spacing "pr" ++ spacing "px"
  ++ spacing "py" ++
  [ str "d-flex" "display" "flex";
    str "d-none" "display" "none";
    str "d-block" "display" "block";
    str "d-inline" "display" "inline";
    str "d-inline-block" "display" "inline-block";
    str "justify-content-start" "justifyContent" "flex-start";
    str "justify-content-end" "justifyContent" "flex-end";
    str "justify-content-center" "justifyContent" "center";
    str "justify-content-between" "justifyContent" "space-between";
    str "justify-content-around" "justifyContent" "space-around";
    str "align-items-start" "alignItems" "flex-start";
    str "align-items-end" "alignItems" "flex-end";
    str "align-items-center" "alignItems" "center";
    str "align-items-baseline" "alignItems" "baseline";
    str "align-items-stretch" "alignItems" "stretch";
    str "flex-column" "flexDirection" "column";
    str "flex-row" "flexDirection" "row";
    str "flex-wrap" "flexWrap" "wrap";
    str "flex-nowrap" "flexWrap" "nowrap";
    str "flex-fill" "flex" "1 1 auto";
    str "text-start" "textAlign" "left";
    str "text-center" "textAlign" "center";
    str "text-end" "textAlign" "right";
    str "text-justify" "textAlign" "justify";
    str "text-uppercase" "textTransform" "uppercase";
    str "text-lowercase" "textTransform" "lowercase";
    str "text-capitalize" "textTransform" "capitalize";
    str "fw-bold" "fontWeight" "bold";
    str "fw-bolder" "fontWeight" "bolder";
    str "fw-normal" "fontWeight" "normal";
    str "fw-light" "fontWeight" "light";
    str "fst-italic" "fontStyle" "italic";
    str "text-primary" "color" "primary.main";
    str "text-secondary" "color" "secondary.main";
    str "text-success" "color" "success.main";
    str "text-danger" "color" "error.main";
    str "text-warning" "color" "warning.main";
    str "text-info" "color" "info.main";
    str "text-muted" "color" "text.secondary";
    str "w-100" "width" "100%";
    str "h-100" "height" "100%";
    str "vw-100" "width" "100vw";
    str "vh-100" "height" "100vh";
    str "position-relative" "position" "relative";
    str "position-absolute" "position" "absolute";
    str "position-fixed" "position" "fixed";
    str "position-sticky" "position" "sticky";
    str "border" "border" "1px solid";
    ("border-0", ("border", SxNumber 0));
    ("rounded", ("borderRadius", SxNumber 1));
    ("rounded-0", ("borderRadius", SxNumber 0));
    str "bg-primary" "backgroundColor" "primary.main";
    str "bg-secondary" "backgroundColor" "secondary.main";
    str "bg-success" "backgroundColor" "success.main";
    str "bg-danger" "backgroundColor" "error.main";
    str "bg-warning" "backgroundColor" "warning.main";
    str "bg-info" "backgroundColor" "info.main";
    str "bg-light" "backgroundColor" "grey.100";
    str "bg-dark" "backgroundColor" "grey.900" ].

(** *** addImport *)

(** After the last import, or first in the body when there is none. *)
Definition addImport (source componentName : string)
           (imports : list ImportDeclaration) : list ImportDeclaration :=
  let fix add (l : list ImportDeclaration) : option (list ImportDeclaration) :=
    match l with
    | [] => None
    | d :: r =>
        if String.eqb (Ast.source d) source then
          Some ((if existsb (fun s => String.eqb (local_name s) componentName)
                            (specifiers d)
                 then d
                 else mkImport (specifiers d ++ [ImportDefaultSpecifier componentName])
                               (source_kind d) (Ast.source d)) :: r)
        else option_map (cons d) (add r)
    end in
  match add imports with
  | Some imports' => imports'
  | None => imports ++ [mkImport [ImportDefaultSpecifier componentName] Literal source]
  end.

(** *** mergeSxAttribute *)

(** [typeof value === 'string' ? j.stringLiteral(value) : j.numericLiteral(value)] *)
Definition sx_property (kv : string * SxValue) : ObjMember :=
  Property (KIdentifier (fst kv)) (sx_expr Typed (snd kv)).

(** [attr.name?.name === n] *)
Definition named (n : string) (a : Attr) : bool := attr_named n a.

Definition merge_into (newSxProps : Obj SxValue) (a : Attr) : option Attr :=
  match a with
  | JSXAttribute n (JSXExpressionContainer (EObject properties)) =>
      option_map (fun ps => JSXAttribute n (JSXExpressionContainer (EObject ps)))
                 (push_missing sx_property properties newSxProps)
  | _ => Some a
  end.

Definition mergeSxAttribute (attributes : list Attr) (newSxProps : Obj SxValue)
  : option (list Attr) :=
  if existsb (named "sx") attributes
  then update_first (named "sx") (merge_into newSxProps) attributes
  else Some (attributes ++
             [JSXAttribute "sx"
                (JSXExpressionContainer (EObject (map sx_property newSxProps)))]).

(** *** convertClassNameToSx

    (The source has [c.trim'] where [c.trim()] is meant in one of the two
    filters; both are read as [c.trim()].) *)

(** [value.split(' ').filter(c => c.trim())] *)
Definition tokens (s : string) : list string :=
  filter (fun c => negb (is_empty (trim c))) (split_space s).

(** The classes of [classNameAttr.value]; reading [.type] of a missing
    value throws. *)
Definition class_tokens (classValue : AttrValue) : option (list string) :=
  match classValue with
  | NoValue => None
  | Bare (ELiteral Typed (JString s)) => Some (tokens s)
  | JSXExpressionContainer (ELiteral Typed (JString s)) => Some (tokens s)
  | _ => Some []
  end.

(** [if (CLASSNAME_TO_SX[cls]) Object.assign(sxProps, CLASSNAME_TO_SX[cls]);
     else remainingClasses.push(cls);]
    An inherited member is truthy and has nothing to copy. *)
Definition classify (acc : Obj SxValue * list string) (cls : string)
  : Obj SxValue * list string :=
  match get CLASSNAME_TO_SX cls with
  | Own (k, v) => (assign1 (fst acc) k v, snd acc)
  | Inherited => acc
  | Undefined => (fst acc, snd acc ++ [cls])
  end.

Definition set_class (cls : string) (a : Attr) : option Attr :=
  match a with
  | JSXAttribute n _ => Some (JSXAttribute n (Bare (ELiteral Typed (JString cls))))
  | _ => Some a
  end.

Definition not_className (a : Attr) : bool := negb (named "className" a).

Definition convertClassNameToSx (attributes : list Attr) : W (list Attr) :=
  match find (named "className") attributes with
  | Some (JSXAttribute _ classValue) =>
      match class_tokens classValue with
      | None => None
      | Some [] => ret attributes
      | Some classes =>
          let (sxProps, remainingClasses) := fold_left classify classes ([], []) in
          bind (match sxProps with
                | [] => ret attributes
                | _ => match mergeSxAttribute attributes sxProps with
                       | None => None
                       | Some merged => Some (merged, [SetHasChanges])
                       end
                end) (fun attrs1 =>
          match remainingClasses with
          | [] => ret (filter not_className attrs1)
          | _ =>
              match update_first (named "className")
                      (set_class (join " " remainingClasses)) attrs1 with
              | None => None
              | Some attrs2 => ret attrs2
              end
          end)
      end
  | _ => ret attributes
  end.

(** *** Step 2: the components of [COMPONENT_MAP] *)

Definition truthy (v : Value) : bool :=
  match v with
  | JString s => negb (is_empty s)
  | JNumber n => negb (Z.eqb n 0)
  | JInfinity _ => true
  | JNaN => false
  | JBool b => b
  end.

(** [attr.value.value || attr.value.expression?.value] *)
Definition read_value (v : AttrValue) : option Value :=
  match v with
  | Bare (ELiteral _ p) => if truthy p then Some p else None
  | JSXExpressionContainer (ELiteral _ p) => Some p
  | _ => None
  end.

(** [attr.value.value = mapped]: on a container the assignment adds a
    field that is never read again nor printed. *)
Definition set_value (v : AttrValue) (mapped : string) : AttrValue :=
  match v with
  | Bare (ELiteral k _) => Bare (ELiteral k (JString mapped))
  | other => other
  end.

(** The callback of [element.attributes.forEach] in step 2.
    [attr.name?.name in muiConfig.propMap] holds of the names of
    [Object.prototype] too; the lookup [propMap[name][value]] on an
    inherited built-in function, and the assignment of an inherited
    member of the enumeration, are not followed here (the result is
    [None]), and what is proved through this function is stated for other
    names and values. *)
Definition applyPropMap (pm : Obj (Obj string)) (attr : Attr) : option Attr :=
  match attr with
  | JSXSpreadAttribute _ => Some attr
  | JSXAttribute n NoValue => Some attr
  | JSXAttribute n v =>
      match get pm n with
      | Undefined => Some attr
      | Inherited =>
          match read_value v with
          | Some p => if truthy p then None else Some attr
          | None => Some attr
          end
      | Own enumeration =>
          match read_value v with
          | Some (JString s) =>
              if is_empty s then Some attr
              else match get enumeration s with
                   | Own mapped => Some (JSXAttribute n (set_value v mapped))
                   | Inherited => None
                   | Undefined => Some attr
                   end
          | _ => Some attr
          end
      end
  end.

Definition componentDefault (kv : string * DefaultProp) : option Attr :=
  match snd kv with
  | PBool _ => Some (JSXAttribute (fst kv) NoValue)
  | PString s =>
      Some (JSXAttribute (fst kv) (JSXExpressionContainer (ELiteral Typed (JString s))))
  | PNumber n =>
      Some (JSXAttribute (fst kv) (JSXExpressionContainer (ELiteral Typed (JNumber n))))
  | PObject _ => None
  end.

Definition set_name (n : JSXName) (s : string) : JSXName :=
  match n with
  | JSXIdentifier _ => JSXIdentifier s
  | other => other
  end.

Definition lift {A} (o : option A) : W A :=
  match o with
  | None => None
  | Some a => ret a
  end.

Definition convertComponent (bootstrapName : string) (muiConfig : Config)
           (n : Node) : W Node :=
  match n with
  | JSXElement o c attrs kids =>
      if name_is o bootstrapName then
        bind (lift (match propMap muiConfig with
                    | Some pm => mapOpt (applyPropMap pm) attrs
                    | None => Some attrs
                    end)) (fun attrs1 =>
        bind (lift (mapOpt componentDefault (props muiConfig))) (fun defaults =>
        bind (convertClassNameToSx (attrs1 ++ defaults)) (fun attrs2 =>
        bind (tell SetHasChanges) (fun _ =>
        ret (JSXElement (set_name o (name muiConfig))
                        (option_map (fun x => set_name x (name muiConfig)) c)
                        attrs2 kids)))))
      else ret n
  | _ => ret n
  end.

(** *** Step 3: the sub-components of [SUBCOMPONENT_MAP] *)

Definition subDefault (attrs : option (list Attr)) (kv : string * DefaultProp)
  : option (list Attr) :=
  match attrs with
  | None => None
  | Some l =>
      match snd kv with
      | PObject o => mergeSxAttribute l o
      | PBool _ => Some (l ++ [JSXAttribute (fst kv) NoValue])
      | PString s =>
          Some (l ++ [JSXAttribute (fst kv) (Bare (ELiteral Typed (JString s)))])
      | PNumber _ => None
      end
  end.

Definition is_member (n : JSXName) (parent child : string) : bool :=
  match n with
  | JSXMemberExpression obj p => name_is obj parent && String.eqb p child
  | _ => false
  end.

Definition convertSubComponent (parent child : string) (muiConfig : Config)
           (n : Node) : W Node :=
  match n with
  | JSXElement o c attrs kids =>
      if is_member o parent child then
        bind (lift (fold_left subDefault (props muiConfig) (Some attrs))) (fun attrs1 =>
        bind (convertClassNameToSx attrs1) (fun attrs2 =>
        bind (tell SetHasChanges) (fun _ =>
        ret (JSXElement (JSXIdentifier (name muiConfig))
                        (option_map (fun _ => JSXIdentifier (name muiConfig)) c)
                        attrs2 kids))))
      else ret n
  | _ => ret n
  end.

(** *** Step 4: column classes, [/^col-(xs|sm|md|lg|xl)?-?(\d+)$/] *)

Definition breakpoints : list string := [ "xs"; "sm"; "md"; "lg"; "xl" ].

Definition strip_dash (s : string) : string :=
  match strip_prefix "-" s with Some r => r | None => s end.

(** The captures of the expression on [c]: the breakpoint, if any, and
    the digits. *)
Definition match_col (c : string) : option (option string * Z) :=
  match strip_prefix "col-" c with
  | None => None
  | Some rest =>
      let with_bp :=
        fold_right (fun bp found =>
                      match found with
                      | Some m => Some m
                      | None =>
                          match strip_prefix bp rest with
                          | Some r =>
                              option_map (fun z => (Some bp, z))
                                         (digits_value (strip_dash r))
                          | None => None
                          end
                      end) None (rev breakpoints) in
      match with_bp with
      | Some m => Some m
      | None => option_map (fun z => (None, z)) (digits_value (strip_dash rest))
      end
  end.

(** [classNameAttr.value.value || (expression?.type === 'StringLiteral' ?
    expression.value : '')], then [classValue.split(' ')], which only a
    string has. *)
Definition col_classes (v : AttrValue) : option (list string) :=
  match v with
  | Bare (ELiteral _ (JString s)) => Some (if is_empty s then [] else split_space s)
  | Bare (ELiteral _ p) => if truthy p then None else Some []
  | JSXExpressionContainer (ELiteral Typed (JString s)) =>
      Some (if is_empty s then [] else split_space s)
  | _ => Some []
  end.

Definition is_col_class (c : string) : bool :=
  match match_col c with Some _ => true | None => false end.

Definition convertCol (n : Node) : W Node :=
  match n with
  | JSXElement o c attrs kids =>
      if name_is o "Col" then
        match find (named "className") attrs with
        | Some (JSXAttribute _ v) =>
            match col_classes v with
            | None => None
            | Some classes =>
                match find is_col_class classes with
                | None => ret n
                | Some colClass =>
                    match match_col colClass with
                    | None => ret n
                    | Some (bp, size) =>
                        let breakpoint := match bp with Some b => b | None => "xs" end in
                        let pushed :=
                          attrs ++ [JSXAttribute breakpoint
                                      (JSXExpressionContainer (ELiteral Typed (JNumber size)))] in
                        let remainingClasses :=
                          filter (fun x => negb (String.eqb x colClass)) classes in
                        bind (lift (match remainingClasses with
                                    | [] => Some (filter not_className pushed)
                                    | _ => update_first (named "className")
                                             (set_class (join " " remainingClasses)) pushed
                                    end)) (fun attrs' =>
                        bind (tell SetHasChanges) (fun _ =>
                        ret (JSXElement o c attrs' kids)))
                    end
                end
            end
        | _ => ret n
        end
      else ret n
  | _ => ret n
  end.

(** *** Step 5: Alert *)

(** [variantAttr.value.value] *)
Definition bare_value (v : AttrValue) : option Value :=
  match v with
  | Bare (ELiteral _ p) => Some p
  | _ => None
  end.

Definition convertAlertAttr (a : Attr) : option (Attr * bool) :=
  match a with
  | JSXAttribute n v =>
      match bare_value v with
      | Some (JString variant) =>
          match get severityMap variant with
          | Own severity => Some (JSXAttribute "severity" (set_value v severity), true)
          | Inherited => None
          | Undefined => Some (a, false)
          end
      | _ => Some (a, false)
      end
  | _ => Some (a, false)
  end.

Fixpoint convertAlertAttrs (attrs : list Attr) : option (list Attr * bool) :=
  match attrs with
  | [] => Some ([], false)
  | a :: r =>
      if named "variant" a
      then option_map (fun x => (fst x :: r, snd x)) (convertAlertAttr a)
      else option_map (fun x => (a :: fst x, snd x)) (convertAlertAttrs r)
  end.

Definition convertAlert (n : Node) : W Node :=
  match n with
  | JSXElement o c attrs kids =>
      if name_is o "Alert" then
        match convertAlertAttrs attrs with
        | None => None
        | Some (attrs', hit) =>
            Some (JSXElement o c attrs' kids, if hit then [SetHasChanges] else [])
        end
      else ret n
  | _ => ret n
  end.

(** *** Step 6: Container fluid *)

Definition convertContainer (n : Node) : W Node :=
  match n with
  | JSXElement o c attrs kids =>
      if name_is o "Container" then
        if existsb (named "fluid") attrs then
          Some (JSXElement o c
                  (filter (fun a => negb (named "fluid" a)) attrs ++
                   [JSXAttribute "maxWidth"
                      (JSXExpressionContainer (ELiteral Typed (JBool false)))])
                  kids,
                [SetHasChanges])
        else ret n
      else ret n
  | _ => ret n
  end.

(** *** Step 7: the imports of the components in use *)

Definition configs : list Config :=
  values COMPONENT_MAP ++ map snd SUBCOMPONENT_MAP.

Definition is_target (s : string) : bool :=
  existsb (fun cfg => String.eqb (name cfg) s) configs.

(** [usedComponents.add(name)] over the elements in document order. *)
Definition usedComponents (b : list Stmt) : list string :=
  fold_left (fun used o =>
               match name_of o with
               | Some s => if is_target s && negb (mem s used) then used ++ [s] else used
               | None => used
               end)
            (flat_map (fun s => flat_map opening_names (jsx s)) b) [].

Definition addComponentImport (imports : list ImportDeclaration) (componentName : string)
  : list ImportDeclaration :=
  match find (fun cfg => String.eqb (name cfg) componentName) configs with
  | Some componentConfig => addImport (import componentConfig) componentName imports
  | None => imports
  end.

Definition addMuiImports (imports : list ImportDeclaration) (b : list Stmt)
  : list ImportDeclaration :=
  let used := usedComponents b in
  let imports' := fold_left addComponentImport used imports in
  match used with
  | [] => imports'
  | _ => addImport "@mui/material/styles" "ThemeProvider" imports'
  end.

(** *** The transform *)

(** [source.includes('bootstrap') || source.includes('react-bootstrap')] *)
Definition is_bootstrap_import (d : ImportDeclaration) : bool :=
  BootstrapMuiClaude.includes (source d) "bootstrap"
  || BootstrapMuiClaude.includes (source d) "react-bootstrap".

Record State := mkState {
  st_imports : list ImportDeclaration;
  st_body : list Stmt;
  hasChanges : bool
}.

(** Step 1. *)
Definition removeBootstrapImports (st : State) : State :=
  mkState (filter (fun d => negb (is_bootstrap_import d)) (st_imports st))
          (st_body st)
          (hasChanges st || existsb is_bootstrap_import (st_imports st)).

Definition runPass (cb : Node -> W Node) (st : State) : option State :=
  match forEachRoot cb (st_body st) with
  | None => None
  | Some (body', log) =>
      Some (mkState (st_imports st) body'
                    (match log with [] => hasChanges st | _ => true end))
  end.

Fixpoint runPasses (passes : list (Node -> W Node)) (st : State) : option State :=
  match passes with
  | [] => Some st
  | cb :: r =>
      match runPass cb st with
      | None => None
      | Some st' => runPasses r st'
      end
  end.

Definition componentPasses : list (Node -> W Node) :=
  map (fun e => convertComponent (fst e) (snd e)) COMPONENT_MAP.

Definition subComponentPasses : list (Node -> W Node) :=
  map (fun e => convertSubComponent (fst (fst e)) (snd (fst e)) (snd e))
      SUBCOMPONENT_MAP.

Definition passes : list (Node -> W Node) :=
  componentPasses ++ subComponentPasses ++ [convertCol; convertAlert; convertContainer].

Definition transform (p : Program) : option Output :=
  match runPasses passes
          (removeBootstrapImports (mkState (imports p) (body p) false)) with
  | None => None
  | Some st =>
      Some (if hasChanges st
            then ToSource (mkProgram (addMuiImports (st_imports st) (st_body st))
                                     (st_body st))
            else ReturnsSource)
  end.

End BootstrapMuiDeep.

(* ===================================================================== *)
(** ** src/js/react-bootstrap-to-mui_claude.js *)
(* ===================================================================== *)

Module RbToMuiClaude.
Import Js Ast Walk.

Inductive Effect := SetHasChanges.

Definition W := Walk.W Effect.

(** [null] entries are kept: they are own keys with a falsy value. *)
Definition componentMap : Obj (option string) :=
  [ ("Container", Some "@mui/material/Container");
    ("Row", None);
    ("Col", Some "@mui/material/Grid");
    ("Button", Some "@mui/material/Button");
    ("ButtonGroup", Some "@mui/material/ButtonGroup");
    ("Form", None);
    ("FormControl", Some "@mui/material/FormControl");
    ("FormGroup", Some "@mui/material/FormGroup");
    ("FormLabel", Some "@mui/material/FormLabel");
    ("FormCheck", Some "@mui/material/Checkbox");
    ("InputGroup", Some "@mui/material/TextField");
    ("Nav", Some "@mui/material/Tabs");
    ("Navbar", Some "@mui/material/AppBar");
    ("NavDropdown", Some "@mui/material/Menu");
    ("Alert", Some "@mui/material/Alert");
    ("Badge", Some "@mui/material/Badge");
    ("Card", Some "@mui/material/Card");
    ("CardBody", Some "@mui/material/CardContent");
    ("CardHeader", Some "@mui/material/CardHeader");
    ("CardFooter", Some "@mui/material/CardActions");
    ("Dropdown", Some "@mui/material/Select");
    ("Modal", Some "@mui/material/Dialog");
    ("ModalHeader", Some "@mui/material/DialogTitle");
    ("ModalBody", Some "@mui/material/DialogContent");
    ("ModalFooter", Some "@mui/material/DialogActions");
    ("Spinner", Some "@mui/material/CircularProgress");
    ("Table", Some "@mui/material/Table");
    ("Toast", Some "@mui/material/Snackbar");
    ("Tooltip", Some "@mui/material/Tooltip");
    ("Pagination", Some "@mui/material/Pagination");
    ("ProgressBar", Some "@mui/material/LinearProgress");
    ("ListGroup", Some "@mui/material/List");
    ("ListGroupItem", Some "@mui/material/ListItem") ].

(** [set.add(x)] on a set kept in insertion order. *)
Definition add (x : string) (set : list string) : list string :=
  if mem x set then set else set ++ [x].

Definition from_react_bootstrap (d : ImportDeclaration) : bool :=
  String.eqb (source d) "react-bootstrap".

Definition imported_names (d : ImportDeclaration) : list string :=
  flat_map (fun spec => match spec with
                        | ImportSpecifier imported _ => [imported]
                        | _ => []
                        end) (specifiers d).

Definition bootstrapImports (p : Program) : list string :=
  fold_left (fun set x => add x set)
            (flat_map imported_names (filter from_react_bootstrap (imports p))) [].

(** Function-valued variables, then function declarations, then classes,
    each found at every depth of the module. *)
Definition localComponents (p : Program) : list string :=
  let found := flat_map (fun s => declarations (kind s)) (body p) in
  let pick (f : StmtKind -> option string) :=
    flat_map (fun k => match f k with Some x => [x] | None => [] end) found in
  fold_left (fun set x => add x set)
    (pick (fun k => match k with VariableFunction x => Some x | _ => None end)
     ++ pick (fun k => match k with FunctionDeclaration x => Some x | _ => None end)
     ++ pick (fun k => match k with ClassDeclaration x => Some x | _ => None end))
    [].

(** [componentMap[comp]] as a condition. *)
Definition mapped (comp : string) : bool :=
  match get componentMap comp with
  | Own (Some _) => true
  | Own None => false
  | Inherited => true
  | Undefined => false
  end.

Definition componentsToReplace (p : Program) : list string :=
  filter (fun comp => negb (mem comp (localComponents p)) && mapped comp)
         (bootstrapImports p).

Definition muiCompName (comp : string) : string :=
  if String.eqb comp "CardBody" then "CardContent"
  else if String.eqb comp "CardFooter" then "CardActions"
  else if String.eqb comp "FormCheck" then "Checkbox"
  else if String.eqb comp "Spinner" then "CircularProgress"
  else if String.eqb comp "ProgressBar" then "LinearProgress"
  else if String.eqb comp "ListGroupItem" then "ListItem"
  else if String.eqb comp "ModalHeader" then "DialogTitle"
  else if String.eqb comp "ModalBody" then "DialogContent"
  else if String.eqb comp "ModalFooter" then "DialogActions"
  else comp.

Definition muiComp (bootstrapComp : string) : string :=
  if String.eqb bootstrapComp "CardBody" then "CardContent"
  else if String.eqb bootstrapComp "CardFooter" then "CardActions"
  else if String.eqb bootstrapComp "FormCheck" then "Checkbox"
  else if String.eqb bootstrapComp "Spinner" then "CircularProgress"
  else if String.eqb bootstrapComp "ProgressBar" then "LinearProgress"
  else if String.eqb bootstrapComp "ListGroupItem" then "ListItem"
  else if String.eqb bootstrapComp "ModalHeader" then "DialogTitle"
  else if String.eqb bootstrapComp "ModalBody" then "DialogContent"
  else if String.eqb bootstrapComp "ModalFooter" then "DialogActions"
  else if String.eqb bootstrapComp "Modal" then "Dialog"
  else bootstrapComp.

(** [muiImports]: a Map from module path to the names pushed for it.  A
    component whose table entry is inherited has a function for a path,
    which [j.literal] rejects when the import is built. *)
Fixpoint push_name (path name : string) (m : list (string * list string))
  : list (string * list string) :=
  match m with
  | [] => [(path, [name])]
  | (p, names) :: r =>
      if String.eqb p path then (p, names ++ [name]) :: r
      else (p, names) :: push_name path name r
  end.

Definition muiImports (comps : list string) : option (list (string * list string)) :=
  fold_left (fun acc comp =>
               match acc with
               | None => None
               | Some m =>
                   match get componentMap comp with
                   | Own (Some muiPath) => Some (push_name muiPath (muiCompName comp) m)
                   | Inherited => None
                   | _ => Some m
                   end
               end) comps (Some []).

Definition importStatement (e : string * list string) : ImportDeclaration :=
  mkImport (map (fun comp => ImportSpecifier comp comp)
                (fold_left (fun set x => add x set) (snd e) []))
           Literal (fst e).

(** The opening names, then the closing names, of one component. *)
Definition buttonVariant (a : Attr) : option Attr :=
  match a with
  | JSXAttribute n v =>
      if String.eqb n "variant" then
        match v with
        | NoValue => None
        | Bare (ELiteral k (JString s)) =>
            Some (JSXAttribute n (Bare (ELiteral k (JString
              (if String.eqb s "primary" then "contained"
               else if String.eqb s "secondary" then "outlined"
               else if String.eqb s "link" then "text"
               else s)))))
        | _ => Some a
        end
      else Some a
  | _ => Some a
  end.

Definition rename_show (a : Attr) : option Attr :=
  match a with
  | JSXAttribute _ v => Some (JSXAttribute "open" v)
  | _ => Some a
  end.

Definition set_name (n : JSXName) (s : string) : JSXName :=
  match n with
  | JSXIdentifier _ => JSXIdentifier s
  | other => other
  end.

Definition replaceOpening (bootstrapComp : string) (o : JSXName) (attrs : list Attr)
  : option (JSXName * list Attr) :=
  if name_is o bootstrapComp then
    match (if String.eqb bootstrapComp "Button"
           then mapOpt buttonVariant attrs else Some attrs) with
    | None => None
    | Some attrs1 =>
        let attrs2 :=
          if String.eqb bootstrapComp "Col"
          then attrs1 ++ [JSXAttribute "item" NoValue] else attrs1 in
        let '(o3, attrs3) :=
          if String.eqb bootstrapComp "Row"
          then (JSXIdentifier "Grid",
                attrs2 ++ [JSXAttribute "container" NoValue;
                           JSXAttribute "spacing"
                             (JSXExpressionContainer (ELiteral Typed (JNumber 2)))])
          else (set_name o (muiComp bootstrapComp), attrs2) in
        match (if String.eqb bootstrapComp "Modal"
               then SxMerge.update_first (attr_named "show") rename_show attrs3
               else Some attrs3) with
        | None => None
        | Some attrs4 => Some (o3, attrs4)
        end
    end
  else Some (o, attrs).

Definition replaceClosing (bootstrapComp : string) (c : option JSXName)
  : option JSXName :=
  match c with
  | Some n => if name_is n bootstrapComp
              then Some (set_name n (muiComp bootstrapComp)) else c
  | None => None
  end.

Definition replaceComponent (bootstrapComp : string) (n : Node) : W Node :=
  match n with
  | JSXElement o c attrs kids =>
      match replaceOpening bootstrapComp o attrs with
      | None => None
      | Some (o', attrs') =>
          Some (JSXElement o' (replaceClosing bootstrapComp c) attrs' kids,
                if name_is o bootstrapComp
                   || match c with Some x => name_is x bootstrapComp | None => false end
                then [SetHasChanges] else [])
      end
  | _ => ret n
  end.

Fixpoint runPasses (comps : list string) (b : list Stmt) : option (list Stmt) :=
  match comps with
  | [] => Some b
  | comp :: r =>
      match forEachRoot (replaceComponent comp) b with
      | None => None
      | Some (b', _) => runPasses r b'
      end
  end.

(** [None] when the run throws.  Past the early return [hasChanges] is set
    by the removal of the imports, so the printed module is returned. *)
Definition transform (p : Program) : option Output :=
  match bootstrapImports p with
  | [] => Some ReturnsSource
  | _ =>
      let comps := componentsToReplace p in
      let kept := filter (fun d => negb (from_react_bootstrap d)) (imports p) in
      match (match kept with
             | [] => Some kept
             | _ => option_map (fun m => map importStatement m ++ kept) (muiImports comps)
             end) with
      | None => None
      | Some imports' =>
          match runPasses comps (body p) with
          | None => None
          | Some body' => Some (ToSource (mkProgram imports' body'))
          end
      end
  end.

End RbToMuiClaude.

(* ===================================================================== *)
(** ** src/js/react-bootstrap-to-mui_manus.js *)
(* ===================================================================== *)

Module RbToMuiManus.
Import Js Ast Walk.

(** [muiImports.set(muiComponent, muiImportPath)] *)
Inductive Effect := SetMuiImport (component path : string).

Definition W := Walk.W Effect.

Record Target := mkTarget { mui : string; import : string }.

Definition to (m : string) : Target := mkTarget m "@mui/material".

Definition componentMap : Obj Target :=
  [ ("Button", to "Button"); ("Card", to "Card"); ("Modal", to "Dialog");
    ("Form", to "FormControl"); ("Input", to "TextField");
    ("FormControl", to "TextField"); ("Navbar", to "AppBar");
    ("Dropdown", to "Menu"); ("Table", to "Table"); ("Badge", to "Badge");
    ("Alert", to "Alert"); ("Container", to "Container"); ("Row", to "Grid");
    ("Col", to "Grid"); ("Tabs", to "Tabs"); ("Tab", to "Tab");
    ("Pagination", to "Pagination"); ("Spinner", to "CircularProgress");
    ("Toast", to "Snackbar"); ("ButtonGroup", to "ButtonGroup");
    ("Accordion", to "Accordion"); ("Offcanvas", to "Drawer");
    ("ProgressBar", to "LinearProgress"); ("ListGroup", to "List");
    ("ListGroupItem", to "ListItem") ].

(** What a transformer function is called with:
    [attr.value ? (attr.value.type === 'Literal' ? attr.value.value : attr.value) : true] *)
Inductive Arg :=
| ArgValue (v : Value)
| ArgNode (node : AttrValue).

Definition argument (v : AttrValue) : Arg :=
  match v with
  | NoValue => ArgValue (JBool true)
  | Bare (ELiteral Literal p) => ArgValue p
  | other => ArgNode other
  end.

(** [parseInt(value, 10)] *)
Fixpoint leading_digits (s : string) : string :=
  match s with
  | String c r => if is_digit c then String c (leading_digits r) else EmptyString
  | EmptyString => EmptyString
  end.

Definition parseInt10 (a : Arg) : Value :=
  match a with
  | ArgValue (JString s) =>
      let t := trimStart s in
      let '(sign, body) :=
        match t with
        | String "-"%char r => ((-1)%Z, r)
        | String "+"%char r => (1%Z, r)
        | _ => (1%Z, t)
        end in
      match digits_value (leading_digits body) with
      | Some z => of_integer (sign * z)
      | None => JNaN
      end
  | ArgValue (JNumber n) => JNumber n
  | _ => JNaN
  end.

(** An entry of [propMap[component]]. *)
Inductive PropTransformer :=
| Rename (newName : string)                 (* a string *)
| Null                                      (* [null] *)
| ValueFn (f : Arg -> option Value)         (* a function that returns a value,
                                               or the node it was given ([None]) *)
| AttrFn (f : Arg -> Attr).                 (* a function that returns an attribute *)

Definition buttonVariant (a : Arg) : option Value :=
  match a with
  | ArgValue (JString s) =>
      Some (JString (if String.eqb s "primary" then "contained"
                     else if String.eqb s "secondary" then "outlined"
                     else if String.eqb s "link" then "text"
                     else s))
  | ArgValue v => Some v
  | ArgNode _ => None
  end.

Definition buttonSize (a : Arg) : option Value :=
  match a with
  | ArgValue (JString s) =>
      Some (JString (if String.eqb s "sm" then "small"
                     else if String.eqb s "lg" then "large"
                     else "medium"))
  | _ => Some (JString "medium")
  end.

Definition gridSize (n : string) : string * PropTransformer :=
  (n, AttrFn (fun value => JSXAttribute n (Bare (ELiteral Literal (parseInt10 value))))).

Definition propMap : Obj (Obj PropTransformer) :=
  [ ("Button", [ ("variant", ValueFn buttonVariant); ("size", ValueFn buttonSize) ]);
    ("Modal", [ ("show", Rename "open"); ("onHide", Rename "onClose") ]);
    ("Row",
     [ ("className", AttrFn (fun _ => JSXAttribute "container" NoValue));
       ("noGutters",
        AttrFn (fun _ => JSXAttribute "spacing" (Bare (ELiteral Literal (JNumber 0))))) ]);
    ("Col",
     [ gridSize "xs"; gridSize "sm"; gridSize "md"; gridSize "lg"; gridSize "xl";
       ("className", AttrFn (fun _ => JSXAttribute "item" NoValue)) ]);
    ("Input", [ ("type", Null) ]);
    ("FormControl", [ ("controlId", Null) ]) ].

(** *** 1. The alias table: local identifier to imported name *)

Definition from_react_bootstrap (d : ImportDeclaration) : bool :=
  String.eqb (source d) "react-bootstrap".

Definition reactBootstrapImports (imports : list ImportDeclaration) : Obj string :=
  fold_left (fun m spec =>
               match spec with
               | ImportSpecifier imported local => assign1 m local imported
               | _ => m
               end)
            (flat_map specifiers (filter from_react_bootstrap imports)) [].

(** *** 2. The elements *)

(** The attribute that takes the place of one attribute; [None] is a
    throw.  A [null] entry of [propMap] is falsy, so the attribute it names
    is kept, and no transformer of the table returns [null].  For a name
    that the rules inherit from [Object.prototype] the code calls the
    inherited built-in function; that call is not followed here (the
    result is [None]), and what is proved through this function is stated
    for other names. *)
Definition transformAttr (rules : Obj PropTransformer) (attr : Attr)
  : option Attr :=
  match attr with
  | JSXSpreadAttribute _ => Some attr
  | JSXAttribute n v =>
      match get rules n with
      | Undefined => Some attr
      | Inherited => None
      | Own Null => Some attr
      | Own (Rename newName) => Some (JSXAttribute newName v)
      | Own (AttrFn f) => Some (f (argument v))
      | Own (ValueFn f) =>
          match f (argument v) with
          | Some transformed => Some (JSXAttribute n (Bare (ELiteral Literal transformed)))
          | None => None
          end
      end
  end.

Definition transformAttrs (rules : Obj PropTransformer) (attrs : list Attr)
  : option (list Attr) :=
  mapOpt (transformAttr rules) attrs.

Definition set_name (n : JSXName) (s : string) : JSXName :=
  match n with
  | JSXIdentifier _ => JSXIdentifier s
  | other => other
  end.

Definition transformElement (aliases : Obj string) (n : Node) : W Node :=
  match n with
  | JSXElement o c attrs kids =>
      match name_of o with
      | None => ret n
      | Some componentLocalName =>
          match own aliases componentLocalName with
          | None => ret n
          | Some rbOriginalComponentName =>
              match get componentMap rbOriginalComponentName with
              | Own target =>
                  match (match get propMap rbOriginalComponentName with
                         | Own rules => transformAttrs rules attrs
                         | _ => Some attrs
                         end) with
                  | None => None
                  | Some attrs' =>
                      Some (JSXElement (set_name o (mui target))
                                       (option_map (fun x => set_name x (mui target)) c)
                                       attrs' kids,
                            [SetMuiImport (mui target) (import target)])
                  end
              | _ => ret n
              end
          end
      end
  | _ => ret n
  end.

(** *** 3. The imports *)

Definition from_mui (d : ImportDeclaration) : bool :=
  String.eqb (source d) "@mui/material".

Definition existingMuiImports (imports : list ImportDeclaration) : list string :=
  flat_map (fun d => flat_map (fun spec => match spec with
                                           | ImportSpecifier imported _ => [imported]
                                           | _ => []
                                           end) (specifiers d))
           (filter from_mui imports).

Definition muiImports (log : list Effect) : Obj string :=
  fold_left (fun m e => match e with SetMuiImport c p => assign1 m c p end) log [].

Fixpoint add_to (path component : string) (m : list (string * list string))
  : list (string * list string) :=
  match m with
  | [] => [(path, [component])]
  | (p, cs) :: r =>
      if String.eqb p path
      then (p, if mem component cs then cs else cs ++ [component]) :: r
      else (p, cs) :: add_to path component r
  end.

Definition newMuiImportSpecifiers (existing : list string) (m : Obj string)
  : list (string * list string) :=
  fold_left (fun acc e => if mem (fst e) existing then acc
                          else add_to (snd e) (fst e) acc) m [].

Definition importStatement (e : string * list string) : ImportDeclaration :=
  mkImport (map (fun c => ImportSpecifier c c) (snd e)) Literal (fst e).

(** [componentMap[name]] as a condition. *)
Definition mapped (n : string) : bool :=
  match get componentMap n with Undefined => false | _ => true end.

(** The filter of the specifiers of a react-bootstrap import. *)
Definition keep_specifier (aliases : Obj string) (spec : ImportSpec) : bool :=
  match own aliases (local_name spec) with
  | None => true
  | Some originalComponentName => negb (mapped originalComponentName)
  end.

Definition filterImport (aliases : Obj string) (d : ImportDeclaration)
  : list ImportDeclaration :=
  if from_react_bootstrap d then
    match filter (keep_specifier aliases) (specifiers d) with
    | [] => []
    | newSpecifiers => [mkImport newSpecifiers (source_kind d) (source d)]
    end
  else [d].

Definition synthesizeImports (aliases : Obj string) (log : list Effect)
           (imports : list ImportDeclaration) : list ImportDeclaration :=
  let news := map importStatement
                  (newMuiImportSpecifiers (existingMuiImports imports) (muiImports log)) in
  flat_map (filterImport aliases) imports ++ rev news.

(** [export default function transformer(file, api)] *)
Definition transformer (p : Program) : option Output :=
  let aliases := reactBootstrapImports (imports p) in
  match forEachRoot (transformElement aliases) (body p) with
  | None => None
  | Some (body', log) =>
      Some (ToSource (mkProgram (synthesizeImports aliases log (imports p)) body'))
  end.

End RbToMuiManus.

(* ===================================================================== *)
(** ** src/js/react-bootstrap-to-mui_gemini2.js, first script (transform.js) *)
(* ===================================================================== *)

(** The rule table and the loop that rewrites the attributes of one
    matched element.  (The source has [const newAttributes =;] and
    [const sxProps =;]: both start as empty arrays.) *)
Module GeminiTransform.
Import Js Ast.

(** One object returned by a rule function. *)
Inductive Result :=
| NewAttribute (newName : string) (newValue : option Value)
| SxEntry.                                   (* [{ type: 'sx', value: {...} }] *)

(** An entry of a [propMap]. *)
Inductive PropRule :=
| RString (newName : string)
| RFunction (f : option Value -> option (list Result))   (* [None]: it throws *)
| RObject.

(** [value.startsWith('outline-')] exists on strings only. *)
Definition buttonVariant (value : option Value) : option (list Result) :=
  match value with
  | Some (JString s) =>
      match strip_prefix "outline-" s with
      | Some color =>
          Some [ NewAttribute "variant" (Some (JString "outlined"));
                 NewAttribute "color" (Some (JString color)) ]
      | None =>
          Some [ NewAttribute "variant" (Some (JString "contained"));
                 NewAttribute "color" (Some (JString s)) ]
      end
  | _ => None
  end.

Definition buttonSize (value : option Value) : option (list Result) :=
  Some [ NewAttribute "size"
           (Some (JString (match value with
                           | Some (JString "lg") => "large"
                           | Some (JString "sm") => "small"
                           | _ => "medium"
                           end))) ].

Definition toSx (value : option Value) : option (list Result) := Some [SxEntry].

Definition truthy (v : option Value) : bool :=
  match v with
  | Some (JString s) => negb (is_empty s)
  | Some (JNumber n) => negb (Z.eqb n 0)
  | Some (JInfinity _) => true
  | Some (JBool b) => b
  | _ => false
  end.

Definition Button_propMap : Obj PropRule :=
  [ ("variant", RFunction buttonVariant);
    ("size", RFunction buttonSize);
    ("active", RString "active");
    ("disabled", RString "disabled") ].

Definition Card_propMap : Obj PropRule :=
  [ ("bg", RFunction toSx); ("border", RFunction toSx); ("text", RFunction toSx) ].

Definition Modal_propMap : Obj PropRule :=
  [ ("show", RString "open");
    ("onHide", RString "onClose");
    ("size", RFunction (fun value => Some [NewAttribute "maxWidth" value]));
    ("centered", RObject);
    ("keyboard",
     RFunction (fun value =>
       Some [NewAttribute "disableEscapeKeyDown" (Some (JBool (negb (truthy value))))])) ].

(** [attr.value.expression?.value ?? attr.value.value]; a missing value
    makes the first read throw. *)
Definition read_value (v : AttrValue) : option (option Value) :=
  match v with
  | NoValue => None
  | Bare (ELiteral _ p) => Some (Some p)
  | Bare _ => Some None
  | JSXExpressionContainer (ELiteral _ p) => Some (Some p)
  | JSXExpressionContainer _ => Some None
  end.

(** [j.jsxAttribute(j.jsxIdentifier(res.newName), j.literal(res.newValue))];
    [j.literal] rejects [undefined], and [j.identifier] rejects the array
    of keys that an [sx] result hands it. *)
Definition emit (r : Result) : option Attr :=
  match r with
  | NewAttribute newName (Some newValue) =>
      Some (JSXAttribute newName (Bare (ELiteral Literal newValue)))
  | NewAttribute _ None => None
  | SxEntry => None
  end.

(** What one attribute contributes to [newAttributes]. *)
Definition transformAttr (propMap : Obj PropRule) (attr : Attr)
  : option (list Attr) :=
  match attr with
  | JSXSpreadAttribute _ => Some [attr]
  | JSXAttribute propName v =>
      match get propMap propName with
      | Undefined => Some [attr]
      | Inherited => None
      | Own propRule =>
          match read_value v with
          | None => None
          | Some value =>
              match propRule with
              | RString newName => Some [JSXAttribute newName v]
              | RFunction f =>
                  match f value with
                  | None => None
                  | Some results => mapOpt emit results
                  end
              | RObject => Some []
              end
          end
      end
  end.

(** [openingElement.attributes.forEach(attr => ...)] *)
Definition transformProps (propMap : Obj PropRule) (attrs : list Attr)
  : option (list Attr) :=
  option_map (@concat Attr) (mapOpt (transformAttr propMap) attrs).

End GeminiTransform.

(* ===================================================================== *)
(** ** src/js/react-bootstrap-to-mui_gemini2.js, second script *)
(* ===================================================================== *)

(** Of the second script: [mergeSxAttribute], [extractSxFromClasses],
    [convertClassesToSx] and [transformModal] with its guard. *)
Module GeminiCodemod.
Import Js Ast Walk ClassRegex SxMerge.

Inductive Effect := AddMuiImport (name : string).

Definition W := Walk.W Effect.

Definition rules : list Rule :=
  [ DigitRule "mb-" "mb"; DigitRule "mt-" "mt"; DigitRule "ms-" "ml";
    DigitRule "me-" "mr"; DigitRule "mx-" "mx"; DigitRule "my-" "my";
    DigitRule "p-" "p"; DigitRule "px-" "px"; DigitRule "py-" "py";
    DigitRule "pt-" "pt"; DigitRule "pb-" "pb"; DigitRule "ps-" "pl";
    DigitRule "pe-" "pr";
    DigitRule "gap-" "gap";
    WordRule "d-flex" "display" "flex";
    WordRule "d-block" "display" "block";
    WordRule "d-inline" "display" "inline";
    WordRule "d-none" "display" "none";
    WordRule "justify-content-center" "justifyContent" "center";
    WordRule "justify-content-between" "justifyContent" "space-between";
    WordRule "justify-content-around" "justifyContent" "space-around";
    WordRule "justify-content-end" "justifyContent" "flex-end";
    WordRule "align-items-center" "alignItems" "center";
    WordRule "align-items-end" "alignItems" "flex-end";
    WordRule "align-items-start" "alignItems" "flex-start";
    WordRule "flex-column" "flexDirection" "column";
    WordRule "text-center" "textAlign" "center";
    WordRule "text-start" "textAlign" "left";
    WordRule "text-end" "textAlign" "right";
    WordRule "text-primary" "color" "primary.main";
    WordRule "text-secondary" "color" "secondary.main";
    WordRule "text-success" "color" "success.main";
    WordRule "text-danger" "color" "error.main";
    WordRule "text-warning" "color" "warning.main";
    WordRule "text-info" "color" "info.main";
    WordRule "text-muted" "color" "text.secondary";
    WordRule "bg-primary" "bgcolor" "primary.main";
    WordRule "bg-secondary" "bgcolor" "secondary.main";
    WordRule "bg-success" "bgcolor" "success.main";
    WordRule "bg-danger" "bgcolor" "error.main";
    WordRule "bg-warning" "bgcolor" "warning.main";
    WordRule "bg-info" "bgcolor" "info.main";
    WordRule "bg-light" "bgcolor" "grey.100";
    WordRule "bg-dark" "bgcolor" "grey.900" ].

(** [extractSxFromClasses(classString)] for a string argument. *)
Definition extractSxFromClasses (classString : string) : Obj SxValue * string :=
  let (sxObj, cls) := extract rules " " classString in
  (sxObj, trim cls).

(** [typeof value === 'number' ? j.literal(value) : j.stringLiteral(value)] *)
Definition newProperty (kv : string * SxValue) : ObjMember :=
  Property (KIdentifier (fst kv))
           (match snd kv with
            | SxNumber n => ELiteral Literal (JNumber n)
            | SxString s => ELiteral Typed (JString s)
            end).

Definition merge_into (extraObj : Obj SxValue) (a : Attr) : option Attr :=
  match a with
  | JSXAttribute n (JSXExpressionContainer (EObject properties)) =>
      option_map (fun ps => JSXAttribute n (JSXExpressionContainer (EObject ps)))
                 (push_missing newProperty properties extraObj)
  | JSXAttribute n _ =>
      Some (JSXAttribute n (JSXExpressionContainer (EObject (map newProperty extraObj))))
  | other => Some other
  end.

(** [mergeSxAttribute(openingElement, extraObj)], given the [attributes]
    field of the node it is handed: [None] when the node has none. *)
Definition mergeSxAttribute (attributes : option (list Attr)) (extraObj : Obj SxValue)
  : option (list Attr) :=
  let attrs := match attributes with Some a => a | None => [] end in
  if existsb (attr_named "sx") attrs
  then update_first (attr_named "sx") (merge_into extraObj) attrs
  else match attributes with
       | Some a =>
           Some (a ++ [JSXAttribute "sx"
                         (JSXExpressionContainer (EObject (map newProperty extraObj)))])
       | None => None
       end.

(** *** convertClassesToSx

    The callback runs on the path of a [className] attribute.  The parent
    of that path is the opening element and the parent of the opening
    element is the JSX element (bootstrap_mui_claude.js reads
    [path.parent.value.attributes] and
    [path.parent.parent.value.openingElement]).  This script hands
    [attrPath.parent.parent.node], the JSX element, to [mergeSxAttribute]
    as the opening element; a parsed JSX element has no [attributes]. *)

(** The class string and what [cls.replace] needs of it: a number or a
    boolean that is not falsy has no [replace]. *)
Definition classString (val : AttrValue) : option string :=
  let of_payload (p : Value) :=
    match p with
    | JString s => Some s
    | JNumber n => if Z.eqb n 0 then Some EmptyString else None
    | JInfinity _ => None
    | JNaN => Some EmptyString
    | JBool b => if b then None else Some EmptyString
    end in
  match val with
  | Bare (ELiteral Literal p) => of_payload p
  | JSXExpressionContainer (ELiteral Literal p) => of_payload p
  | _ => Some EmptyString
  end.

Record ClassState := mkClassState {
  cur : list Attr;
  attached : bool
}.

Definition element_attributes : option (list Attr) := None.

Definition classNameStep (st : option ClassState) (i : nat) (val : AttrValue)
  : option ClassState :=
  match st, val with
  | None, _ => None
  | Some s, NoValue => Some s
  | Some s, _ =>
      match classString val with
      | None => None
      | Some str =>
          let (sxObj, remainingClass) := extractSxFromClasses str in
          match sxObj with
          | [] => Some s
          | _ =>
              match mergeSxAttribute element_attributes sxObj with
              | None => None
              | Some _ =>
                  Some (if is_empty remainingClass then s
                        else if attached s
                        then mkClassState
                               (set_nth i
                                  (JSXAttribute "className"
                                     (Bare (ELiteral Literal (JString remainingClass))))
                                  (cur s))
                               true
                        else s)
              end
          end
      end
  end.

Fixpoint classNameLoop (i : nat) (collected : list Attr) (st : option ClassState)
  : option ClassState :=
  match collected with
  | [] => st
  | JSXAttribute n v :: r =>
      classNameLoop (S i) r
        (if String.eqb n "className" then classNameStep st i v else st)
  | JSXSpreadAttribute _ :: r => classNameLoop (S i) r st
  end.

Definition convertClasses (n : Node) : W Node :=
  match n with
  | JSXElement o c attrs kids =>
      match classNameLoop 0 attrs (Some (mkClassState attrs true)) with
      | None => None
      | Some st => ret (JSXElement o c (cur st) kids)
      end
  | _ => ret n
  end.

(** *** transformModal *)

(** The local names bound by the named imports of react-bootstrap. *)
Definition bootstrapImports (imports : list ImportDeclaration) : list string :=
  flat_map (fun d =>
              if String.eqb (source d) "react-bootstrap"
              then flat_map (fun spec => match spec with
                                         | ImportSpecifier _ local => [local]
                                         | _ => []
                                         end) (specifiers d)
              else []) imports.

Definition modalAttr (attr : Attr) : Attr :=
  match attr with
  | JSXAttribute n v =>
      if String.eqb n "show" then JSXAttribute "open" v
      else if String.eqb n "onHide" then JSXAttribute "onClose" v
      else attr
  | _ => attr
  end.

Definition dialogPart (propName : string) : option string :=
  if String.eqb propName "Header" || String.eqb propName "Title" then Some "DialogTitle"
  else if String.eqb propName "Body" then Some "DialogContent"
  else if String.eqb propName "Footer" then Some "DialogActions"
  else None.

(** The function mapped over [el.children]: a matching child is replaced
    by a new element without attributes that takes over its children. *)
Definition modalChild (child : Node) : Node :=
  match child with
  | JSXElement childName _ _ kids =>
      match member_of childName "Modal" with
      | Some propName =>
          match dialogPart propName with
          | Some target =>
              JSXElement (JSXIdentifier target) (Some (JSXIdentifier target)) [] kids
          | None => child
          end
      | None => child
      end
  | _ => child
  end.

Definition set_name (n : JSXName) (s : string) : JSXName :=
  match n with
  | JSXIdentifier _ => JSXIdentifier s
  | other => other
  end.

Definition transformModal (n : Node) : W Node :=
  match n with
  | JSXElement o c attrs kids =>
      Some (JSXElement (set_name o "Dialog")
                       (option_map (fun x => set_name x "Dialog") c)
                       (map modalAttr attrs)
                       (map modalChild kids),
            [ AddMuiImport "Dialog"; AddMuiImport "DialogTitle";
              AddMuiImport "DialogContent"; AddMuiImport "DialogActions" ])
  | _ => ret n
  end.

(** [root.find(j.JSXElement, { openingElement: { name: { type:
    'JSXIdentifier', name: 'Modal' } } }).forEach(path => { if
    (bootstrapImports.has('Modal')) transformModal(path); })] *)
Definition modalPass (imported : list string) (n : Node) : W Node :=
  match n with
  | JSXElement o _ _ _ =>
      if name_is o "Modal" && mem "Modal" imported then transformModal n else ret n
  | _ => ret n
  end.

End GeminiCodemod.

(* ===================================================================== *)
(** ** src/unnamed/part_001 *)
(* ===================================================================== *)

Module CardCodemod.
Import Js Ast Walk.

Record Replacement := mkReplacement { newName : string; importSource : string }.

Definition mui (n : string) : Replacement :=
  mkReplacement n ("@mui/material/" ++ n)%string.

Definition REPLACEMENTS : Obj Replacement :=
  [ ("Alert", mui "Alert"); ("Badge", mui "Badge");
    ("Breadcrumb", mui "Breadcrumbs"); ("Button", mui "Button");
    ("ButtonGroup", mui "ButtonGroup");
    ("Card", mui "Card"); ("CardImg", mui "CardMedia");
    ("CardImgOverlay", mui "CardMedia"); ("CardBody", mui "CardContent");
    ("CardHeader", mui "CardHeader"); ("CardFooter", mui "CardActions");
    ("CardTitle", mui "Typography"); ("CardSubtitle", mui "Typography");
    ("CardText", mui "Typography");
    ("Navbar", mui "AppBar"); ("Nav", mui "Tabs"); ("NavItem", mui "Tab");
    ("NavLink", mui "Tab"); ("NavDropdown", mui "Menu"); ("Dropdown", mui "Menu");
    ("DropdownButton", mui "Menu");
    ("Form", mui "Box"); ("FormLabel", mui "InputLabel");
    ("FormControl", mui "FormControl"); ("FormGroup", mui "FormGroup");
    ("FormText", mui "FormHelperText"); ("FormSelect", mui "Select");
    ("InputGroup", mui "Input"); ("FloatingLabel", mui "InputLabel");
    ("Modal", mui "Modal"); ("Tooltip", mui "Tooltip"); ("Popover", mui "Popover");
    ("Pagination", mui "Pagination"); ("ProgressBar", mui "LinearProgress");
    ("Spinner", mui "CircularProgress"); ("Table", mui "Table");
    ("Tbody", mui "TableBody"); ("Td", mui "TableCell"); ("Th", mui "TableCell");
    ("Thead", mui "TableHead"); ("Tr", mui "TableRow");
    ("Collapse", mui "Collapse"); ("CloseButton", mui "IconButton") ].

Definition CARD_SUBCOMPONENTS : Obj Replacement :=
  [ ("Body", mui "CardContent"); ("Footer", mui "CardActions");
    ("Header", mui "CardHeader"); ("Img", mui "CardMedia");
    ("ImgOverlay", mui "CardMedia"); ("Title", mui "Typography");
    ("Subtitle", mui "Typography"); ("Text", mui "Typography") ].

(** An entry of [newImports[importSource]]. *)
Record Item := mkItem { importedName : string; localName : string }.

Inductive Effect :=
| Schedule (source : string) (item : Item)   (* [newImports[source].push(item)] *)
| AddCardAlias (localName : string)
| Warn (importedName : string).

Definition W := Walk.W Effect.

(** *** First pass: the imports from react-bootstrap *)

Definition from_react_bootstrap (d : ImportDeclaration) : bool :=
  String.eqb (source d) "react-bootstrap".

(** Whether the specifier stays in [remainingSpecifiers], with the effects
    of visiting it. *)
Definition visit_specifier (spec : ImportSpec) : bool * list Effect :=
  match spec with
  | ImportSpecifier imported local =>
      match own REPLACEMENTS imported with
      | Some replacement =>
          (false,
           (if String.eqb imported "Card" then [AddCardAlias local] else [])
           ++ [Schedule (importSource replacement) (mkItem (newName replacement) local)])
      | None => (true, [Warn imported])
      end
  | _ => (true, [])
  end.

Definition remainingSpecifiers (d : ImportDeclaration) : list ImportSpec :=
  filter (fun spec => fst (visit_specifier spec)) (specifiers d).

Definition rewriteImport (d : ImportDeclaration)
  : list ImportDeclaration * list Effect :=
  if from_react_bootstrap d then
    (match remainingSpecifiers d with
     | [] => []
     | remaining => [mkImport remaining (source_kind d) (source d)]
     end,
     flat_map (fun spec => snd (visit_specifier spec)) (specifiers d))
  else ([d], []).

Definition firstPass (imports : list ImportDeclaration)
  : list ImportDeclaration * list Effect :=
  (flat_map (fun d => fst (rewriteImport d)) imports,
   flat_map (fun d => snd (rewriteImport d)) imports).

(** *** Second pass: [<Card.Body>] and the like *)

Definition cardAliases (log : list Effect) : list string :=
  fold_left (fun set e => match e with
                          | AddCardAlias l => if mem l set then set else set ++ [l]
                          | _ => set
                          end) log [].

(** Every member expression whose object is the identifier [alias],
    wherever it stands in a name. *)
Fixpoint rewrite_name (alias : string) (n : JSXName) : JSXName * list Effect :=
  match n with
  | JSXIdentifier _ => (n, [])
  | JSXMemberExpression obj propertyName =>
      if name_is obj alias then
        match own CARD_SUBCOMPONENTS propertyName with
        | Some r =>
            (JSXIdentifier (newName r),
             [Schedule (importSource r) (mkItem (newName r) (newName r))])
        | None => (n, [])
        end
      else
        let (obj', log) := rewrite_name alias obj in
        (JSXMemberExpression obj' propertyName, log)
  end.

Definition rewriteCard (alias : string) (n : Node) : W Node :=
  match n with
  | JSXElement o c attrs kids =>
      let (o', log1) := rewrite_name alias o in
      let (c', log2) :=
        match c with
        | Some x => let (x', l) := rewrite_name alias x in (Some x', l)
        | None => (None, [])
        end in
      Some (JSXElement o' c' attrs kids, log1 ++ log2)
  | _ => ret n
  end.

Fixpoint secondPass (aliases : list string) (b : list Stmt)
  : list Stmt * list Effect :=
  match aliases with
  | [] => (b, [])
  | alias :: r =>
      match forEachRoot (rewriteCard alias) b with
      | Some (b', log) => let (b'', log') := secondPass r b' in (b'', log ++ log')
      | None => (b, [])
      end
  end.

(** *** Third pass: the new imports *)

Definition same_item (a b : Item) : bool :=
  String.eqb (importedName a) (importedName b)
  && String.eqb (localName a) (localName b).

Fixpoint schedule (source : string) (item : Item) (m : list (string * list Item))
  : list (string * list Item) :=
  match m with
  | [] => [(source, [item])]
  | (s, items) :: r =>
      if String.eqb s source
      then (s, if existsb (same_item item) items then items else items ++ [item]) :: r
      else (s, items) :: schedule source item r
  end.

(** [newImports] after the deduplication. *)
Definition newImports (log : list Effect) : list (string * list Item) :=
  fold_left (fun m e => match e with
                        | Schedule s item => schedule s item m
                        | _ => m
                        end) log [].

Definition specifier_of (item : Item) : ImportSpec :=
  ImportSpecifier (importedName item) (localName item).

Definition has_local (l : string) (specs : list ImportSpec) : bool :=
  existsb (fun spec => match spec with
                       | ImportSpecifier _ local => String.eqb local l
                       | _ => false
                       end) specs.

Definition add_items (items : list Item) (specs : list ImportSpec) : list ImportSpec :=
  fold_left (fun acc item => if has_local (localName item) acc then acc
                             else acc ++ [specifier_of item]) items specs.

(** The first import of [source] whose source node is a [Literal] takes the
    items; without one a new import goes before the first import. *)
Fixpoint merge_into_existing (source : string) (items : list Item)
         (imports : list ImportDeclaration) : option (list ImportDeclaration) :=
  match imports with
  | [] => None
  | d :: r =>
      match source_kind d with
      | Literal =>
          if String.eqb (Ast.source d) source
          then Some (mkImport (add_items items (specifiers d)) Literal source :: r)
          else option_map (cons d) (merge_into_existing source items r)
      | Typed => option_map (cons d) (merge_into_existing source items r)
      end
  end.

Definition insertImport (imports : list ImportDeclaration) (e : string * list Item)
  : list ImportDeclaration :=
  match snd e with
  | [] => imports
  | items =>
      match merge_into_existing (fst e) items imports with
      | Some imports' => imports'
      | None => mkImport (map specifier_of items) Literal (fst e) :: imports
      end
  end.

(** [module.exports = function transformer(file, api)] *)
Definition transformer (p : Program) : Output :=
  let (imports1, log1) := firstPass (imports p) in
  let (body2, log2) := secondPass (cardAliases log1) (body p) in
  ToSource (mkProgram (fold_left insertImport (newImports (log1 ++ log2)) imports1)
                      body2).

End CardCodemod.

(* ===================================================================== *)
(** * Properties *)
(* ===================================================================== *)

(** ** The walker *)

Section NodeInduction.
Import Ast.
Variable P : Node -> Prop.
Hypothesis Helement :
  forall o c a kids, Forall P kids -> P (JSXElement o c a kids).
Hypothesis Htext : forall s, P (JSXText s).
Hypothesis Hexpression :
  forall inner, Forall P inner -> P (JSXExpressionChild inner).

Fixpoint Node_nested_ind (n : Node) : P n :=
  let all :=
    fix all (l : list Node) : Forall P l :=
      match l with
      | [] => Forall_nil P
      | k :: r => Forall_cons k (Node_nested_ind k) (all r)
      end in
  match n with
  | JSXElement o c a kids => Helement o c a kids (all kids)
  | JSXText s => Htext s
  | JSXExpressionChild inner => Hexpression inner (all inner)
  end.
End NodeInduction.

Section WalkFacts.
Import Ast Walk.
Context {E : Type}.
Variable cb : Node -> W E Node.

Lemma forEachElement_element o c a kids :
  forEachElement cb (JSXElement o c a kids) =
  match mapW (forEachElement cb) kids with
  | None => None
  | Some (kids', below) =>
      match cb (JSXElement o c a kids') with
      | None => None
      | Some (n', here) => Some (n', here ++ below)
      end
  end.
Proof.
  simpl.
  match goal with
  | |- match ?f kids with _ => _ end = _ =>
      assert (Heach : forall l, f l = mapW (forEachElement cb) l)
  end.
  { induction l as [|k r IH]; simpl; [reflexivity|].
    rewrite IH. reflexivity. }
  rewrite Heach. reflexivity.
Qed.

Lemma forEachElement_expression inner :
  forEachElement cb (JSXExpressionChild inner) =
  match mapW (forEachElement cb) inner with
  | None => None
  | Some (inner', log) => Some (JSXExpressionChild inner', log)
  end.
Proof.
  simpl.
  match goal with
  | |- bind (?f inner) _ = _ =>
      assert (Heach : forall l, f l = mapW (forEachElement cb) l)
  end.
  { induction l as [|k r IH]; simpl; [reflexivity|].
    rewrite IH. reflexivity. }
  rewrite Heach. unfold bind, ret.
  destruct (mapW (forEachElement cb) inner) as [[inner' log]|]; [|reflexivity].
  rewrite app_nil_r. reflexivity.
Qed.

Lemma mapW_cons {A B} (f : A -> W E B) a r :
  mapW f (a :: r) =
  match f a with
  | None => None
  | Some (b, l1) =>
      match mapW f r with
      | None => None
      | Some (r', l2) => Some (b :: r', l1 ++ l2)
      end
  end.
Proof.
  simpl. unfold bind, ret.
  destruct (f a) as [[b l1]|]; [|reflexivity].
  destruct (mapW f r) as [[r' l2]|]; [|reflexivity].
  rewrite app_nil_r. reflexivity.
Qed.

(** A list is walked to itself, silently, when each of its members is. *)
Lemma mapW_fixed {A} (f : A -> W E A) (l : list A) :
  Forall (fun a => f a = Some (a, [])) l -> mapW f l = Some (l, []).
Proof.
  induction 1 as [|a r Ha _ IH]; [reflexivity|].
  rewrite mapW_cons, Ha, IH. reflexivity.
Qed.

End WalkFacts.

Section WalkRelations.
Import Ast Walk.
Context {E : Type}.

Lemma mapW_Forall2 {A B} (f : A -> W E B) l l' log :
  mapW f l = Some (l', log) ->
  Forall2 (fun a b => exists lg, f a = Some (b, lg)) l l'.
Proof.
  revert l' log.
  induction l as [|a r IH]; intros l' log H.
  - inversion H. constructor.
  - rewrite mapW_cons in H.
    destruct (f a) as [[b l1]|] eqn:Ha; [|discriminate].
    destruct (mapW f r) as [[r' l2]|] eqn:Hr; [|discriminate].
    inversion H; subst. constructor; eauto.
Qed.

(** The walk of an element on which the callback does nothing is the walk
    of its children. *)
Lemma forEachElement_skipped (cb : Node -> W E Node) o c a kids n' log :
  (forall kids', cb (JSXElement o c a kids') = Some (JSXElement o c a kids', [])) ->
  forEachElement cb (JSXElement o c a kids) = Some (n', log) ->
  exists kids', n' = JSXElement o c a kids'
                /\ mapW (forEachElement cb) kids = Some (kids', log).
Proof.
  intros Hcb H. rewrite forEachElement_element in H.
  destruct (mapW (forEachElement cb) kids) as [[kids' below]|]; [|discriminate].
  rewrite Hcb in H. inversion H; subst. eauto.
Qed.

End WalkRelations.

(** ** Places in a tree *)

(** The node at a place: the indices of the children to go through, from
    the root. *)
Fixpoint subtree (place : list nat) (n : Ast.Node) : option Ast.Node :=
  match place with
  | [] => Some n
  | i :: r =>
      match nth_error (Ast.children_of n) i with
      | Some k => subtree r k
      | None => None
      end
  end.


Lemma subtree_below place a b :
  place <> [] -> Ast.children_of a = Ast.children_of b ->
  subtree place a = subtree place b.
Proof.
  destruct place as [|i r]; [congruence|]. intros _ H. cbn [subtree]. now rewrite H.
Qed.

Lemma Forall2_at {A B} (R : A -> B -> Prop) l l' :
  Forall2 R l l' ->
  forall i a, nth_error l i = Some a -> exists b, nth_error l' i = Some b /\ R a b.
Proof.
  induction 1 as [|x y r r' Hxy _ IH]; intros i a Hi.
  - destruct i; discriminate.
  - destruct i as [|i]; cbn [nth_error] in *.
    + inversion Hi; subst. eauto.
    + now apply IH.
Qed.

Lemma Forall2_compose {A B C} (R : A -> B -> Prop) (S : B -> C -> Prop) l l' :
  Forall2 R l l' ->
  forall l'', Forall2 S l' l'' ->
              Forall2 (fun a c => exists b, R a b /\ S b c) l l''.
Proof.
  induction 1 as [|x y r r' Hxy _ IH]; intros l'' H2; inversion H2; subst.
  - constructor.
  - constructor; eauto.
Qed.

Lemma Forall2_same {A} (R : A -> A -> Prop) l :
  (forall a, R a a) -> Forall2 R l l.
Proof. intros H. induction l; constructor; auto. Qed.

Section WalkPlaces.
Import Ast Walk.
Context {E : Type}.
Variable cb : Node -> W E Node.

(** What the callback on a parent may make of one of its children. *)
Variable relabel : Node -> Node -> Node -> Prop.
Hypothesis cb_children :
  forall o c a kids n' log,
    cb (JSXElement o c a kids) = Some (n', log) ->
    Forall2 (relabel (JSXElement o c a kids)) kids (children_of n').
Hypothesis relabel_children :
  forall p k k', relabel p k k' -> children_of k' = children_of k.

(** [k'] is what the walk leaves where the child of [parent] stood that
    was walked to [k0]: the callback on the parent has seen [k0]. *)
Definition left_by (parent k0 k' : Node) : Prop :=
  match parent with
  | JSXElement o c a _ => exists kids', relabel (JSXElement o c a kids') k0 k'
  | _ => k' = k0
  end.

Lemma left_by_children parent k0 k' :
  left_by parent k0 k' -> children_of k' = children_of k0.
Proof.
  destruct parent as [o c a kids|s|inner]; cbn [left_by].
  - intros [kids' H]. eapply relabel_children; eauto.
  - now intros ->.
  - now intros ->.
Qed.

Lemma walked_children n n' log :
  forEachElement cb n = Some (n', log) ->
  Forall2 (fun k k' => exists k0, (exists lg, forEachElement cb k = Some (k0, lg))
                                  /\ left_by n k0 k')
          (children_of n) (children_of n').
Proof.
  destruct n as [o c a kids|s|inner]; intros H.
  - rewrite forEachElement_element in H.
    destruct (mapW (forEachElement cb) kids) as [[kids' below]|] eqn:Hk; [|discriminate].
    destruct (cb (JSXElement o c a kids')) as [[m here]|] eqn:Hc; [|discriminate].
    inversion H; subst. apply mapW_Forall2 in Hk. apply cb_children in Hc.
    cbn [children_of].
    eapply Forall2_impl; [|exact (Forall2_compose _ _ _ _ Hk _ Hc)].
    intros k k' [k0 [Hw Hr]]. exists k0. split; [exact Hw|].
    cbn [left_by]. eauto.
  - simpl in H. inversion H; subst. constructor.
  - rewrite forEachElement_expression in H.
    destruct (mapW (forEachElement cb) inner) as [[inner' lg]|] eqn:Hk; [|discriminate].
    inversion H; subst. apply mapW_Forall2 in Hk. cbn [children_of].
    eapply Forall2_impl; [|exact Hk].
    intros k k' Hw. exists k'. split; [exact Hw|reflexivity].
Qed.

(** The walk keeps the shape of the tree: where a child stood there is
    what its own walk gave, as the callback on its parent left it. *)
Lemma walk_child place :
  forall n n' log parent i part,
    forEachElement cb n = Some (n', log) ->
    subtree place n = Some parent ->
    nth_error (children_of parent) i = Some part ->
    exists part0 part',
      (exists lg, forEachElement cb part = Some (part0, lg))
      /\ subtree (place ++ [i]) n' = Some part'
      /\ left_by parent part0 part'.
Proof.
  induction place as [|j r IH]; intros n n' log parent i part Hw Hs Hi.
  - cbn [subtree] in Hs. inversion Hs; subst parent.
    destruct (Forall2_at _ _ _ (walked_children _ _ _ Hw) _ _ Hi)
      as [part' [Hi' [part0 [Hp Hl]]]].
    exists part0, part'. split; [exact Hp|]. split; [|exact Hl].
    cbn [app subtree]. now rewrite Hi'.
  - cbn [subtree] in Hs.
    destruct (nth_error (children_of n) j) as [kj|] eqn:Hj; [|discriminate].
    destruct (Forall2_at _ _ _ (walked_children _ _ _ Hw) _ _ Hj)
      as [kj' [Hj' [kj0 [[lg Hkj] Hl]]]].
    destruct (IH _ _ _ _ _ _ Hkj Hs Hi) as [part0 [part' [Hp [Hsub Hleft]]]].
    exists part0, part'. split; [exact Hp|]. split; [|exact Hleft].
    cbn [app subtree]. rewrite Hj'.
    rewrite (subtree_below (r ++ [i]) kj' kj0); [exact Hsub| |].
    + destruct r; discriminate.
    + eapply left_by_children; eauto.
Qed.

End WalkPlaces.

(** ** Qualified Modal parts are rewritten below a Modal only *)

Section ModalParts.
Import Ast Walk.

(** A node that is not an element named [Modal]. *)
Definition not_modal (n : Node) : bool :=
  match n with
  | JSXElement o _ _ _ => negb (name_is o "Modal")
  | _ => true
  end.

Context {E : Type}.
Variable cb : Node -> W E Node.
Hypothesis cb_skips :
  forall o c a kids,
    name_is o "Modal" = false ->
    cb (JSXElement o c a kids) = Some (JSXElement o c a kids, []).

Lemma qualified_keeps_tag k k' log :
  qualified k = true ->
  forEachElement cb k = Some (k', log) ->
  tag k' = tag k.
Proof.
  destruct k as [o c a kids| |]; try discriminate.
  destruct o as [|obj p]; [discriminate|]. intros _ H.
  apply forEachElement_skipped in H.
  - destruct H as [kids' [-> _]]. reflexivity.
  - intros. apply cb_skips. reflexivity.
Qed.

End ModalParts.

Lemma claude_modal_skips o c a kids :
  Ast.name_is o "Modal" = false ->
  BootstrapMuiClaude.transformModal (Ast.JSXElement o c a kids)
  = Some (Ast.JSXElement o c a kids, []).
Proof.
  intros H. unfold BootstrapMuiClaude.transformModal. rewrite H. reflexivity.
Qed.

Lemma gemini_modal_skips imported o c a kids :
  Ast.name_is o "Modal" = false ->
  GeminiCodemod.modalPass imported (Ast.JSXElement o c a kids)
  = Some (Ast.JSXElement o c a kids, []).
Proof.
  intros H. unfold GeminiCodemod.modalPass. rewrite H. reflexivity.
Qed.

(** [prop] of an element [<Modal.prop>]. *)
Definition modal_part (n : Ast.Node) : option string :=
  match n with
  | Ast.JSXElement o _ _ _ => Ast.member_of o "Modal"
  | _ => None
  end.

Definition opening (n : Ast.Node) : option Ast.JSXName :=
  match n with
  | Ast.JSXElement o _ _ _ => Some o
  | _ => None
  end.

Module ModalPlaces.
Import Ast Walk.

(** What the Modal callback of bootstrap_mui_claude.js makes of a child
    of the element it is called on. *)
Definition claude_relabel (p k k' : Node) : Prop :=
  if not_modal p then k' = k
  else exists lg, BootstrapMuiClaude.modalChild k = Some (k', lg).

Lemma claude_children o c a kids n' log :
  BootstrapMuiClaude.transformModal (JSXElement o c a kids) = Some (n', log) ->
  Forall2 (claude_relabel (JSXElement o c a kids)) kids (children_of n').
Proof.
  unfold BootstrapMuiClaude.transformModal, claude_relabel. cbn [not_modal].
  destruct (name_is o "Modal"); cbn [negb].
  - destruct (BootstrapMuiClaude.rename_in_place "Dialog" o c) as [o' c'].
    destruct (mapW BootstrapMuiClaude.modalChild kids) as [[kids' l]|] eqn:Hk;
      [|discriminate].
    cbn. intros H. inversion H; subst. cbn [children_of].
    now apply mapW_Forall2 in Hk.
  - intros H. inversion H; subst. cbn [children_of]. now apply Forall2_same.
Qed.

Lemma claude_modalChild_children k k' lg :
  BootstrapMuiClaude.modalChild k = Some (k', lg) -> children_of k' = children_of k.
Proof.
  destruct k as [o c a kids|s|inner]; cbn [BootstrapMuiClaude.modalChild];
    try (intros H; inversion H; reflexivity).
  destruct (member_of o "Modal") as [prop|]; [|intros H; inversion H; reflexivity].
  destruct (BootstrapMuiClaude.dialogPart prop); [|intros H; inversion H; reflexivity].
  destruct c; [|discriminate]. intros H; inversion H; reflexivity.
Qed.

Lemma claude_relabel_children p k k' :
  claude_relabel p k k' -> children_of k' = children_of k.
Proof.
  unfold claude_relabel. destruct (not_modal p).
  - now intros ->.
  - intros [lg H]. eapply claude_modalChild_children; eauto.
Qed.

(** The same for the second script of react-bootstrap-to-mui_gemini2.js. *)
Definition gemini_relabel (imported : list string) (p k k' : Node) : Prop :=
  if not_modal p || negb (Js.mem "Modal" imported) then k' = k
  else k' = GeminiCodemod.modalChild k.

Lemma gemini_children imported o c a kids n' log :
  GeminiCodemod.modalPass imported (JSXElement o c a kids) = Some (n', log) ->
  Forall2 (gemini_relabel imported (JSXElement o c a kids)) kids (children_of n').
Proof.
  unfold GeminiCodemod.modalPass, gemini_relabel. cbn [not_modal].
  destruct (name_is o "Modal"); cbn [negb andb orb].
  - destruct (Js.mem "Modal" imported); cbn [negb].
    + cbn [GeminiCodemod.transformModal]. intros H. inversion H; subst.
      cbn [children_of]. induction kids; constructor; auto.
    + intros H. inversion H; subst. cbn [children_of]. now apply Forall2_same.
  - intros H. inversion H; subst. cbn [children_of]. now apply Forall2_same.
Qed.

Lemma gemini_modalChild_children k :
  children_of (GeminiCodemod.modalChild k) = children_of k.
Proof.
  destruct k as [o c a kids|s|inner]; cbn [GeminiCodemod.modalChild]; try reflexivity.
  destruct (member_of o "Modal") as [prop|]; [|reflexivity].
  destruct (GeminiCodemod.dialogPart prop); reflexivity.
Qed.

Lemma gemini_relabel_children imported p k k' :
  gemini_relabel imported p k k' -> children_of k' = children_of k.
Proof.
  unfold gemini_relabel. destruct (not_modal p || negb (Js.mem "Modal" imported)).
  - now intros ->.
  - intros ->. apply gemini_modalChild_children.
Qed.

(** A walked element with a qualified name is the element it was, but for
    its children. *)
Lemma same_tag part part0 :
  qualified part = true -> tag part0 = tag part ->
  exists o c a k k0,
    part = JSXElement o c a k /\ part0 = JSXElement o c a k0.
Proof.
  destruct part as [o c a k|s|inner]; try discriminate.
  destruct part0 as [o0 c0 a0 k0|s0|inner0]; try discriminate.
  cbn [tag]. intros _ H. inversion H; subst. eauto 10.
Qed.

End ModalPlaces.

(** The tree of [<Modal><Modal.Header>title</Modal.Header><div><Modal.Body>
    text</Modal.Body></div></Modal>] and its intermediate [div]. *)
Definition nested_modal_body : Ast.Node :=
  Ast.JSXElement (Ast.JSXIdentifier "div") (Some (Ast.JSXIdentifier "div")) []
    [ Ast.JSXElement (Ast.JSXMemberExpression (Ast.JSXIdentifier "Modal") "Body")
        (Some (Ast.JSXMemberExpression (Ast.JSXIdentifier "Modal") "Body")) []
        [ Ast.JSXText "text" ] ].

Definition modal_with_nested_body : Ast.Node :=
  Ast.JSXElement (Ast.JSXIdentifier "Modal") (Some (Ast.JSXIdentifier "Modal")) []
    [ Ast.JSXElement (Ast.JSXMemberExpression (Ast.JSXIdentifier "Modal") "Header")
        (Some (Ast.JSXMemberExpression (Ast.JSXIdentifier "Modal") "Header")) []
        [ Ast.JSXText "title" ];
      nested_modal_body ].

(** C10.  The Modal passes of bootstrap_mui_claude.js and of the second
    script of react-bootstrap-to-mui_gemini2.js rewrite [Modal.Header],
    [Modal.Title], [Modal.Body] and [Modal.Footer] among the direct
    children of the [Modal] element they convert, and nowhere else.  Take
    any tree, any place in it and a child there with a qualified name.
    When the node at the place is not an element named [Modal] (another
    element, a part of Modal, an expression child, at whatever depth below
    a Modal), the walk leaves at the place of the child an element with
    the opening name, the closing name and the attributes of the child.
    When it is a [Modal] (one the pass converts) and the child is one of
    the four parts, the walk leaves there an element named after the
    Dialog counterpart. *)
Theorem modal_parts_only_direct_children n place parent i part :
  subtree place n = Some parent ->
  nth_error (Ast.children_of parent) i = Some part ->
  Ast.qualified part = true ->
  (forall n' log,
      Walk.forEachElement BootstrapMuiClaude.transformModal n = Some (n', log) ->
      exists part',
        subtree (place ++ [i]) n' = Some part'
        /\ (not_modal parent = true -> Ast.tag part' = Ast.tag part)
        /\ (not_modal parent = false ->
            forall prop target,
              modal_part part = Some prop ->
              BootstrapMuiClaude.dialogPart prop = Some target ->
              opening part' = Some (Ast.JSXIdentifier target)))
  /\
  (forall imported n' log,
      Walk.forEachElement (GeminiCodemod.modalPass imported) n = Some (n', log) ->
      exists part',
        subtree (place ++ [i]) n' = Some part'
        /\ (not_modal parent = true -> Ast.tag part' = Ast.tag part)
        /\ (not_modal parent = false ->
            Js.mem "Modal" imported = true ->
            forall prop target,
              modal_part part = Some prop ->
              GeminiCodemod.dialogPart prop = Some target ->
              opening part' = Some (Ast.JSXIdentifier target))).
Proof.
  intros Hs Hi Hq. split.
  - intros n' log Hw.
    destruct (walk_child _ _ ModalPlaces.claude_children
                ModalPlaces.claude_relabel_children _ _ _ _ _ _ _ Hw Hs Hi)
      as [part0 [part' [[lg Hp] [Hsub Hl]]]].
    exists part'. split; [exact Hsub|].
    assert (Ht : Ast.tag part0 = Ast.tag part).
    { eapply (qualified_keeps_tag BootstrapMuiClaude.transformModal); eauto.
      intros. now apply claude_modal_skips. }
    destruct parent as [o c a ks|s|inner]; cbn [left_by not_modal] in *.
    + destruct Hl as [kids' Hl]. unfold ModalPlaces.claude_relabel in Hl.
      cbn [not_modal] in Hl.
      destruct (negb (Ast.name_is o "Modal")).
      * subst part'. split; [intros _; exact Ht|intros H; discriminate H].
      * split; [intros H; discriminate H|]. intros _ prop target Hprop Hd.
        destruct (ModalPlaces.same_tag _ _ Hq Ht) as (po & pc & pa & pk & pk0 & -> & ->).
        cbn [modal_part] in Hprop. destruct Hl as [lg' Hl].
        cbn [BootstrapMuiClaude.modalChild] in Hl. rewrite Hprop, Hd in Hl.
        destruct pc; [|discriminate]. inversion Hl; subst. reflexivity.
    + subst part'. split; [intros _; exact Ht|intros H; discriminate H].
    + subst part'. split; [intros _; exact Ht|intros H; discriminate H].
  - intros imported n' log Hw.
    destruct (walk_child _ _ (ModalPlaces.gemini_children imported)
                (ModalPlaces.gemini_relabel_children imported) _ _ _ _ _ _ _ Hw Hs Hi)
      as [part0 [part' [[lg Hp] [Hsub Hl]]]].
    exists part'. split; [exact Hsub|].
    assert (Ht : Ast.tag part0 = Ast.tag part).
    { eapply (qualified_keeps_tag (GeminiCodemod.modalPass imported)); eauto.
      intros. now apply gemini_modal_skips. }
    destruct parent as [o c a ks|s|inner]; cbn [left_by not_modal] in *.
    + destruct Hl as [kids' Hl]. unfold ModalPlaces.gemini_relabel in Hl.
      cbn [not_modal] in Hl.
      destruct (negb (Ast.name_is o "Modal")); cbn [orb] in Hl.
      * subst part'. split; [intros _; exact Ht|intros H; discriminate H].
      * split; [intros H; discriminate H|]. intros _ Himp prop target Hprop Hd.
        rewrite Himp in Hl. cbn [negb] in Hl. subst part'.
        destruct (ModalPlaces.same_tag _ _ Hq Ht) as (po & pc & pa & pk & pk0 & -> & ->).
        cbn [modal_part] in Hprop.
        cbn [GeminiCodemod.modalChild]. rewrite Hprop, Hd. reflexivity.
    + subst part'. split; [intros _; exact Ht|intros H; discriminate H].
    + subst part'. split; [intros _; exact Ht|intros H; discriminate H].
Qed.

(** In [<Modal><Modal.Header>...</Modal.Header><div><Modal.Body>...
    </Modal.Body></div></Modal>], walked from the [Modal]: the child of the
    [div]. *)
Lemma modal_parts_only_direct_children_witness :
  (forall n' log,
      Walk.forEachElement BootstrapMuiClaude.transformModal modal_with_nested_body
      = Some (n', log) ->
      exists part',
        subtree ([1] ++ [0]) n' = Some part'
        /\ (not_modal nested_modal_body = true ->
            Ast.tag part'
            = Ast.tag (Ast.JSXElement
                         (Ast.JSXMemberExpression (Ast.JSXIdentifier "Modal") "Body")
                         (Some (Ast.JSXMemberExpression (Ast.JSXIdentifier "Modal") "Body"))
                         [] [ Ast.JSXText "text" ]))
        /\ (not_modal nested_modal_body = false ->
            forall prop target,
              modal_part (Ast.JSXElement
                            (Ast.JSXMemberExpression (Ast.JSXIdentifier "Modal") "Body")
                            (Some (Ast.JSXMemberExpression (Ast.JSXIdentifier "Modal") "Body"))
                            [] [ Ast.JSXText "text" ]) = Some prop ->
              BootstrapMuiClaude.dialogPart prop = Some target ->
              opening part' = Some (Ast.JSXIdentifier target)))
  /\
  (forall imported n' log,
      Walk.forEachElement (GeminiCodemod.modalPass imported) modal_with_nested_body
      = Some (n', log) ->
      exists part',
        subtree ([1] ++ [0]) n' = Some part'
        /\ (not_modal nested_modal_body = true ->
            Ast.tag part'
            = Ast.tag (Ast.JSXElement
                         (Ast.JSXMemberExpression (Ast.JSXIdentifier "Modal") "Body")
                         (Some (Ast.JSXMemberExpression (Ast.JSXIdentifier "Modal") "Body"))
                         [] [ Ast.JSXText "text" ]))
        /\ (not_modal nested_modal_body = false ->
            Js.mem "Modal" imported = true ->
            forall prop target,
              modal_part (Ast.JSXElement
                            (Ast.JSXMemberExpression (Ast.JSXIdentifier "Modal") "Body")
                            (Some (Ast.JSXMemberExpression (Ast.JSXIdentifier "Modal") "Body"))
                            [] [ Ast.JSXText "text" ]) = Some prop ->
              GeminiCodemod.dialogPart prop = Some target ->
              opening part' = Some (Ast.JSXIdentifier target))).
Proof.
  apply (modal_parts_only_direct_children modal_with_nested_body [1] nested_modal_body 0
           (Ast.JSXElement
              (Ast.JSXMemberExpression (Ast.JSXIdentifier "Modal") "Body")
              (Some (Ast.JSXMemberExpression (Ast.JSXIdentifier "Modal") "Body"))
              [] [ Ast.JSXText "text" ]));
    reflexivity.
Defined.

(** On the whole tree: the direct [Modal.Header] becomes [DialogTitle], the
    [Modal.Body] below the [div] stays. *)
Example claude_modal_run :
  Walk.forEachElement BootstrapMuiClaude.transformModal modal_with_nested_body
  = Some
      (Ast.JSXElement (Ast.JSXIdentifier "Dialog") (Some (Ast.JSXIdentifier "Dialog")) []
         [ Ast.JSXElement (Ast.JSXIdentifier "DialogTitle")
             (Some (Ast.JSXIdentifier "DialogTitle")) [] [ Ast.JSXText "title" ];
           nested_modal_body ],
       [ BootstrapMuiClaude.AddMUIImport "DialogTitle";
         BootstrapMuiClaude.AddMUIImport "Dialog";
         BootstrapMuiClaude.SetHasChanges ]).
Proof. vm_compute. reflexivity. Qed.

Example gemini_modal_run :
  Walk.forEachElement (GeminiCodemod.modalPass ["Modal"]) modal_with_nested_body
  = Some
      (Ast.JSXElement (Ast.JSXIdentifier "Dialog") (Some (Ast.JSXIdentifier "Dialog")) []
         [ Ast.JSXElement (Ast.JSXIdentifier "DialogTitle")
             (Some (Ast.JSXIdentifier "DialogTitle")) [] [ Ast.JSXText "title" ];
           nested_modal_body ],
       [ GeminiCodemod.AddMuiImport "Dialog"; GeminiCodemod.AddMuiImport "DialogTitle";
         GeminiCodemod.AddMuiImport "DialogContent";
         GeminiCodemod.AddMuiImport "DialogActions" ]).
Proof. vm_compute. reflexivity. Qed.

(** ** The alias table of react-bootstrap-to-mui_manus.js *)




(** *** Names that plain objects inherit

    The scripts look attribute names up in plain objects.  For the name of
    a member of [Object.prototype] the lookup finds the inherited member,
    a built-in function; the definitions above do not follow what the
    code does with it.  The properties of whole walks are therefore stated
    for trees in which no attribute has such a name, nor, where a script
    looks values up as well, such a string as its value. *)






Module ManusPlaces.
Import Ast Walk.



End ManusPlaces.


(** A module that imports [Card] from react-bootstrap and declares a
    [Button] of its own, which it uses inside a [Card]. *)
Definition lit (s : string) : Ast.AttrValue :=
  Ast.Bare (Ast.ELiteral Ast.Literal (Js.JString s)).

Definition local_button : Ast.Node :=
  Ast.JSXElement (Ast.JSXIdentifier "Button") (Some (Ast.JSXIdentifier "Button"))
    [ Ast.JSXAttribute "variant" (lit "primary") ] [ Ast.JSXText "Go" ].

Definition card_import : Ast.ImportDeclaration :=
  Ast.mkImport [ Ast.ImportSpecifier "Card" "Card" ] Ast.Literal "react-bootstrap".

Definition card_with_button : Ast.Node :=
  Ast.JSXElement (Ast.JSXIdentifier "Card") (Some (Ast.JSXIdentifier "Card"))
    [ Ast.JSXAttribute "bg" (lit "light") ] [ local_button ].

Example manus_card_with_button_run :
  Walk.forEachElement
    (RbToMuiManus.transformElement (RbToMuiManus.reactBootstrapImports [card_import]))
    card_with_button
  = Some (card_with_button, [ RbToMuiManus.SetMuiImport "Card" "@mui/material" ]).
Proof. vm_compute. reflexivity. Qed.


(** bootstrap_mui_deep.js has no alias table: in a module without any
    import, the [Button] that the module declares itself is rewritten. *)
Definition own_button_module : Ast.Program :=
  Ast.mkProgram []
    [ Ast.mkStmt (Ast.VariableFunction "Button") [];
      Ast.mkStmt Ast.OtherStatement [ local_button ] ].


(** ** Running a renaming pass on its own output *)

Section SecondRun.
Import Ast Walk.
Context {E : Type}.
Variable quiet : E -> Prop.
Variable cb : Node -> W E Node.
Variable sel : JSXName -> bool.

(** No tag of the tree is one the pass selects. *)
Definition settled (n : Node) : Prop :=
  Forall (fun x => sel x = false) (opening_names n).

Hypothesis cb_fixed :
  forall o c a kids,
    sel o = false ->
    exists l, cb (JSXElement o c a kids) = Some (JSXElement o c a kids, l)
              /\ Forall quiet l.
Hypothesis cb_settles :
  forall o c a kids n' l,
    Forall settled kids ->
    cb (JSXElement o c a kids) = Some (n', l) ->
    settled n'.

Lemma settled_children kids :
  Forall settled kids <->
  Forall (fun x => sel x = false) (flat_map opening_names kids).
Proof. unfold settled. symmetry. apply Forall_flat_map. Qed.

Lemma walked_children_settled kids kids' log :
  Forall (fun k => forall k' l, forEachElement cb k = Some (k', l) -> settled k') kids ->
  mapW (forEachElement cb) kids = Some (kids', log) ->
  Forall settled kids'.
Proof.
  intros IH H. apply mapW_Forall2 in H.
  induction H as [|k k' r r' [l Hk] _ IHr]; [constructor|].
  inversion IH; subst. constructor; eauto.
Qed.

Lemma walk_settles n :
  forall n' log, forEachElement cb n = Some (n', log) -> settled n'.
Proof.
  induction n as [o c a kids IH|s|inner IH] using Node_nested_ind; intros n' log H.
  - rewrite forEachElement_element in H.
    destruct (mapW (forEachElement cb) kids) as [[kids' below]|] eqn:Hk; [|discriminate].
    destruct (cb (JSXElement o c a kids')) as [[m here]|] eqn:Hcb; [|discriminate].
    inversion H; subst.
    eapply cb_settles; [|exact Hcb].
    eapply walked_children_settled; eauto.
  - inversion H; subst. constructor.
  - rewrite forEachElement_expression in H.
    destruct (mapW (forEachElement cb) inner) as [[inner' lg]|] eqn:Hk; [|discriminate].
    inversion H; subst. unfold settled. cbn [opening_names].
    apply settled_children. eapply walked_children_settled; eauto.
Qed.

Lemma mapW_fixed_quiet (l : list Node) :
  Forall (fun k => exists lg, forEachElement cb k = Some (k, lg) /\ Forall quiet lg) l ->
  exists lg, mapW (forEachElement cb) l = Some (l, lg) /\ Forall quiet lg.
Proof.
  induction 1 as [|k r [l1 [Hk Hq1]] _ [l2 [Hr Hq2]]].
  - exists []. split; [reflexivity|constructor].
  - exists (l1 ++ l2). rewrite mapW_cons, Hk, Hr. split; [reflexivity|].
    apply Forall_app. split; assumption.
Qed.

Lemma settled_fixed n :
  settled n ->
  exists log, forEachElement cb n = Some (n, log) /\ Forall quiet log.
Proof.
  induction n as [o c a kids IH|s|inner IH] using Node_nested_ind; intros Hs.
  - unfold settled in Hs. cbn [opening_names] in Hs.
    inversion Hs as [|? ? Ho Hkids]; subst.
    apply settled_children in Hkids.
    destruct (mapW_fixed_quiet kids) as [below [Hk Hq]].
    { rewrite Forall_forall in *. intros k Hin. apply IH; auto. }
    destruct (cb_fixed o c a kids Ho) as [here [Hcb Hq']].
    exists (here ++ below). rewrite forEachElement_element, Hk, Hcb.
    split; [reflexivity|]. apply Forall_app. split; assumption.
  - exists []. split; [reflexivity|constructor].
  - unfold settled in Hs. cbn [opening_names] in Hs.
    apply settled_children in Hs.
    destruct (mapW_fixed_quiet inner) as [lg [Hk Hq]].
    { rewrite Forall_forall in *. intros k Hin. apply IH; auto. }
    exists lg. rewrite forEachElement_expression, Hk. split; [reflexivity|assumption].
Qed.

Lemma retag_names k n : opening_names (retag_node k n) = opening_names n.
Proof.
  induction n as [o c a kids IH|s|inner IH] using Node_nested_ind;
    cbn [retag_node opening_names]; [f_equal| |]; try reflexivity.
  - induction IH as [|x r Hx _ IHr]; [reflexivity|].
    cbn [map flat_map]. rewrite Hx, IHr. reflexivity.
  - induction IH as [|x r Hx _ IHr]; [reflexivity|].
    cbn [map flat_map]. rewrite Hx, IHr. reflexivity.
Qed.

(** What the pass returned is, once printed and parsed again, a tree the
    pass walks without changing it and without a loud effect. *)
Lemma second_run_fixed k n n' log :
  forEachElement cb n = Some (n', log) ->
  exists log', forEachElement cb (retag_node k n') = Some (retag_node k n', log')
               /\ Forall quiet log'.
Proof.
  intros H. apply settled_fixed. unfold settled. rewrite retag_names.
  eapply walk_settles. exact H.
Qed.

End SecondRun.

(** ** The renaming passes of bootstrap_mui_claude.js, run twice *)

Module ClaudeSecondRun.
Import Js Ast Walk BootstrapMuiClaude.

(** An effect other than [hasChanges = true]. *)
Definition quiet (e : Effect) : Prop := e <> SetHasChanges.

(** The tags each pass selects. *)
Definition selModal (o : JSXName) : bool := name_is o "Modal".
Definition selRow (o : JSXName) : bool := name_is o "Row".
Definition selCol (o : JSXName) : bool := name_is o "Col".
Definition selCard (o : JSXName) : bool :=
  match member_of o "Card" with
  | Some prop => String.eqb prop "Body" || String.eqb prop "Header" || String.eqb prop "Title"
  | None => false
  end.
Definition selFormControl (o : JSXName) : bool :=
  match member_of o "Form" with
  | Some prop => String.eqb prop "Control"
  | None => false
  end.

Lemma settled_element sel o c a kids :
  sel o = false ->
  Forall (settled sel) kids ->
  settled sel (JSXElement o c a kids).
Proof.
  intros Ho Hk. unfold settled. cbn [opening_names]. constructor; [assumption|].
  now apply settled_children.
Qed.

Lemma name_is_identifier o s : name_is o s = true -> exists x, o = JSXIdentifier x.
Proof. destruct o; [eauto|discriminate]. Qed.

Lemma modalChild_settled k k' l :
  settled selModal k -> modalChild k = Some (k', l) -> settled selModal k'.
Proof.
  intros Hs H. destruct k as [o c a kids| |]; try (inversion H; subst; assumption).
  unfold modalChild in H.
  destruct (member_of o "Modal") as [prop|]; [|inversion H; subst; assumption].
  destruct (dialogPart prop) as [target|] eqn:Hp; [|inversion H; subst; assumption].
  destruct c; [|discriminate]. inversion H; subst.
  unfold settled in *. cbn [opening_names] in *. inversion Hs; subst.
  constructor; [|assumption].
  unfold dialogPart in Hp.
  destruct (String.eqb prop "Header" || String.eqb prop "Title");
    [inversion Hp; reflexivity|].
  destruct (String.eqb prop "Body"); [inversion Hp; reflexivity|].
  destruct (String.eqb prop "Footer"); [inversion Hp; reflexivity|discriminate].
Qed.

Lemma modal_fixed o c a kids :
  selModal o = false ->
  exists l, transformModal (JSXElement o c a kids) = Some (JSXElement o c a kids, l)
            /\ Forall quiet l.
Proof.
  intros H. exists []. unfold transformModal. unfold selModal in H. rewrite H.
  split; [reflexivity|constructor].
Qed.

Lemma modal_settles o c a kids n' l :
  Forall (settled selModal) kids ->
  transformModal (JSXElement o c a kids) = Some (n', l) ->
  settled selModal n'.
Proof.
  intros Hk H. unfold transformModal in H.
  destruct (name_is o "Modal") eqn:Ho.
  - destruct (name_is_identifier _ _ Ho) as [x ->].
    cbn [rename_in_place set_name] in H. unfold bind, tell, ret in H.
    destruct (mapW modalChild kids) as [[kids' lg]|] eqn:Hm; [|discriminate].
    inversion H; subst. apply settled_element; [reflexivity|].
    apply mapW_Forall2 in Hm. clear H.
    induction Hm as [|k k' r r' [lk Hc] _ IH]; [constructor|].
    inversion Hk; subst. constructor; [|auto].
    eapply modalChild_settled; eauto.
  - inversion H; subst. apply settled_element; assumption.
Qed.

Lemma row_fixed o c a kids :
  selRow o = false ->
  exists l, transformRow (JSXElement o c a kids) = Some (JSXElement o c a kids, l)
            /\ Forall quiet l.
Proof.
  intros H. exists []. unfold transformRow. unfold selRow in H. rewrite H.
  split; [reflexivity|constructor].
Qed.

Lemma row_settles o c a kids n' l :
  Forall (settled selRow) kids ->
  transformRow (JSXElement o c a kids) = Some (n', l) ->
  settled selRow n'.
Proof.
  intros Hk H. unfold transformRow in H.
  destruct (name_is o "Row") eqn:Ho.
  - destruct (name_is_identifier _ _ Ho) as [x ->].
    cbn [rename_in_place set_name] in H. inversion H; subst.
    apply settled_element; [reflexivity|assumption].
  - inversion H; subst. apply settled_element; assumption.
Qed.

Lemma col_fixed o c a kids :
  selCol o = false ->
  exists l, transformCol (JSXElement o c a kids) = Some (JSXElement o c a kids, l)
            /\ Forall quiet l.
Proof.
  intros H. exists []. unfold transformCol. unfold selCol in H. rewrite H.
  split; [reflexivity|constructor].
Qed.

Lemma col_settles o c a kids n' l :
  Forall (settled selCol) kids ->
  transformCol (JSXElement o c a kids) = Some (n', l) ->
  settled selCol n'.
Proof.
  intros Hk H. unfold transformCol in H.
  destruct (name_is o "Col") eqn:Ho.
  - destruct (name_is_identifier _ _ Ho) as [x ->].
    cbn [rename_in_place set_name] in H. inversion H; subst.
    apply settled_element; [reflexivity|assumption].
  - inversion H; subst. apply settled_element; assumption.
Qed.

Lemma card_fixed o c a kids :
  selCard o = false ->
  exists l, transformCard (JSXElement o c a kids) = Some (JSXElement o c a kids, l)
            /\ Forall quiet l.
Proof.
  unfold selCard, transformCard. intros H.
  destruct (member_of o "Card") as [prop|].
  - apply orb_false_iff in H. destruct H as [H Ht].
    apply orb_false_iff in H. destruct H as [Hb Hh].
    rewrite Hb, Hh, Ht. exists []. split; [reflexivity|constructor].
  - destruct (name_is o "Card").
    + exists [AddMUIImport "Card"]. split; [reflexivity|].
      constructor; [discriminate|constructor].
    + exists []. split; [reflexivity|constructor].
Qed.

Lemma card_settles o c a kids n' l :
  Forall (settled selCard) kids ->
  transformCard (JSXElement o c a kids) = Some (n', l) ->
  settled selCard n'.
Proof.
  intros Hk H. unfold transformCard in H.
  destruct (member_of o "Card") as [prop|] eqn:Hm.
  - destruct (String.eqb prop "Body") eqn:Hb;
      [inversion H; subst; apply settled_element; [reflexivity|assumption]|].
    destruct (String.eqb prop "Header") eqn:Hh;
      [inversion H; subst; apply settled_element; [reflexivity|assumption]|].
    destruct (String.eqb prop "Title") eqn:Ht;
      [inversion H; subst; apply settled_element; [reflexivity|assumption]|].
    inversion H; subst. apply settled_element; [|assumption].
    unfold selCard. rewrite Hm, Hb, Hh, Ht. reflexivity.
  - assert (Ho : selCard o = false) by (unfold selCard; now rewrite Hm).
    destruct (name_is o "Card"); inversion H; subst;
      apply settled_element; assumption.
Qed.

Lemma formControl_fixed o c a kids :
  selFormControl o = false ->
  exists l, transformFormControl (JSXElement o c a kids)
            = Some (JSXElement o c a kids, l)
            /\ Forall quiet l.
Proof.
  unfold selFormControl, transformFormControl. intros H.
  destruct (member_of o "Form") as [prop|].
  - rewrite H. exists []. split; [reflexivity|constructor].
  - exists []. split; [reflexivity|constructor].
Qed.

Lemma formControl_settles o c a kids n' l :
  Forall (settled selFormControl) kids ->
  transformFormControl (JSXElement o c a kids) = Some (n', l) ->
  settled selFormControl n'.
Proof.
  intros Hk H. unfold transformFormControl in H.
  destruct (member_of o "Form") as [prop|] eqn:Hm.
  - destruct (String.eqb prop "Control") eqn:Hc.
    + inversion H; subst. apply settled_element; [reflexivity|assumption].
    + inversion H; subst. apply settled_element; [|assumption].
      unfold selFormControl. now rewrite Hm, Hc.
  - inversion H; subst. apply settled_element; [|assumption].
    unfold selFormControl. now rewrite Hm.
Qed.

(** The passes whose target names no pass selects. *)
Definition renamingPasses : list (Node -> W Node) :=
  [ transformModal; transformRow; transformCol; transformCard; transformFormControl ].

End ClaudeSecondRun.

(** C3, as amended.  In bootstrap_mui_claude.js the passes that rename to a
    tag no pass selects (Modal with its direct parts, Row, Col, the parts
    of Card, Form.Control) are idempotent: on what such a pass returned,
    printed and parsed again with either flavour of literal, the pass
    returns the same tree and does not set [hasChanges]. *)
Theorem claude_renaming_passes_idempotent :
  forall cb k n n' log,
    In cb ClaudeSecondRun.renamingPasses ->
    Walk.forEachElement cb n = Some (n', log) ->
    exists log',
      Walk.forEachElement cb (Ast.retag_node k n') = Some (Ast.retag_node k n', log')
      /\ ~ In BootstrapMuiClaude.SetHasChanges log'.
Proof.
  intros cb k n n' log Hin H.
  assert (Hq : exists log',
             Walk.forEachElement cb (Ast.retag_node k n') = Some (Ast.retag_node k n', log')
             /\ Forall ClaudeSecondRun.quiet log').
  { unfold ClaudeSecondRun.renamingPasses in Hin. cbn [In] in Hin.
    destruct Hin as [<-|[<-|[<-|[<-|[<-|[]]]]]].
    - eapply (second_run_fixed _ _ ClaudeSecondRun.selModal);
        eauto using ClaudeSecondRun.modal_fixed, ClaudeSecondRun.modal_settles.
    - eapply (second_run_fixed _ _ ClaudeSecondRun.selRow);
        eauto using ClaudeSecondRun.row_fixed, ClaudeSecondRun.row_settles.
    - eapply (second_run_fixed _ _ ClaudeSecondRun.selCol);
        eauto using ClaudeSecondRun.col_fixed, ClaudeSecondRun.col_settles.
    - eapply (second_run_fixed _ _ ClaudeSecondRun.selCard);
        eauto using ClaudeSecondRun.card_fixed, ClaudeSecondRun.card_settles.
    - eapply (second_run_fixed _ _ ClaudeSecondRun.selFormControl);
        eauto using ClaudeSecondRun.formControl_fixed,
                    ClaudeSecondRun.formControl_settles. }
  destruct Hq as [log' [Hw Hq]]. exists log'. split; [assumption|].
  intros Hc. rewrite Forall_forall in Hq. apply (Hq _ Hc). reflexivity.
Qed.

Lemma claude_renaming_passes_idempotent_witness :
  In BootstrapMuiClaude.transformModal ClaudeSecondRun.renamingPasses
  /\ exists log',
       Walk.forEachElement BootstrapMuiClaude.transformModal
         (Ast.retag_node Ast.Literal
            (Ast.JSXElement (Ast.JSXIdentifier "Dialog")
               (Some (Ast.JSXIdentifier "Dialog")) []
               [ Ast.JSXElement (Ast.JSXIdentifier "DialogTitle")
                   (Some (Ast.JSXIdentifier "DialogTitle")) [] [ Ast.JSXText "title" ];
                 nested_modal_body ]))
       = Some
           (Ast.retag_node Ast.Literal
              (Ast.JSXElement (Ast.JSXIdentifier "Dialog")
                 (Some (Ast.JSXIdentifier "Dialog")) []
                 [ Ast.JSXElement (Ast.JSXIdentifier "DialogTitle")
                     (Some (Ast.JSXIdentifier "DialogTitle")) [] [ Ast.JSXText "title" ];
                   nested_modal_body ]),
            log')
       /\ ~ In BootstrapMuiClaude.SetHasChanges log'.
Proof.
  split.
  - left. reflexivity.
  - apply (claude_renaming_passes_idempotent
             BootstrapMuiClaude.transformModal Ast.Literal modal_with_nested_body
             (Ast.JSXElement (Ast.JSXIdentifier "Dialog")
                (Some (Ast.JSXIdentifier "Dialog")) []
                [ Ast.JSXElement (Ast.JSXIdentifier "DialogTitle")
                    (Some (Ast.JSXIdentifier "DialogTitle")) [] [ Ast.JSXText "title" ];
                  nested_modal_body ])
             [ BootstrapMuiClaude.AddMUIImport "DialogTitle";
               BootstrapMuiClaude.AddMUIImport "Dialog";
               BootstrapMuiClaude.SetHasChanges ]).
    + left. reflexivity.
    + exact claude_modal_run.
Defined.

(** A module that imports [Button] from react-bootstrap and uses it. *)
Definition button_module : Ast.Program :=
  Ast.mkProgram
    [ Ast.mkImport [ Ast.ImportSpecifier "Button" "Button" ] Ast.Literal "react-bootstrap" ]
    [ Ast.mkStmt Ast.OtherStatement [ local_button ] ].

Definition button_module_once : Ast.Program :=
  Ast.mkProgram
    [ Ast.mkImport [ Ast.ImportDefaultSpecifier "Button" ] Ast.Typed "@mui/material/Button" ]
    [ Ast.mkStmt Ast.OtherStatement
        [ Ast.JSXElement (Ast.JSXIdentifier "Button") (Some (Ast.JSXIdentifier "Button"))
            [ BootstrapMuiClaude.stringAttr "variant" "contained";
              BootstrapMuiClaude.stringAttr "color" "primary" ]
            [ Ast.JSXText "Go" ] ] ].

Definition button_module_twice : Ast.Program :=
  Ast.mkProgram
    [ Ast.mkImport [ Ast.ImportDefaultSpecifier "Button" ] Ast.Literal "@mui/material/Button" ]
    [ Ast.mkStmt Ast.OtherStatement
        [ Ast.JSXElement (Ast.JSXIdentifier "Button") (Some (Ast.JSXIdentifier "Button"))
            [ Ast.JSXAttribute "color" (lit "primary") ]
            [ Ast.JSXText "Go" ] ] ].

(** bootstrap_mui_claude.js run on its own output: the Button is matched
    again by its tag, its [variant] is dropped, and the run reports a
    change. *)
Lemma claude_second_run_changes_button :
  BootstrapMuiClaude.transform button_module = Some (Ast.ToSource button_module_once)
  /\ BootstrapMuiClaude.transform (Ast.reparse Ast.Literal button_module_once)
     = Some (Ast.ToSource button_module_twice)
  /\ button_module_twice <> Ast.reparse Ast.Literal button_module_once.
Proof.
  split; [vm_compute; reflexivity|].
  split; [vm_compute; reflexivity|].
  vm_compute. intros H. discriminate H.
Qed.

(** ** The early return of react-bootstrap-to-mui_claude.js *)

Lemma no_named_import_no_bootstrapImports (l : list Ast.ImportDeclaration) :
  (forall d, In d l -> Ast.source d <> "react-bootstrap") ->
  filter RbToMuiClaude.from_react_bootstrap l = [].
Proof.
  induction l as [|d r IH]; intros H; [reflexivity|].
  cbn [filter]. unfold RbToMuiClaude.from_react_bootstrap at 1.
  destruct (String.eqb (Ast.source d) "react-bootstrap") eqn:Hd.
  - apply String.eqb_eq in Hd. exfalso. apply (H d); [left; reflexivity|assumption].
  - apply IH. intros d' Hin. apply H. right. assumption.
Qed.

(** C2, as amended.  A module that has no import from react-bootstrap is
    returned by react-bootstrap-to-mui_claude.js as it came, by the return
    that stands before any search for elements and any edit of the
    imports. *)
Theorem rb_claude_returns_source_without_import (p : Ast.Program) :
  (forall d, In d (Ast.imports p) -> Ast.source d <> "react-bootstrap") ->
  RbToMuiClaude.bootstrapImports p = []
  /\ RbToMuiClaude.transform p = Some Ast.ReturnsSource.
Proof.
  intros H.
  assert (Hb : RbToMuiClaude.bootstrapImports p = []).
  { unfold RbToMuiClaude.bootstrapImports.
    rewrite (no_named_import_no_bootstrapImports _ H). reflexivity. }
  split; [assumption|].
  unfold RbToMuiClaude.transform. rewrite Hb. reflexivity.
Qed.

Lemma rb_claude_returns_source_without_import_witness :
  (forall d, In d (Ast.imports own_button_module) -> Ast.source d <> "react-bootstrap")
  /\ RbToMuiClaude.transform own_button_module = Some Ast.ReturnsSource.
Proof.
  split.
  - intros d [].
  - apply (rb_claude_returns_source_without_import own_button_module).
    intros d [].
Defined.

(** bootstrap_mui_deep.js has no such return: a module without any import
    whose own component is called [Modal] comes back changed, with imports
    added. *)
Definition own_modal_module : Ast.Program :=
  Ast.mkProgram []
    [ Ast.mkStmt (Ast.FunctionDeclaration "Modal") [];
      Ast.mkStmt Ast.OtherStatement
        [ Ast.JSXElement (Ast.JSXIdentifier "Modal") None
            [ Ast.JSXAttribute "show" (Ast.JSXExpressionContainer (Ast.EOther "visible")) ]
            [] ] ].

Lemma deep_changes_module_without_import :
  Ast.imports own_modal_module = []
  /\ BootstrapMuiDeep.transform own_modal_module
     = Some (Ast.ToSource
               (Ast.mkProgram
                  [ Ast.mkImport [ Ast.ImportDefaultSpecifier "Dialog" ] Ast.Literal
                      "@mui/material/Dialog";
                    Ast.mkImport [ Ast.ImportDefaultSpecifier "ThemeProvider" ] Ast.Literal
                      "@mui/material/styles" ]
                  [ Ast.mkStmt (Ast.FunctionDeclaration "Modal") [];
                    Ast.mkStmt Ast.OtherStatement
                      [ Ast.JSXElement (Ast.JSXIdentifier "Dialog") None
                          [ Ast.JSXAttribute "show"
                              (Ast.JSXExpressionContainer (Ast.EOther "visible")) ]
                          [] ] ]))
  /\ (forall o, BootstrapMuiDeep.transform own_modal_module = Some o ->
                Ast.unchanged o = false).
Proof.
  split; [reflexivity|].
  split; [vm_compute; reflexivity|].
  intros o H. vm_compute in H. inversion H. reflexivity.
Qed.

(** ** Merging derived styles into an existing [sx] object *)

Section MergeFacts.
Import Js Ast ClassRegex SxMerge.

Definition is_property (m : ObjMember) : bool :=
  match m with Property _ _ => true | SpreadElement _ => false end.

(** [sx={{ ...properties }}] *)
Definition sx_object (properties : list ObjMember) : Attr :=
  JSXAttribute "sx" (JSXExpressionContainer (EObject properties)).

(** [sx={expression}] for an expression that is no object literal. *)
Definition sx_expression (src : string) : Attr :=
  JSXAttribute "sx" (JSXExpressionContainer (EOther src)).

Lemma find_key_prefix key props more :
  find_key key (props ++ more) = Some false -> find_key key props = Some false.
Proof.
  induction props as [|m r IH]; intros H; [reflexivity|].
  cbn [app find_key] in *.
  destruct m as [[n|v|src] e|a]; auto.
  destruct (String.eqb n key); [discriminate|auto].
Qed.

Lemma find_key_total key props :
  forallb is_property props = true -> find_key key props <> None.
Proof.
  induction props as [|m r IH]; intros H; [discriminate|].
  cbn [forallb] in H. apply andb_true_iff in H. destruct H as [Hm Hr].
  destruct m as [[n|v|src] e|a]; cbn [find_key]; auto; [|discriminate].
  destruct (String.eqb n key); [discriminate|auto].
Qed.

Variable mk : string * SxValue -> ObjMember.
Hypothesis mk_property : forall kv, is_property (mk kv) = true.

(** The new members each come from an entry whose key no member of the
    object had as an identifier. *)
Definition fills (props : list ObjMember) (entries : Obj SxValue) (m : ObjMember) : Prop :=
  exists kv, In kv entries /\ m = mk kv /\ find_key (fst kv) props = Some false.

Lemma push_missing_appends entries :
  forall props out,
    push_missing mk props entries = Some out ->
    exists added, out = props ++ added /\ Forall (fills props entries) added.
Proof.
  induction entries as [|kv r IH]; intros props out H.
  - inversion H; subst. exists []. rewrite app_nil_r. split; [reflexivity|constructor].
  - cbn [push_missing] in H.
    destruct (find_key (fst kv) props) as [[|]|] eqn:Hk; [| |discriminate].
    + destruct (IH _ _ H) as [added [-> Hadd]]. exists added. split; [reflexivity|].
      eapply Forall_impl; [|exact Hadd].
      intros m [kv' [Hin [-> Hf]]]. exists kv'. repeat split; auto. now right.
    + destruct (IH _ _ H) as [added [-> Hadd]]. exists (mk kv :: added).
      rewrite <- app_assoc. split; [reflexivity|].
      constructor.
      * exists kv. repeat split; auto. now left.
      * eapply Forall_impl; [|exact Hadd].
        intros m [kv' [Hin [-> Hf]]]. exists kv'. repeat split; auto; [now right|].
        eapply find_key_prefix; eauto.
Qed.

Lemma push_missing_total entries :
  forall props,
    forallb is_property props = true ->
    push_missing mk props entries <> None.
Proof.
  induction entries as [|kv r IH]; intros props Hp; [discriminate|].
  cbn [push_missing].
  destruct (find_key (fst kv) props) as [[|]|] eqn:Hk.
  - auto.
  - apply IH. rewrite forallb_app, Hp. cbn [forallb]. now rewrite mk_property.
  - exfalso. eapply find_key_total; eauto.
Qed.

Lemma update_first_at p f pre a post :
  existsb p pre = false -> p a = true ->
  update_first p f (pre ++ a :: post) = option_map (fun a' => pre ++ a' :: post) (f a).
Proof.
  induction pre as [|x r IH]; intros Hpre Ha; cbn [app update_first].
  - rewrite Ha. reflexivity.
  - cbn [existsb] in Hpre. apply orb_false_iff in Hpre. destruct Hpre as [Hx Hr].
    rewrite Hx, (IH Hr Ha). destruct (f a); reflexivity.
Qed.

End MergeFacts.

Lemma existsb_sx_app pre a post :
  Ast.attr_named "sx" a = true ->
  existsb (Ast.attr_named "sx") (pre ++ a :: post) = true.
Proof.
  intros H. rewrite existsb_app. cbn [existsb]. rewrite H.
  now rewrite orb_true_r.
Qed.

(** When the first [sx] attribute of the element is an object literal,
    the [mergeSxAttribute] of bootstrap_mui_deep.js leaves every member of
    that object in place with its value and appends derived entries only,
    each under a key that no member had as an identifier; the call returns
    whenever the object holds no spread member. *)
Lemma deep_merge_keeps_identifier_keys pre props post extra :
  existsb (Ast.attr_named "sx") pre = false ->
  (forall out,
      BootstrapMuiDeep.mergeSxAttribute (pre ++ sx_object props :: post) extra = Some out ->
      exists added,
        out = pre ++ sx_object (props ++ added) :: post
        /\ Forall (fills BootstrapMuiDeep.sx_property props extra) added)
  /\
  (forallb is_property props = true ->
   BootstrapMuiDeep.mergeSxAttribute (pre ++ sx_object props :: post) extra <> None).
Proof.
  intros Hpre.
  assert (Hsx : forall m, Ast.attr_named "sx" (sx_object m) = true) by reflexivity.
  split.
  - intros out H. unfold BootstrapMuiDeep.mergeSxAttribute, BootstrapMuiDeep.named in H.
    rewrite existsb_sx_app in H by apply Hsx.
    rewrite update_first_at in H by (auto using Hsx).
    cbn [sx_object BootstrapMuiDeep.merge_into] in H.
    destruct (SxMerge.push_missing BootstrapMuiDeep.sx_property props extra)
      as [ps|] eqn:Hp; [|discriminate].
    inversion H; subst.
    destruct (push_missing_appends _ _ _ _ Hp) as [added [-> Hadd]].
    exists added. split; [reflexivity|assumption].
  - intros Hprops.
    unfold BootstrapMuiDeep.mergeSxAttribute, BootstrapMuiDeep.named.
    rewrite existsb_sx_app by apply Hsx.
    rewrite update_first_at by (auto using Hsx).
    cbn [sx_object BootstrapMuiDeep.merge_into].
    destruct (SxMerge.push_missing BootstrapMuiDeep.sx_property props extra) eqn:Hp;
      [discriminate|].
    exfalso. eapply (push_missing_total BootstrapMuiDeep.sx_property); eauto.
Qed.

(** The example of the specification: [{color: 'red'}] merged with
    [{color: 'blue', margin: 2}]. *)
Definition red : list Ast.ObjMember :=
  [ Ast.Property (Ast.KIdentifier "color") (Ast.ELiteral Ast.Typed (Js.JString "red")) ].

Definition blue_and_margin : Js.Obj ClassRegex.SxValue :=
  [ ("color", ClassRegex.SxString "blue"); ("margin", ClassRegex.SxNumber 2) ].

Example deep_merge_red_blue :
  BootstrapMuiDeep.mergeSxAttribute [ sx_object red ] blue_and_margin
  = Some [ sx_object
             (red ++ [ Ast.Property (Ast.KIdentifier "margin")
                         (Ast.ELiteral Ast.Typed (Js.JNumber 2)) ]) ].
Proof. vm_compute. reflexivity. Qed.

(** The same object with its key in quotes: [{'color': 'red'}]. *)
Definition quoted_red : list Ast.ObjMember :=
  [ Ast.Property (Ast.KLiteral (Js.JString "color"))
                 (Ast.ELiteral Ast.Typed (Js.JString "red")) ].

(** [<Button className="text-center" sx={{'textAlign': 'left'}}>Go</Button>] *)
Definition quoted_align_module : Ast.Program :=
  Ast.mkProgram []
    [ Ast.mkStmt Ast.OtherStatement
        [ Ast.JSXElement (Ast.JSXIdentifier "Button") (Some (Ast.JSXIdentifier "Button"))
            [ Ast.JSXAttribute "className"
                (Ast.Bare (Ast.ELiteral Ast.Typed (Js.JString "text-center")));
              sx_object [ Ast.Property (Ast.KLiteral (Js.JString "textAlign"))
                                       (Ast.ELiteral Ast.Typed (Js.JString "left")) ] ]
            [ Ast.JSXText "Go" ] ] ].

(** C4.  The [mergeSxAttribute] of bootstrap_mui_deep.js looks for a
    member of the existing object by [prop.key.name], which a key written
    in quotes does not have: [{'color': 'red'}] merged with [{color:
    'blue', margin: 2}] gets a second [color], and the module with
    [<Button className="text-center" sx={{'textAlign': 'left'}}>] is
    printed with [sx={{'textAlign': 'left', textAlign: 'center'}}], where
    the derived value comes last.  The [mergeSxAttribute] of the second
    script of react-bootstrap-to-mui_gemini2.js is handed the JSX element,
    which has no attribute list, and throws whatever it is to merge. *)
Theorem merge_duplicates_quoted_key :
  BootstrapMuiDeep.mergeSxAttribute [ sx_object quoted_red ] blue_and_margin
  = Some [ sx_object
             (quoted_red
              ++ [ Ast.Property (Ast.KIdentifier "color")
                     (Ast.ELiteral Ast.Typed (Js.JString "blue"));
                   Ast.Property (Ast.KIdentifier "margin")
                     (Ast.ELiteral Ast.Typed (Js.JNumber 2)) ]) ]
  /\ BootstrapMuiDeep.transform quoted_align_module
     = Some (Ast.ToSource
               (Ast.mkProgram
                  [ Ast.mkImport [ Ast.ImportDefaultSpecifier "Button" ] Ast.Literal
                      "@mui/material/Button";
                    Ast.mkImport [ Ast.ImportDefaultSpecifier "ThemeProvider" ] Ast.Literal
                      "@mui/material/styles" ]
                  [ Ast.mkStmt Ast.OtherStatement
                      [ Ast.JSXElement (Ast.JSXIdentifier "Button")
                          (Some (Ast.JSXIdentifier "Button"))
                          [ sx_object
                              [ Ast.Property (Ast.KLiteral (Js.JString "textAlign"))
                                  (Ast.ELiteral Ast.Typed (Js.JString "left"));
                                Ast.Property (Ast.KIdentifier "textAlign")
                                  (Ast.ELiteral Ast.Typed (Js.JString "center")) ] ]
                          [ Ast.JSXText "Go" ] ] ]))
  /\ (forall extra,
         GeminiCodemod.mergeSxAttribute GeminiCodemod.element_attributes extra = None).
Proof.
  split; [vm_compute; reflexivity|]. split; [vm_compute; reflexivity|].
  intros extra. reflexivity.
Qed.

(** ** Values outside the enumeration of a rule *)

Lemma get_own {V} (o : Js.Obj V) k v : Js.own o k = Some v -> Js.get o k = Js.Own v.
Proof. unfold Js.get. now intros ->. Qed.

Lemma get_undefined {V} (o : Js.Obj V) k :
  Js.own o k = None -> Js.inherited k = false -> Js.get o k = Js.Undefined.
Proof. unfold Js.get. now intros -> ->. Qed.

(** C5, as amended.  Under the [propMap] of bootstrap_mui_deep.js an
    attribute whose literal value is neither a key of the enumeration of
    its rule nor the name of a member of [Object.prototype] keeps its name
    and its value. *)
Theorem unmapped_value_passes_through pm n enumeration v s :
  Js.own pm n = Some enumeration ->
  BootstrapMuiDeep.read_value v = Some (Js.JString s) ->
  Js.own enumeration s = None ->
  Js.inherited s = false ->
  BootstrapMuiDeep.applyPropMap pm (Ast.JSXAttribute n v)
  = Some (Ast.JSXAttribute n v).
Proof.
  intros Hn Hv Hs Hi. unfold BootstrapMuiDeep.applyPropMap.
  destruct v as [|e|e]; [discriminate| |];
    rewrite (get_own _ _ _ Hn), Hv;
    (destruct (Js.is_empty s); [reflexivity|]);
    rewrite (get_undefined _ _ Hs Hi); reflexivity.
Qed.

(** The same holds of [size] on a Button in bootstrap_mui_claude.js. *)
Lemma claude_unmapped_size_passes_through v s :
  BootstrapMuiClaude.literal_value v = Some (Js.JString s) ->
  Js.own BootstrapMuiClaude.SIZE_MAP s = None ->
  Js.inherited s = false ->
  BootstrapMuiClaude.buttonAttr (Ast.JSXAttribute "size" v)
  = Some ([ Ast.JSXAttribute "size" v ], false).
Proof.
  intros Hv Hs Hi. unfold BootstrapMuiClaude.buttonAttr. rewrite Hv.
  cbn [String.eqb Ascii.eqb Bool.eqb BootstrapMuiClaude.get_value].
  rewrite (get_undefined _ _ Hs Hi). reflexivity.
Qed.

Definition deep_button_propMap : Js.Obj (Js.Obj string) :=
  match BootstrapMuiDeep.propMap
          (match Js.own BootstrapMuiDeep.COMPONENT_MAP "Button" with
           | Some cfg => cfg
           | None => BootstrapMuiDeep.plain "" ""
           end) with
  | Some pm => pm
  | None => []
  end.

Lemma unmapped_value_passes_through_witness :
  Js.own deep_button_propMap "variant"
  = Some [ ("primary", "contained"); ("secondary", "outlined");
           ("success", "contained"); ("danger", "contained");
           ("warning", "contained"); ("info", "contained");
           ("light", "outlined"); ("dark", "contained"); ("link", "text") ]
  /\ BootstrapMuiDeep.applyPropMap deep_button_propMap
       (Ast.JSXAttribute "variant" (lit "brand"))
     = Some (Ast.JSXAttribute "variant" (lit "brand")).
Proof.
  split.
  - reflexivity.
  - apply (unmapped_value_passes_through deep_button_propMap "variant"
             [ ("primary", "contained"); ("secondary", "outlined");
               ("success", "contained"); ("danger", "contained");
               ("warning", "contained"); ("info", "contained");
               ("light", "outlined"); ("dark", "contained"); ("link", "text") ]
             (lit "brand") "brand");
      reflexivity.
Defined.

(** bootstrap_mui_claude.js gives an Alert whose variant it does not know
    the severity [info], and drops such a variant from a Button. *)
Lemma claude_defaults_unmapped_variant :
  Js.own BootstrapMuiClaude.ALERT_SEVERITY "brand" = None
  /\ BootstrapMuiClaude.alertAttr (Ast.JSXAttribute "variant" (lit "brand"))
     = Some (BootstrapMuiClaude.stringAttr "severity" "info")
  /\ Js.own BootstrapMuiClaude.BUTTON_VARIANTS "brand" = None
  /\ BootstrapMuiClaude.buttonAttrs [ Ast.JSXAttribute "variant" (lit "brand") ]
     = Some [].
Proof. repeat split; vm_compute; reflexivity. Qed.

(** ** Attributes whose value is not a literal *)

Lemma collect_app f pre post :
  BootstrapMuiClaude.collect f (pre ++ post) =
  match BootstrapMuiClaude.collect f pre, BootstrapMuiClaude.collect f post with
  | Some (o1, f1), Some (o2, f2) => Some (o1 ++ o2, f1 || f2)
  | _, _ => None
  end.
Proof.
  induction pre as [|a r IH]; cbn [app BootstrapMuiClaude.collect].
  - destruct (BootstrapMuiClaude.collect f post) as [[o2 f2]|]; reflexivity.
  - destruct (f a) as [[out flag]|]; [|reflexivity].
    rewrite IH.
    destruct (BootstrapMuiClaude.collect f r) as [[o1 f1]|]; [|reflexivity].
    destruct (BootstrapMuiClaude.collect f post) as [[o2 f2]|]; [|reflexivity].
    rewrite app_assoc, orb_assoc. reflexivity.
Qed.

(** C8, as amended.  In [transformButtons] of bootstrap_mui_claude.js an
    attribute whose value is not a [Literal] node (a computed expression,
    or none) is never looked up in a table: it goes to the new attribute
    list as it is, at its place between what the attributes before it and
    after it become, and it cannot make the pass throw; the default
    [variant="contained"] is put first when no literal [variant] is seen. *)
Theorem claude_button_keeps_dynamic_attribute n v pre post o1 f1 o2 f2 :
  BootstrapMuiClaude.literal_value v = None ->
  BootstrapMuiClaude.collect BootstrapMuiClaude.buttonAttr pre = Some (o1, f1) ->
  BootstrapMuiClaude.collect BootstrapMuiClaude.buttonAttr post = Some (o2, f2) ->
  BootstrapMuiClaude.buttonAttr (Ast.JSXAttribute n v)
  = Some ([ Ast.JSXAttribute n v ], false)
  /\ BootstrapMuiClaude.buttonAttrs (pre ++ Ast.JSXAttribute n v :: post)
     = Some ((if f1 || f2 then []
              else [ BootstrapMuiClaude.stringAttr "variant" "contained" ])
             ++ o1 ++ Ast.JSXAttribute n v :: o2).
Proof.
  intros Hv Hpre Hpost.
  assert (Ha : BootstrapMuiClaude.buttonAttr (Ast.JSXAttribute n v)
               = Some ([ Ast.JSXAttribute n v ], false)).
  { unfold BootstrapMuiClaude.buttonAttr. now rewrite Hv. }
  split; [exact Ha|].
  unfold BootstrapMuiClaude.buttonAttrs.
  rewrite collect_app, Hpre. cbn [BootstrapMuiClaude.collect].
  rewrite Ha, Hpost. cbn [app orb].
  destruct (f1 || f2); reflexivity.
Qed.

Definition dyn (src : string) : Ast.AttrValue :=
  Ast.JSXExpressionContainer (Ast.EOther src).

Lemma claude_button_keeps_dynamic_attribute_witness :
  BootstrapMuiClaude.literal_value (dyn "kind") = None
  /\ BootstrapMuiClaude.buttonAttrs
       ([ Ast.JSXAttribute "size" (lit "lg") ]
        ++ Ast.JSXAttribute "variant" (dyn "kind")
        :: [ Ast.JSXAttribute "onClick" (dyn "save") ])
     = Some ([ BootstrapMuiClaude.stringAttr "variant" "contained" ]
             ++ [ BootstrapMuiClaude.stringAttr "size" "large" ]
             ++ Ast.JSXAttribute "variant" (dyn "kind")
             :: [ Ast.JSXAttribute "onClick" (dyn "save") ]).
Proof.
  split.
  - reflexivity.
  - apply (claude_button_keeps_dynamic_attribute "variant" (dyn "kind")
             [ Ast.JSXAttribute "size" (lit "lg") ]
             [ Ast.JSXAttribute "onClick" (dyn "save") ]
             [ BootstrapMuiClaude.stringAttr "size" "large" ] false
             [ Ast.JSXAttribute "onClick" (dyn "save") ] false);
      reflexivity.
Defined.

(** The loop of the first script of react-bootstrap-to-mui_gemini2.js
    calls the rule with whatever it read: a computed [size] becomes
    [size="medium"], and a computed [variant] makes the rule throw. *)
Lemma gemini_guesses_dynamic_size :
  GeminiTransform.transformProps GeminiTransform.Button_propMap
    [ Ast.JSXAttribute "size" (dyn "compact ? 'sm' : 'lg'") ]
  = Some [ Ast.JSXAttribute "size" (lit "medium") ]
  /\ GeminiTransform.transformProps GeminiTransform.Button_propMap
       [ Ast.JSXAttribute "variant" (dyn "kind") ]
     = None.
Proof. split; vm_compute; reflexivity. Qed.

(** ** The specifiers that stay on the react-bootstrap imports *)

Section WalkLog.
Import Ast Walk.
Context {E : Type}.
Variable Q : E -> Prop.

Lemma mapW_log {A B} (f : A -> W E B) xs :
  Forall (fun a => forall b l, f a = Some (b, l) -> Forall Q l) xs ->
  forall ys log, mapW f xs = Some (ys, log) -> Forall Q log.
Proof.
  induction 1 as [|a r Ha _ IH]; intros ys log H.
  - inversion H. constructor.
  - rewrite mapW_cons in H.
    destruct (f a) as [[b l1]|] eqn:Hf; [|discriminate].
    destruct (mapW f r) as [[r' l2]|] eqn:Hr; [|discriminate].
    inversion H; subst. apply Forall_app. split; eauto.
Qed.

Variable cb : Node -> W E Node.
Hypothesis cb_log : forall n n' l, cb n = Some (n', l) -> Forall Q l.

Lemma forEachElement_log n :
  forall n' log, forEachElement cb n = Some (n', log) -> Forall Q log.
Proof.
  induction n as [o c a kids IH|s|inner IH] using Node_nested_ind; intros n' log H.
  - rewrite forEachElement_element in H.
    destruct (mapW (forEachElement cb) kids) as [[kids' below]|] eqn:Hk; [|discriminate].
    destruct (cb (JSXElement o c a kids')) as [[m here]|] eqn:Hcb; [|discriminate].
    inversion H; subst. apply Forall_app. split; [eauto|].
    eapply mapW_log; eauto.
  - inversion H. constructor.
  - rewrite forEachElement_expression in H.
    destruct (mapW (forEachElement cb) inner) as [[inner' lg]|] eqn:Hk; [|discriminate].
    inversion H; subst. eapply mapW_log; eauto.
Qed.

Lemma forEachRoot_log b b' log :
  forEachRoot cb b = Some (b', log) -> Forall Q log.
Proof.
  unfold forEachRoot. apply mapW_log.
  rewrite Forall_forall. intros s _ s' l H. unfold bind, ret in H.
  destruct (mapW (forEachElement cb) (jsx s)) as [[r lg]|] eqn:Hr; [|discriminate].
  inversion H; subst. rewrite app_nil_r.
  eapply mapW_log; [|exact Hr].
  rewrite Forall_forall. intros n _. apply forEachElement_log.
Qed.

End WalkLog.

Module CardImports.
Import Js Ast Walk CardCodemod.

(** The specifiers of the imports from react-bootstrap. *)
Definition source_specifiers (l : list ImportDeclaration) : list ImportSpec :=
  flat_map specifiers (filter from_react_bootstrap l).

(** A specifier that no entry of [REPLACEMENTS] migrates. *)
Definition unmigrated (spec : ImportSpec) : bool :=
  match spec with
  | ImportSpecifier imported _ => negb (hasOwnProperty REPLACEMENTS imported)
  | _ => true
  end.

(** An effect that schedules no import from react-bootstrap. *)
Definition elsewhere (e : Effect) : Prop :=
  match e with
  | Schedule s _ => s <> "react-bootstrap"
  | _ => True
  end.

Lemma own_in_values {V} (o : Obj V) k v : own o k = Some v -> In v (values o).
Proof.
  induction o as [|[k' v'] r IH]; [discriminate|].
  cbn [own values map snd]. destruct (String.eqb k k').
  - intros H. inversion H. now left.
  - intros H. right. now apply IH.
Qed.

Lemma replacements_elsewhere r :
  In r (values REPLACEMENTS ++ values CARD_SUBCOMPONENTS) ->
  importSource r <> "react-bootstrap".
Proof.
  intros Hin.
  assert (Hall : forallb (fun x => negb (String.eqb (importSource x) "react-bootstrap"))
                         (values REPLACEMENTS ++ values CARD_SUBCOMPONENTS) = true)
    by (vm_compute; reflexivity).
  rewrite forallb_forall in Hall. specialize (Hall r Hin).
  apply negb_true_iff in Hall. now apply String.eqb_neq.
Qed.

Lemma visit_retains spec : fst (visit_specifier spec) = unmigrated spec.
Proof.
  destruct spec as [imported local| |]; try reflexivity.
  unfold visit_specifier, unmigrated, hasOwnProperty.
  destruct (own REPLACEMENTS imported); reflexivity.
Qed.

Lemma visit_elsewhere spec : Forall elsewhere (snd (visit_specifier spec)).
Proof.
  destruct spec as [imported local| |]; try constructor.
  unfold visit_specifier.
  destruct (own REPLACEMENTS imported) as [r|] eqn:Hr; cbn [snd].
  - apply Forall_app. split.
    + destruct (String.eqb imported "Card"); repeat constructor.
    + constructor; [|constructor]. cbn [elsewhere].
      apply replacements_elsewhere. apply in_or_app. left.
      eapply own_in_values; eauto.
  - repeat constructor.
Qed.

Lemma firstPass_specifiers l :
  source_specifiers (fst (firstPass l)) = filter unmigrated (source_specifiers l).
Proof.
  unfold firstPass, source_specifiers. cbn [fst].
  induction l as [|d r IH]; [reflexivity|].
  cbn [flat_map]. rewrite filter_app, flat_map_app, IH. cbn [filter].
  unfold rewriteImport at 1.
  destruct (from_react_bootstrap d) eqn:Hd; cbn [fst flat_map].
  - rewrite filter_app. f_equal.
    assert (Hrem : remainingSpecifiers d = filter unmigrated (specifiers d)).
    { unfold remainingSpecifiers. apply filter_ext. apply visit_retains. }
    rewrite <- Hrem.
    destruct (remainingSpecifiers d) as [|x xs] eqn:Hx; [reflexivity|].
    cbn [filter]. unfold from_react_bootstrap in *. cbn [source].
    rewrite Hd. cbn [flat_map specifiers]. now rewrite app_nil_r.
  - cbn [filter]. rewrite Hd. reflexivity.
Qed.

Lemma firstPass_elsewhere l : Forall elsewhere (snd (firstPass l)).
Proof.
  unfold firstPass. cbn [snd]. apply Forall_flat_map.
  rewrite Forall_forall. intros d _. unfold rewriteImport.
  destruct (from_react_bootstrap d); cbn [snd]; [|constructor].
  apply Forall_flat_map. rewrite Forall_forall. intros spec _.
  apply visit_elsewhere.
Qed.

Lemma rewrite_name_elsewhere alias n : Forall elsewhere (snd (rewrite_name alias n)).
Proof.
  induction n as [s|obj IH p]; cbn [rewrite_name]; [constructor|].
  destruct (name_is obj alias).
  - destruct (own CARD_SUBCOMPONENTS p) as [r|] eqn:Hr; cbn [snd]; [|constructor].
    constructor; [|constructor]. cbn [elsewhere].
    apply replacements_elsewhere. apply in_or_app. right.
    eapply own_in_values; eauto.
  - destruct (rewrite_name alias obj) as [obj' log]. exact IH.
Qed.

Lemma rewriteCard_elsewhere alias n n' l :
  rewriteCard alias n = Some (n', l) -> Forall elsewhere l.
Proof.
  destruct n as [o c a kids|s|inner]; cbn [rewriteCard]; intros H;
    try (inversion H; constructor).
  pose proof (rewrite_name_elsewhere alias o) as Ho.
  destruct (rewrite_name alias o) as [o' log1].
  destruct c as [x|].
  - pose proof (rewrite_name_elsewhere alias x) as Hx.
    destruct (rewrite_name alias x) as [x' log2].
    inversion H; subst. apply Forall_app. split; assumption.
  - inversion H; subst. rewrite app_nil_r. assumption.
Qed.

Lemma secondPass_elsewhere aliases :
  forall b, Forall elsewhere (snd (secondPass aliases b)).
Proof.
  induction aliases as [|alias r IH]; intros b; cbn [secondPass]; [constructor|].
  destruct (forEachRoot (rewriteCard alias) b) as [[b' log]|] eqn:Hw; [|constructor].
  specialize (IH b'). destruct (secondPass r b') as [b'' log'].
  cbn [snd] in *. apply Forall_app. split; [|assumption].
  eapply forEachRoot_log; [|exact Hw].
  intros n n' l. apply rewriteCard_elsewhere.
Qed.

Lemma schedule_keys s item m :
  s <> "react-bootstrap" ->
  Forall (fun e => fst e <> "react-bootstrap") m ->
  Forall (fun e => fst e <> "react-bootstrap") (schedule s item m).
Proof.
  intros Hs. induction 1 as [|[s' items] r Hx Hr IH]; cbn [schedule].
  - repeat constructor. assumption.
  - destruct (String.eqb s' s); constructor; assumption.
Qed.

Lemma newImports_keys log :
  Forall elsewhere log ->
  Forall (fun e => fst e <> "react-bootstrap") (newImports log).
Proof.
  unfold newImports.
  assert (Hgen : forall m,
             Forall (fun e => fst e <> "react-bootstrap") m ->
             Forall elsewhere log ->
             Forall (fun e => fst e <> "react-bootstrap")
                    (fold_left (fun m e => match e with
                                           | Schedule s item => schedule s item m
                                           | _ => m
                                           end) log m)).
  { induction log as [|e r IH]; intros m Hm Hlog; [assumption|].
    inversion Hlog; subst. cbn [fold_left]. apply IH; [|assumption].
    destruct e; auto. now apply schedule_keys. }
  apply Hgen. constructor.
Qed.

Lemma merge_into_existing_specifiers s items l l' :
  s <> "react-bootstrap" ->
  merge_into_existing s items l = Some l' ->
  source_specifiers l' = source_specifiers l.
Proof.
  intros Hs. revert l'. induction l as [|d r IH]; intros l' H; [discriminate|].
  cbn [merge_into_existing] in H.
  assert (Hskip : forall l', option_map (cons d) (merge_into_existing s items r) = Some l' ->
                             source_specifiers l' = source_specifiers (d :: r)).
  { intros l0 H0.
    destruct (merge_into_existing s items r) as [r'|]; [|discriminate].
    inversion H0; subst. unfold source_specifiers in *. cbn [filter].
    destruct (from_react_bootstrap d); cbn [flat_map]; now rewrite (IH r'). }
  destruct (source_kind d); [|now apply Hskip].
  destruct (String.eqb (source d) s) eqn:Hd; [|now apply Hskip].
  inversion H; subst. apply String.eqb_eq in Hd.
  unfold source_specifiers. cbn [filter].
  unfold from_react_bootstrap. cbn [source].
  apply String.eqb_neq in Hs. rewrite Hd, Hs. reflexivity.
Qed.

Lemma insertImport_specifiers l e :
  fst e <> "react-bootstrap" ->
  source_specifiers (insertImport l e) = source_specifiers l.
Proof.
  intros Hs. unfold insertImport.
  destruct (snd e) as [|i r]; [reflexivity|].
  destruct (merge_into_existing (fst e) (i :: r) l) as [l'|] eqn:Hm.
  - eapply merge_into_existing_specifiers; eauto.
  - unfold source_specifiers. cbn [filter].
    unfold from_react_bootstrap at 1. cbn [source].
    apply String.eqb_neq in Hs. now rewrite Hs.
Qed.

Lemma insertImports_specifiers m :
  Forall (fun e => fst e <> "react-bootstrap") m ->
  forall l, source_specifiers (fold_left insertImport m l) = source_specifiers l.
Proof.
  induction 1 as [|e r He _ IH]; intros l; [reflexivity|].
  cbn [fold_left]. rewrite IH. now apply insertImport_specifiers.
Qed.

End CardImports.

(** C6, as amended.  The codemod of src/unnamed/part_001 prints a module
    whose imports from react-bootstrap hold exactly the specifiers of the
    input that no entry of [REPLACEMENTS] migrates, in their order: a named
    specifier is removed when, and only when, its imported name is a key of
    the table; default and namespace specifiers stay. *)
Theorem card_codemod_keeps_unmigrated_specifiers (p : Ast.Program) :
  exists q,
    CardCodemod.transformer p = Ast.ToSource q
    /\ CardImports.source_specifiers (Ast.imports q)
       = filter CardImports.unmigrated (CardImports.source_specifiers (Ast.imports p)).
Proof.
  unfold CardCodemod.transformer.
  pose proof (CardImports.firstPass_specifiers (Ast.imports p)) as Hspec.
  pose proof (CardImports.firstPass_elsewhere (Ast.imports p)) as Hlog1.
  destruct (CardCodemod.firstPass (Ast.imports p)) as [imports1 log1].
  cbn [fst snd] in *.
  pose proof (CardImports.secondPass_elsewhere
                (CardCodemod.cardAliases log1) (Ast.body p)) as Hlog2.
  destruct (CardCodemod.secondPass (CardCodemod.cardAliases log1) (Ast.body p))
    as [body2 log2].
  cbn [snd] in Hlog2.
  eexists. split; [reflexivity|]. cbn [Ast.imports].
  rewrite CardImports.insertImports_specifiers; [exact Hspec|].
  apply CardImports.newImports_keys. apply Forall_app. split; assumption.
Qed.

(** react-bootstrap-to-mui_claude.js removes the imports from
    react-bootstrap whole: [Carousel], for which it has no entry, loses its
    import together with [Button]. *)
Definition carousel_module : Ast.Program :=
  Ast.mkProgram
    [ Ast.mkImport [ Ast.ImportDefaultSpecifier "React" ] Ast.Literal "react";
      Ast.mkImport [ Ast.ImportSpecifier "Button" "Button";
                     Ast.ImportSpecifier "Carousel" "Carousel" ]
                   Ast.Literal "react-bootstrap" ]
    [ Ast.mkStmt Ast.OtherStatement
        [ Ast.JSXElement (Ast.JSXIdentifier "Carousel") None [] [] ] ].

Lemma rb_claude_drops_unmigrated_specifier :
  RbToMuiClaude.mapped "Carousel" = false
  /\ RbToMuiClaude.transform carousel_module
     = Some (Ast.ToSource
               (Ast.mkProgram
                  [ Ast.mkImport [ Ast.ImportSpecifier "Button" "Button" ] Ast.Literal
                      "@mui/material/Button";
                    Ast.mkImport [ Ast.ImportDefaultSpecifier "React" ] Ast.Literal "react" ]
                  [ Ast.mkStmt Ast.OtherStatement
                      [ Ast.JSXElement (Ast.JSXIdentifier "Carousel") None [] [] ] ]))
  /\ CardImports.source_specifiers
       [ Ast.mkImport [ Ast.ImportSpecifier "Button" "Button" ] Ast.Literal
           "@mui/material/Button";
         Ast.mkImport [ Ast.ImportDefaultSpecifier "React" ] Ast.Literal "react" ]
     = [].
Proof. repeat split; vm_compute; reflexivity. Qed.

(** ** Class tokens that no style rule matches *)

Module DeepClasses.
Import Js Ast Walk ClassRegex SxMerge BootstrapMuiDeep.

(** [CLASSNAME_TO_SX[cls]] is falsy. *)
Definition unmatched (cls : string) : bool :=
  match get CLASSNAME_TO_SX cls with
  | Undefined => true
  | _ => false
  end.

(** The value of the first [className] attribute, if there is one. *)
Definition class_attribute (attrs : list Attr) : option AttrValue :=
  match find (named "className") attrs with
  | Some (JSXAttribute _ v) => Some v
  | _ => None
  end.

Lemma classify_remaining classes :
  forall sx rem,
    snd (fold_left classify classes (sx, rem)) = rem ++ filter unmatched classes.
Proof.
  induction classes as [|c r IH]; intros sx rem; cbn [fold_left filter].
  - now rewrite app_nil_r.
  - unfold classify at 2, unmatched at 1. cbn [fst snd].
    destruct (get CLASSNAME_TO_SX c) as [[k v]| |]; rewrite IH; [reflexivity|reflexivity|].
    now rewrite <- app_assoc.
Qed.

Lemma update_first_keeps_class p f l l' :
  (forall a a', p a = true -> f a = Some a' -> named "className" a' = named "className" a) ->
  update_first p f l = Some l' ->
  existsb (named "className") l' = existsb (named "className") l.
Proof.
  intros Hf. revert l'. induction l as [|a r IH]; intros l' H; cbn [update_first] in H.
  - inversion H. reflexivity.
  - destruct (p a) eqn:Hp.
    + destruct (f a) as [a'|] eqn:Ha; [|discriminate]. inversion H; subst.
      cbn [existsb]. now rewrite (Hf _ _ Hp Ha).
    + destruct (update_first p f r) as [r'|]; [|discriminate]. inversion H; subst.
      cbn [existsb]. now rewrite (IH r').
Qed.

Lemma merge_keeps_class attrs sx attrs' :
  mergeSxAttribute attrs sx = Some attrs' ->
  existsb (named "className") attrs' = existsb (named "className") attrs.
Proof.
  unfold mergeSxAttribute.
  destruct (existsb (named "sx") attrs).
  - apply update_first_keeps_class.
    intros a a' Hp Ha. destruct a as [n v|s]; [|inversion Ha; reflexivity].
    unfold merge_into in Ha.
    destruct v as [|e|[k x|ps|src]]; try (inversion Ha; reflexivity).
    destruct (push_missing sx_property ps sx); [|discriminate].
    inversion Ha. reflexivity.
  - intros H. inversion H; subst. rewrite existsb_app. cbn [existsb].
    unfold named at 2. cbn [attr_named String.eqb Ascii.eqb Bool.eqb].
    now rewrite !orb_false_r.
Qed.

Lemma find_update_first cls l l' :
  existsb (named "className") l = true ->
  update_first (named "className") (set_class cls) l = Some l' ->
  class_attribute l' = Some (Bare (ELiteral Typed (JString cls))).
Proof.
  unfold class_attribute. revert l'.
  induction l as [|a r IH]; intros l' He H; [discriminate|].
  cbn [update_first] in H. cbn [existsb] in He.
  destruct (named "className" a) eqn:Ha.
  - destruct a as [n v|s]; [|discriminate]. cbn [set_class option_map] in H.
    inversion H; subst. cbn [find]. unfold named in *. cbn [attr_named] in *.
    rewrite Ha. reflexivity.
  - cbn [orb] in He.
    destruct (update_first (named "className") (set_class cls) r) as [r'|] eqn:Hr;
      [|discriminate].
    inversion H; subst. cbn [find]. rewrite Ha. now apply (IH r').
Qed.

Lemma find_filter_none l : class_attribute (filter not_className l) = None.
Proof.
  unfold class_attribute.
  induction l as [|a r IH]; [reflexivity|].
  cbn [filter]. unfold not_className at 1.
  destruct (named "className" a) eqn:Ha; cbn [negb]; [assumption|].
  cbn [find]. now rewrite Ha.
Qed.

(** For an element whose first [className] holds the classes [classes],
    not none: the classes that the table does not answer for go back into
    the attribute, in their order and joined by single spaces, and the
    attribute goes when there is none of them. *)
Lemma deep_unmatched_classes_stay attrs n v classes out log :
  find (named "className") attrs = Some (JSXAttribute n v) ->
  class_tokens v = Some classes ->
  classes <> [] ->
  convertClassNameToSx attrs = Some (out, log) ->
  class_attribute out =
  match filter unmatched classes with
  | [] => None
  | remaining => Some (Bare (ELiteral Typed (JString (join " " remaining))))
  end.
Proof.
  intros Hfind Hv Hne H. unfold convertClassNameToSx in H. rewrite Hfind, Hv in H.
  destruct classes as [|c0 cs]; [congruence|].
  destruct (fold_left classify (c0 :: cs) ([], [])) as [sxProps remaining] eqn:Hfold.
  assert (Hrem : remaining = filter unmatched (c0 :: cs)).
  { transitivity (snd (sxProps, remaining)); [reflexivity|].
    rewrite <- Hfold. exact (classify_remaining (c0 :: cs) [] []). }
  subst remaining.
  assert (Hcls : existsb (named "className") attrs = true).
  { apply existsb_exists. exists (JSXAttribute n v).
    apply find_some in Hfind. exact Hfind. }
  assert (Hfinish : forall attrs1 (l2 : list Effect),
             existsb (named "className") attrs1 = true ->
             (match filter unmatched (c0 :: cs) with
              | [] => Walk.ret (filter not_className attrs1)
              | _ :: _ =>
                  match update_first (named "className")
                          (set_class (join " " (filter unmatched (c0 :: cs)))) attrs1 with
                  | Some attrs2 => Walk.ret attrs2
                  | None => None
                  end
              end) = Some (out, l2) ->
             class_attribute out =
             match filter unmatched (c0 :: cs) with
             | [] => None
             | remaining => Some (Bare (ELiteral Typed (JString (join " " remaining))))
             end).
  { intros attrs1 l2 Hc1 Hout.
    destruct (filter unmatched (c0 :: cs)) as [|r0 rs] eqn:Hf.
    - inversion Hout; subst. apply find_filter_none.
    - destruct (update_first (named "className") (set_class (join " " (r0 :: rs))) attrs1)
        as [attrs2|] eqn:Hu; [|discriminate].
      inversion Hout; subst. eapply find_update_first; eauto. }
  destruct sxProps as [|e es].
  - cbn [Walk.bind Walk.ret] in H.
    match type of H with
    | match ?m with _ => _ end = _ => destruct m as [[o l2]|] eqn:Hm; [|discriminate]
    end.
    inversion H; subst. eapply (Hfinish attrs); eauto.
  - unfold Walk.bind at 1 in H.
    destruct (mergeSxAttribute attrs (e :: es)) as [merged|] eqn:Hmerge; [|discriminate].
    match type of H with
    | match ?m with _ => _ end = _ => destruct m as [[o l2]|] eqn:Hm; [|discriminate]
    end.
    inversion H; subst. eapply (Hfinish merged); eauto.
    now rewrite (merge_keeps_class _ _ _ Hmerge).
Qed.

End DeepClasses.

(** C7.  bootstrap_mui_deep.js: the class [constructor] is not a key of
    [CLASSNAME_TO_SX], yet [CLASSNAME_TO_SX['constructor']] is the function
    that every object inherits, so the token is taken for a style class:
    it yields no style and is not kept, and with [mb-3] beside it the whole
    [className] attribute goes.  bootstrap_mui_claude.js: the expression
    [/\bflex-column\b/] matches inside [flex-column-reverse], which leaves
    [-reverse] in the attribute in place of the token. *)
Theorem class_token_not_kept :
  Js.own BootstrapMuiDeep.CLASSNAME_TO_SX "constructor" = None
  /\ BootstrapMuiDeep.convertClassNameToSx
       [ Ast.JSXAttribute "className"
           (Ast.Bare (Ast.ELiteral Ast.Typed (Js.JString "constructor mb-3"))) ]
     = Some ([ sx_object [ Ast.Property (Ast.KIdentifier "mb")
                             (Ast.ELiteral Ast.Typed (Js.JNumber 3)) ] ],
             [ BootstrapMuiDeep.SetHasChanges ])
  /\ BootstrapMuiClaude.cur
       (BootstrapMuiClaude.classNames
          [ Ast.JSXAttribute "className" (lit "flex-column-reverse card") ])
     = [ BootstrapMuiClaude.stringAttr "className" "-reverse card";
         sx_object [ Ast.Property (Ast.KIdentifier "flexDirection")
                       (Ast.ELiteral Ast.Typed (Js.JString "column")) ] ].
Proof.
  split; [reflexivity|]. split; vm_compute; reflexivity.
Qed.

(** What holds of bootstrap_mui_deep.js for every other token. *)
Example deep_keeps_unknown_classes :
  DeepClasses.class_attribute
    (match BootstrapMuiDeep.convertClassNameToSx
             [ Ast.JSXAttribute "className"
                 (Ast.Bare (Ast.ELiteral Ast.Typed (Js.JString "card mb-3  shadow d-flex big"))) ]
     with
     | Some (out, _) => out
     | None => []
     end)
  = Some (Ast.Bare (Ast.ELiteral Ast.Typed (Js.JString "card shadow big"))).
Proof. vm_compute. reflexivity. Qed.

(** ** The class pass runs on every element *)

Module ClassPass.
Import Js Ast Walk ClassRegex.

(** No [className] attribute of the list has a [Literal] string value. *)
Definition no_literal_class (attrs : list Attr) : bool :=
  forallb (fun a => match a with
                    | JSXAttribute n v =>
                        negb (String.eqb n "className")
                        || match BootstrapMuiClaude.class_string v with
                           | Some _ => false
                           | None => true
                           end
                    | JSXSpreadAttribute _ => true
                    end) attrs.

Lemma claude_loop_skips collected :
  no_literal_class collected = true ->
  forall i st, BootstrapMuiClaude.classNameLoop i collected st = st.
Proof.
  induction collected as [|a r IH]; intros H i st; [reflexivity|].
  cbn [no_literal_class forallb] in H. apply andb_true_iff in H.
  destruct H as [Ha Hr]. cbn [BootstrapMuiClaude.classNameLoop].
  destruct a as [n v|s]; [|now apply IH].
  rewrite (IH Hr). destruct (String.eqb n "className"); [|reflexivity].
  cbn [negb orb] in Ha. unfold BootstrapMuiClaude.classNameStep.
  destruct (BootstrapMuiClaude.class_string v); [discriminate|reflexivity].
Qed.

(** In bootstrap_mui_claude.js the pass is a map over the attribute lists
    of all elements: neither the tag of an element nor the imports of the
    module enter it. *)
Lemma claude_pass_is_a_map n :
  exists log,
    forEachElement BootstrapMuiClaude.transformClassName n
    = Some (map_attributes (fun a => BootstrapMuiClaude.cur (BootstrapMuiClaude.classNames a)) n,
            log).
Proof.
  induction n as [o c a kids IH|s|inner IH] using Node_nested_ind.
  - assert (Hk : exists lg,
               mapW (forEachElement BootstrapMuiClaude.transformClassName) kids
               = Some (map (map_attributes
                              (fun a => BootstrapMuiClaude.cur (BootstrapMuiClaude.classNames a)))
                           kids, lg)).
    { induction IH as [|k r [l Hk] _ [lg Hr]]; [exists []; reflexivity|].
      exists (l ++ lg). now rewrite mapW_cons, Hk, Hr. }
    destruct Hk as [lg Hk]. rewrite forEachElement_element, Hk.
    cbn [BootstrapMuiClaude.transformClassName map_attributes]. eauto.
  - exists []. reflexivity.
  - assert (Hk : exists lg,
               mapW (forEachElement BootstrapMuiClaude.transformClassName) inner
               = Some (map (map_attributes
                              (fun a => BootstrapMuiClaude.cur (BootstrapMuiClaude.classNames a)))
                           inner, lg)).
    { induction IH as [|k r [l Hk] _ [lg Hr]]; [exists []; reflexivity|].
      exists (l ++ lg). now rewrite mapW_cons, Hk, Hr. }
    destruct Hk as [lg Hk]. rewrite forEachElement_expression, Hk.
    cbn [map_attributes]. eauto.
Qed.

(** An element none of whose [className] values is a literal string is
    left as it is. *)
Lemma claude_computed_class_unchanged attrs :
  no_literal_class attrs = true ->
  BootstrapMuiClaude.classNames attrs = BootstrapMuiClaude.mkClassState attrs true false.
Proof.
  intros H. unfold BootstrapMuiClaude.classNames. now apply claude_loop_skips.
Qed.

(** A literal class string with a utility class in it, on any element:
    the derived styles go to [sx] and the rest stays in [className]. *)
Lemma claude_literal_class_converted s sxObj cls :
  extract BootstrapMuiClaude.CLASS_TO_SX "" s = (sxObj, cls) ->
  sxObj <> [] ->
  BootstrapMuiClaude.cur
    (BootstrapMuiClaude.classNames
       [ JSXAttribute "className" (Bare (ELiteral Literal (JString s))) ])
  = if is_empty cls
    then [ JSXAttribute "sx"
             (JSXExpressionContainer (EObject (map BootstrapMuiClaude.sx_property sxObj))) ]
    else [ BootstrapMuiClaude.stringAttr "className" cls;
           JSXAttribute "sx"
             (JSXExpressionContainer (EObject (map BootstrapMuiClaude.sx_property sxObj))) ].
Proof.
  intros He Hne.
  unfold BootstrapMuiClaude.classNames.
  cbn [BootstrapMuiClaude.classNameLoop String.eqb Ascii.eqb Bool.eqb].
  unfold BootstrapMuiClaude.classNameStep.
  cbn [BootstrapMuiClaude.class_string]. rewrite He.
  destruct sxObj as [|e es]; [congruence|].
  cbn [BootstrapMuiClaude.cur BootstrapMuiClaude.attached].
  destruct (is_empty cls); reflexivity.
Qed.

(** In the second script of react-bootstrap-to-mui_gemini2.js the first
    [className] whose classes yield a style makes the callback throw. *)
Lemma gemini_loop_thrown collected :
  forall i, GeminiCodemod.classNameLoop i collected None = None.
Proof.
  induction collected as [|a r IH]; intros i; [reflexivity|].
  cbn [GeminiCodemod.classNameLoop]. destruct a as [n v|s]; [|apply IH].
  destruct (String.eqb n "className"); apply IH.
Qed.

Lemma gemini_literal_class_throws o c s kids :
  fst (GeminiCodemod.extractSxFromClasses s) <> [] ->
  GeminiCodemod.convertClasses
    (JSXElement o c [ JSXAttribute "className" (Bare (ELiteral Literal (JString s))) ] kids)
  = None.
Proof.
  intros H. unfold GeminiCodemod.convertClasses.
  cbn [GeminiCodemod.classNameLoop String.eqb Ascii.eqb Bool.eqb].
  unfold GeminiCodemod.classNameStep. cbn [GeminiCodemod.classString].
  destruct (GeminiCodemod.extractSxFromClasses s) as [sxObj remainingClass].
  cbn [fst] in H. destruct sxObj as [|e es]; [congruence|]. reflexivity.
Qed.

End ClassPass.

Definition div_mb3 : Ast.Node :=
  Ast.JSXElement (Ast.JSXIdentifier "div") (Some (Ast.JSXIdentifier "div"))
    [ Ast.JSXAttribute "className" (lit "mb-3 panel") ] [].

(** C9.  On [<div className="mb-3 panel">], an element of no library:
    bootstrap_mui_claude.js converts it; the second script of
    react-bootstrap-to-mui_gemini2.js derives the same style and then
    throws, because it hands the JSX element, which has no [attributes], to
    [mergeSxAttribute] in place of the opening element.  A computed
    [className] is left alone by both. *)
Theorem gemini_class_pass_throws :
  GeminiCodemod.extractSxFromClasses "mb-3 panel"
  = ([ ("mb", ClassRegex.SxNumber 3) ], "panel")
  /\ Walk.forEachElement GeminiCodemod.convertClasses div_mb3 = None
  /\ Walk.forEachElement BootstrapMuiClaude.transformClassName div_mb3
     = Some (Ast.JSXElement (Ast.JSXIdentifier "div") (Some (Ast.JSXIdentifier "div"))
               [ BootstrapMuiClaude.stringAttr "className" "panel";
                 sx_object [ Ast.Property (Ast.KIdentifier "mb")
                               (Ast.ELiteral Ast.Typed (Js.JNumber 3)) ] ] [],
             [ BootstrapMuiClaude.SetHasChanges ])
  /\ Walk.forEachElement GeminiCodemod.convertClasses
       (Ast.JSXElement (Ast.JSXIdentifier "div") None
          [ Ast.JSXAttribute "className" (dyn "styles.panel") ] [])
     = Some (Ast.JSXElement (Ast.JSXIdentifier "div") None
               [ Ast.JSXAttribute "className" (dyn "styles.panel") ] [], [])
  /\ Walk.forEachElement BootstrapMuiClaude.transformClassName
       (Ast.JSXElement (Ast.JSXIdentifier "div") None
          [ Ast.JSXAttribute "className" (dyn "styles.panel") ] [])
     = Some (Ast.JSXElement (Ast.JSXIdentifier "div") None
               [ Ast.JSXAttribute "className" (dyn "styles.panel") ] [], []).
Proof.
  split; [vm_compute; reflexivity|].
  split.
  - unfold div_mb3, lit. rewrite forEachElement_element.
    cbn [Walk.mapW Walk.bind Walk.ret].
    rewrite ClassPass.gemini_literal_class_throws; [reflexivity|].
    vm_compute. discriminate.
  - repeat split; vm_compute; reflexivity.
Qed.

(* ===================================================================== *)
(** * Further properties of the scripts *)
(* ===================================================================== *)

(** ** Lists, objects and logs *)

Lemma mem_In k l : Js.mem k l = true -> In k l.
Proof.
  unfold Js.mem. intros H. apply existsb_exists in H.
  destruct H as [x [Hin Hx]]. apply String.eqb_eq in Hx. now subst.
Qed.

Lemma NoDup_map_filter {A B} (f : A -> B) (p : A -> bool) l :
  NoDup (map f l) -> NoDup (map f (filter p l)).
Proof.
  induction l as [|a r IH]; intros H; [constructor|].
  cbn [map] in H. inversion H as [|? ? Hn Hr]; subst.
  cbn [filter]. destruct (p a); [|auto].
  cbn [map]. constructor; [|auto].
  intros Hin. apply Hn. apply in_map_iff in Hin.
  destruct Hin as [x [Hx Hin]]. apply filter_In in Hin.
  apply in_map_iff. exists x. tauto.
Qed.

(** ** bootstrap_mui_claude.js: the module that comes back *)

Module ClaudeRun.
Import Js Ast Walk BootstrapMuiClaude.

(** The components for which some pass asks an import. *)
Definition requested : list string :=
  [ "Button"; "Alert"; "Dialog"; "DialogTitle"; "DialogContent";
    "DialogActions"; "Grid"; "Container"; "Card"; "CardContent";
    "CardHeader"; "Typography"; "TextField" ].

Definition known (e : Effect) : Prop :=
  match e with
  | AddMUIImport c => In c requested
  | SetHasChanges => True
  end.

Definition clean (d : ImportDeclaration) : Prop := is_bootstrap_import d = false.

Lemma known_add c : mem c requested = true -> known (AddMUIImport c).
Proof. apply mem_In. Qed.

Lemma dialogPart_requested prop target :
  dialogPart prop = Some target -> mem target requested = true.
Proof.
  unfold dialogPart.
  destruct (String.eqb prop "Header" || String.eqb prop "Title");
    [intros H; inversion H; reflexivity|].
  destruct (String.eqb prop "Body"); [intros H; inversion H; reflexivity|].
  destruct (String.eqb prop "Footer"); [intros H; inversion H; reflexivity|].
  discriminate.
Qed.

Lemma modalChild_known k k' l : modalChild k = Some (k', l) -> Forall known l.
Proof.
  destruct k as [o c a kids| |]; try (intros H; inversion H; constructor).
  unfold modalChild.
  destruct (member_of o "Modal") as [prop|]; [|intros H; inversion H; constructor].
  destruct (dialogPart prop) as [target|] eqn:Hp; [|intros H; inversion H; constructor].
  destruct c; [|discriminate]. intros H; inversion H; subst.
  constructor; [|constructor].
  apply known_add. eapply dialogPart_requested; eauto.
Qed.

Ltac known_log :=
  repeat (apply Forall_cons || apply Forall_nil);
  try exact I; try (apply known_add; reflexivity).

Lemma passes_known :
  Forall (fun cb => forall n n' l, cb n = Some (n', l) -> Forall known l) passes.
Proof.
  unfold passes. repeat apply Forall_cons; try apply Forall_nil;
    intros n n' l H; destruct n as [o c attrs kids| |];
    try (inversion H; subst; constructor).
  - unfold transformButton in H.
    destruct (name_is o "Button"); [|inversion H; constructor].
    destruct (buttonAttrs attrs); [|discriminate].
    inversion H; subst. known_log.
  - unfold transformAlert in H.
    destruct (name_is o "Alert"); [|inversion H; constructor].
    destruct (mapOpt alertAttr attrs); [|discriminate].
    inversion H; subst. known_log.
  - unfold transformModal in H.
    destruct (name_is o "Modal"); [|inversion H; constructor].
    destruct (rename_in_place "Dialog" o c) as [o' c'].
    unfold bind, tell, ret in H.
    destruct (mapW modalChild kids) as [[kids' lg]|] eqn:Hm; [|discriminate].
    inversion H; subst.
    apply Forall_app. split.
    + eapply (mapW_log known); [|exact Hm].
      rewrite Forall_forall. intros k _ b l0. apply modalChild_known.
    + known_log.
  - unfold transformRow in H.
    destruct (name_is o "Row"); [|inversion H; constructor].
    destruct (rename_in_place "Grid" o c). inversion H; subst. known_log.
  - unfold transformCol in H.
    destruct (name_is o "Col"); [|inversion H; constructor].
    destruct (rename_in_place "Grid" o c). inversion H; subst. known_log.
  - unfold transformContainerElement in H.
    destruct (name_is o "Container"); [|inversion H; constructor].
    destruct (has_attr "fluid" attrs); inversion H; subst; known_log.
  - unfold transformCard in H.
    destruct (member_of o "Card") as [prop|].
    + destruct (String.eqb prop "Body"); [inversion H; subst; known_log|].
      destruct (String.eqb prop "Header"); [inversion H; subst; known_log|].
      destruct (String.eqb prop "Title"); inversion H; subst; known_log.
    + destruct (name_is o "Card"); inversion H; subst; known_log.
  - unfold transformFormControl in H.
    destruct (member_of o "Form") as [prop|]; [|inversion H; constructor].
    destruct (String.eqb prop "Control"); inversion H; subst; known_log.
  - unfold transformClassName in H. inversion H; subst.
    destruct (changed (classNames attrs)); known_log.
Qed.

Lemma requested_clean :
  Forall (fun c => forall k specs,
            clean (mkImport specs k ("@mui/material/" ++ c))) requested.
Proof. unfold requested. repeat constructor. Qed.

(** What a run keeps true of the import section. *)
Record kept (P : list ImportDeclaration -> Prop) : Prop := {
  kept_add : forall c l, In c requested -> P l -> P (addMUIImport c l)
}.

Lemma perform_kept P st log :
  kept P -> Forall known log -> P (st_imports st) ->
  P (st_imports (fold_left perform log st)).
Proof.
  intros [Hadd] Hlog. revert st.
  induction Hlog as [|e r He _ IH]; intros st HP; [exact HP|].
  cbn [fold_left]. apply IH.
  destruct e as [c|]; cbn [perform st_imports]; auto.
Qed.

Lemma perform_hasChanges st log :
  hasChanges st = true -> hasChanges (fold_left perform log st) = true.
Proof.
  revert st. induction log as [|e r IH]; intros st H; [exact H|].
  cbn [fold_left]. apply IH. destruct e; cbn [perform hasChanges]; auto.
Qed.

Lemma runPasses_kept P ps :
  kept P ->
  Forall (fun cb => forall n n' l, cb n = Some (n', l) -> Forall known l) ps ->
  forall st b st' b',
    runPasses ps (st, b) = Some (st', b') ->
    hasChanges st = true -> P (st_imports st) ->
    hasChanges st' = true /\ P (st_imports st').
Proof.
  intros HP Hps. induction Hps as [|cb r Hcb _ IH]; intros st b st' b' H Hc Hi.
  - inversion H; subst. auto.
  - cbn [runPasses] in H. unfold runPass in H. cbn [fst snd] in H.
    destruct (forEachRoot cb b) as [[b1 log]|] eqn:Hw; [|discriminate].
    eapply IH; [exact H| |].
    + now apply perform_hasChanges.
    + apply perform_kept; auto. eapply (forEachRoot_log known); eauto.
Qed.

Lemma clean_kept : kept (Forall clean).
Proof.
  constructor. intros c l Hc Hl. unfold addMUIImport.
  destruct (existsb _ l); [assumption|].
  constructor; [|assumption].
  pose proof requested_clean as Hr. rewrite Forall_forall in Hr. now apply Hr.
Qed.

Lemma distinct_kept : kept (fun l => NoDup (map source l)).
Proof.
  constructor. intros c l _ Hl. unfold addMUIImport.
  destruct (existsb _ l) eqn:He; [assumption|].
  cbn [map source]. constructor; [|assumption].
  intros Hin. apply in_map_iff in Hin. destruct Hin as [d [Hd Hin]].
  assert (Ht : existsb (fun d => String.eqb (source d) ("@mui/material/" ++ c)) l = true).
  { apply existsb_exists. exists d. split; [assumption|]. now apply String.eqb_eq. }
  congruence.
Qed.

End ClaudeRun.

(** A module with a grid, a style sheet of Bootstrap and an import of
    its own. *)
Definition grid_module : Ast.Program :=
  Ast.mkProgram
    [ Ast.mkImport [ Ast.ImportDefaultSpecifier "React" ] Ast.Literal "react";
      Ast.mkImport [ Ast.ImportSpecifier "Row" "Row"; Ast.ImportSpecifier "Col" "Col" ]
                   Ast.Literal "react-bootstrap";
      Ast.mkImport [] Ast.Literal "bootstrap/dist/css/bootstrap.min.css" ]
    [ Ast.mkStmt Ast.OtherStatement
        [ Ast.JSXElement (Ast.JSXIdentifier "Row") (Some (Ast.JSXIdentifier "Row")) []
            [ Ast.JSXElement (Ast.JSXIdentifier "Col") None
                [ Ast.JSXAttribute "md"
                    (Ast.JSXExpressionContainer (Ast.ELiteral Ast.Literal (Js.JNumber 6))) ]
                [] ] ] ].

Definition grid_module_migrated : Ast.Program :=
  Ast.mkProgram
    [ Ast.mkImport [ Ast.ImportDefaultSpecifier "Grid" ] Ast.Typed "@mui/material/Grid";
      Ast.mkImport [ Ast.ImportDefaultSpecifier "React" ] Ast.Literal "react" ]
    [ Ast.mkStmt Ast.OtherStatement
        [ Ast.JSXElement (Ast.JSXIdentifier "Grid") (Some (Ast.JSXIdentifier "Grid"))
            [ Ast.JSXAttribute "container" Ast.NoValue;
              Ast.JSXAttribute "spacing"
                (Ast.JSXExpressionContainer (Ast.ELiteral Ast.Typed (Js.JNumber 2))) ]
            [ Ast.JSXElement (Ast.JSXIdentifier "Grid") None
                [ Ast.JSXAttribute "item" Ast.NoValue;
                  Ast.JSXAttribute "md"
                    (Ast.JSXExpressionContainer (Ast.ELiteral Ast.Literal (Js.JNumber 6))) ]
                [] ] ] ].

Example claude_grid_run :
  BootstrapMuiClaude.transform grid_module = Some (Ast.ToSource grid_module_migrated).
Proof. vm_compute. reflexivity. Qed.

(** X1.  bootstrap_mui_claude.js never returns [null]: whenever the run
    ends without throwing it hands back the printed module, and no import
    of that module is one from react-bootstrap or of a style sheet under
    [bootstrap/dist/css]. *)
Theorem claude_output_has_no_bootstrap_import p o :
  BootstrapMuiClaude.transform p = Some o ->
  exists q, o = Ast.ToSource q
            /\ Forall (fun d => BootstrapMuiClaude.is_bootstrap_import d = false)
                      (Ast.imports q).
Proof.
  unfold BootstrapMuiClaude.transform. intros H.
  destruct (BootstrapMuiClaude.runPasses _ _) as [[st b']|] eqn:Hr; [|discriminate].
  destruct (ClaudeRun.runPasses_kept _ _ ClaudeRun.clean_kept ClaudeRun.passes_known
              _ _ _ _ Hr) as [Hc Hi].
  - reflexivity.
  - cbn [BootstrapMuiClaude.removeBootstrapImports BootstrapMuiClaude.st_imports].
    apply Forall_forall. intros d Hd. apply filter_In in Hd.
    destruct Hd as [_ Hd]. now apply negb_true_iff in Hd.
  - rewrite Hc in H. inversion H; subst. eexists. split; [reflexivity|exact Hi].
Qed.

Lemma claude_output_has_no_bootstrap_import_witness :
  exists q, Ast.ToSource grid_module_migrated = Ast.ToSource q
            /\ Forall (fun d => BootstrapMuiClaude.is_bootstrap_import d = false)
                      (Ast.imports q).
Proof.
  apply (claude_output_has_no_bootstrap_import grid_module).
  vm_compute. reflexivity.
Defined.

(** X2.  bootstrap_mui_claude.js never imports a module twice: when the
    import sources of the input are pairwise distinct, so are those of the
    module it prints. *)
Theorem claude_import_sources_stay_distinct p q :
  NoDup (map Ast.source (Ast.imports p)) ->
  BootstrapMuiClaude.transform p = Some (Ast.ToSource q) ->
  NoDup (map Ast.source (Ast.imports q)).
Proof.
  unfold BootstrapMuiClaude.transform. intros Hp H.
  destruct (BootstrapMuiClaude.runPasses _ _) as [[st b']|] eqn:Hr; [|discriminate].
  destruct (ClaudeRun.runPasses_kept _ _ ClaudeRun.distinct_kept ClaudeRun.passes_known
              _ _ _ _ Hr) as [Hc Hi].
  - reflexivity.
  - cbn [BootstrapMuiClaude.removeBootstrapImports BootstrapMuiClaude.st_imports].
    now apply NoDup_map_filter.
  - rewrite Hc in H. inversion H; subst. exact Hi.
Qed.

Lemma claude_import_sources_stay_distinct_witness :
  NoDup (map Ast.source (Ast.imports grid_module_migrated)).
Proof.
  apply (claude_import_sources_stay_distinct grid_module grid_module_migrated).
  - repeat constructor; cbn; intuition discriminate.
  - vm_compute. reflexivity.
Defined.

Lemma claude_perform_keeps_path path st e :
  existsb (fun d => String.eqb (Ast.source d) path) (BootstrapMuiClaude.st_imports st) = true ->
  existsb (fun d => String.eqb (Ast.source d) path)
          (BootstrapMuiClaude.st_imports (BootstrapMuiClaude.perform st e)) = true.
Proof.
  intros H. destruct e as [c|]; cbn [BootstrapMuiClaude.perform BootstrapMuiClaude.st_imports];
    [|assumption].
  unfold BootstrapMuiClaude.addMUIImport. cbv zeta.
  match goal with |- context [if ?b then _ else _] => destruct b end;
    [exact H|].
  cbn [existsb]. rewrite H. apply orb_true_r.
Qed.

(** X3.  [addMUIImport] in bootstrap_mui_claude.js: once a pass has asked
    for a component, the module path of that component is imported at the
    end of the run, whatever is asked for before or after. *)
Theorem claude_requested_path_is_imported log st c :
  In (BootstrapMuiClaude.AddMUIImport c) log ->
  existsb (fun d => String.eqb (Ast.source d) ("@mui/material/" ++ c))
          (BootstrapMuiClaude.st_imports (fold_left BootstrapMuiClaude.perform log st))
  = true.
Proof.
  revert st. induction log as [|e r IH]; intros st Hin; [destruct Hin|].
  cbn [fold_left]. destruct Hin as [->|Hin]; [|now apply IH].
  assert (Hnow : existsb (fun d => String.eqb (Ast.source d) ("@mui/material/" ++ c))
                   (BootstrapMuiClaude.st_imports
                      (BootstrapMuiClaude.perform st (BootstrapMuiClaude.AddMUIImport c)))
                 = true).
  { cbn [BootstrapMuiClaude.perform BootstrapMuiClaude.st_imports].
    unfold BootstrapMuiClaude.addMUIImport. cbv zeta.
    match goal with |- context [if ?b then _ else _] => destruct b eqn:He end;
      [exact He|].
    cbn [existsb Ast.source]. now rewrite String.eqb_refl. }
  clear IH. revert Hnow.
  generalize (BootstrapMuiClaude.perform st (BootstrapMuiClaude.AddMUIImport c)).
  induction r as [|e r IH]; intros s Hs; [exact Hs|].
  cbn [fold_left]. apply IH. now apply claude_perform_keeps_path.
Qed.

Lemma claude_requested_path_is_imported_witness :
  existsb (fun d => String.eqb (Ast.source d) ("@mui/material/" ++ "Grid"))
          (BootstrapMuiClaude.st_imports
             (fold_left BootstrapMuiClaude.perform
                [ BootstrapMuiClaude.AddMUIImport "Grid";
                  BootstrapMuiClaude.SetHasChanges;
                  BootstrapMuiClaude.AddMUIImport "Dialog" ]
                (BootstrapMuiClaude.mkState [] false)))
  = true.
Proof.
  apply (claude_requested_path_is_imported
           [ BootstrapMuiClaude.AddMUIImport "Grid";
             BootstrapMuiClaude.SetHasChanges;
             BootstrapMuiClaude.AddMUIImport "Dialog" ]
           (BootstrapMuiClaude.mkState [] false) "Grid").
  left. reflexivity.
Defined.

(** ** bootstrap_mui_claude.js: Button, Alert, Modal and the grid *)

Lemma mapOpt_Forall2 {A B} (f : A -> option B) l l' :
  Js.mapOpt f l = Some l' -> Forall2 (fun a b => f a = Some b) l l'.
Proof.
  revert l'. induction l as [|a r IH]; intros l' H.
  - inversion H. constructor.
  - cbn [Js.mapOpt] in H. destruct (f a) as [b|] eqn:Ha; [|discriminate].
    destruct (Js.mapOpt f r) as [r'|]; [|discriminate].
    inversion H; subst. constructor; auto.
Qed.

Lemma mapW_throws {E A B} (f : A -> Walk.W E B) l1 x l2 :
  f x = None -> Walk.mapW f (l1 ++ x :: l2) = None.
Proof.
  intros Hx. induction l1 as [|a r IH]; cbn [app]; rewrite mapW_cons.
  - now rewrite Hx.
  - destruct (f a) as [[b l]|]; [|reflexivity]. now rewrite IH.
Qed.

Lemma own_values {V} (o : Js.Obj V) k v : Js.own o k = Some v -> In v (Js.values o).
Proof.
  induction o as [|[k' v'] r IH]; [discriminate|].
  cbn [Js.own Js.values map snd]. destruct (String.eqb k k').
  - intros H. inversion H. now left.
  - intros H. right. now apply IH.
Qed.

Module ClaudeElements.
Import Js Ast Walk BootstrapMuiClaude.

(** An attribute that the Button pass writes itself. *)
Definition restyled (a : Attr) : bool :=
  attr_named "variant" a || attr_named "size" a || attr_named "color" a.

Definition other (a : Attr) : bool := negb (restyled a).

Lemma buttonAttr_other a o f :
  buttonAttr a = Some (o, f) -> filter other o = filter other [a].
Proof.
  destruct a as [n v|s]; [|intros H; inversion H; reflexivity].
  unfold buttonAttr. destruct (literal_value v) as [p|];
    [|intros H; inversion H; reflexivity].
  destruct (String.eqb n "variant") eqn:Hv.
  - assert (Ha : other (JSXAttribute n v) = false).
    { unfold other, restyled. cbn [attr_named]. now rewrite Hv. }
    cbn [filter]. rewrite Ha.
    destruct (get_value BUTTON_VARIANTS p); intros H; inversion H; reflexivity.
  - destruct (String.eqb n "size") eqn:Hs; [|intros H; inversion H; reflexivity].
    assert (Ha : other (JSXAttribute n v) = false).
    { unfold other, restyled. cbn [attr_named]. rewrite Hs. now rewrite orb_true_r. }
    destruct (get_value SIZE_MAP p); intros H; inversion H; try reflexivity.
    cbn [filter]. now rewrite Ha.
Qed.

Lemma collect_other attrs :
  forall o f, collect buttonAttr attrs = Some (o, f) ->
              filter other o = filter other attrs.
Proof.
  induction attrs as [|a r IH]; intros o f H.
  - inversion H. reflexivity.
  - cbn [collect] in H.
    destruct (buttonAttr a) as [[o1 f1]|] eqn:Ha; [|discriminate].
    destruct (collect buttonAttr r) as [[o2 f2]|] eqn:Hr; [|discriminate].
    inversion H; subst. rewrite filter_app.
    rewrite (buttonAttr_other _ _ _ Ha), (IH _ _ eq_refl).
    change (a :: r) with ([a] ++ r). now rewrite filter_app.
Qed.

(** The severities of [ALERT_SEVERITY], and the default. *)
Definition severities : list string := [ "info"; "success"; "error"; "warning" ].

Definition severity_of (a b : Attr) : Prop :=
  b = a \/ (attr_named "variant" a = true
            /\ exists s, In s severities /\ b = stringAttr "severity" s).

Lemma alertAttr_severity a b : alertAttr a = Some b -> severity_of a b.
Proof.
  destruct a as [n v|s]; [|intros H; inversion H; now left].
  unfold alertAttr. destruct (String.eqb n "variant") eqn:Hn;
    [|intros H; inversion H; now left].
  destruct (literal_value v) as [p|]; [|intros H; inversion H; now left].
  intros H. right. split; [cbn [attr_named]; exact Hn|].
  destruct p as [s| | | |]; cbn [get_value] in H;
    try (inversion H; exists "info"; split; [now left|reflexivity]).
  unfold get in H. destruct (own ALERT_SEVERITY s) as [sev|] eqn:Ho.
  - inversion H; subst. exists sev. split; [|reflexivity].
    apply own_values in Ho. cbn in Ho. unfold severities. cbn. tauto.
  - destruct (inherited s); [discriminate|].
    inversion H. exists "info". split; [now left|reflexivity].
Qed.

Definition modal_part (prop : string) (a : list Attr) (k : list Node) : Node :=
  JSXElement (JSXMemberExpression (JSXIdentifier "Modal") prop) None a k.

Lemma modal_part_walked prop a k n' log :
  forEachElement transformModal (modal_part prop a k) = Some (n', log) ->
  exists k', n' = modal_part prop a k'.
Proof.
  intros H. apply forEachElement_skipped in H.
  - destruct H as [k' [-> _]]. now exists k'.
  - reflexivity.
Qed.

End ClaudeElements.

(** X4.  [transformButtons] of bootstrap_mui_claude.js rebuilds the
    attribute list of a Button; every attribute other than [variant],
    [size] and [color], spread attributes included, is in the new list, in
    the order it had. *)
Theorem claude_button_keeps_other_attributes attrs out :
  BootstrapMuiClaude.buttonAttrs attrs = Some out ->
  filter ClaudeElements.other out = filter ClaudeElements.other attrs.
Proof.
  unfold BootstrapMuiClaude.buttonAttrs. intros H.
  destruct (BootstrapMuiClaude.collect BootstrapMuiClaude.buttonAttr attrs)
    as [[o f]|] eqn:Hc; [|discriminate].
  apply ClaudeElements.collect_other in Hc.
  inversion H; subst. destruct f; [exact Hc|].
  cbn [filter]. exact Hc.
Qed.

Lemma claude_button_keeps_other_attributes_witness :
  filter ClaudeElements.other
    [ BootstrapMuiClaude.stringAttr "variant" "contained";
      BootstrapMuiClaude.stringAttr "color" "error";
      Ast.JSXAttribute "onClick" (dyn "remove");
      Ast.JSXSpreadAttribute "rest";
      BootstrapMuiClaude.stringAttr "size" "small" ]
  = filter ClaudeElements.other
      [ Ast.JSXAttribute "variant" (lit "danger");
        Ast.JSXAttribute "onClick" (dyn "remove");
        Ast.JSXSpreadAttribute "rest";
        Ast.JSXAttribute "size" (lit "sm") ].
Proof.
  apply (claude_button_keeps_other_attributes
           [ Ast.JSXAttribute "variant" (lit "danger");
             Ast.JSXAttribute "onClick" (dyn "remove");
             Ast.JSXSpreadAttribute "rest";
             Ast.JSXAttribute "size" (lit "sm") ]).
  vm_compute. reflexivity.
Defined.

(** X5.  [transformAlerts] of bootstrap_mui_claude.js keeps the number and
    the places of the attributes of an Alert; an attribute it changes was a
    [variant] and becomes a [severity] whose value is one of [info],
    [success], [error] and [warning]. *)
Theorem claude_alert_severity_is_valid attrs out :
  Js.mapOpt BootstrapMuiClaude.alertAttr attrs = Some out ->
  Forall2 ClaudeElements.severity_of attrs out.
Proof.
  intros H. apply mapOpt_Forall2 in H.
  eapply Forall2_impl; [|exact H].
  intros a b. apply ClaudeElements.alertAttr_severity.
Qed.

Lemma claude_alert_severity_is_valid_witness :
  Forall2 ClaudeElements.severity_of
    [ Ast.JSXAttribute "variant" (lit "danger"); Ast.JSXAttribute "dismissible" Ast.NoValue ]
    [ BootstrapMuiClaude.stringAttr "severity" "error";
      Ast.JSXAttribute "dismissible" Ast.NoValue ].
Proof.
  apply (claude_alert_severity_is_valid
           [ Ast.JSXAttribute "variant" (lit "danger");
             Ast.JSXAttribute "dismissible" Ast.NoValue ]).
  vm_compute. reflexivity.
Defined.

(** X6.  [transformModals] of bootstrap_mui_claude.js assigns to
    [child.closingElement.name] without a test: a self-closing
    [<Modal.Header />], [<Modal.Title />], [<Modal.Body />] or
    [<Modal.Footer />] directly below a [Modal] makes the pass throw. *)
Theorem claude_modal_throws_on_self_closing_part o c attrs pre post prop target a k :
  Ast.name_is o "Modal" = true ->
  BootstrapMuiClaude.dialogPart prop = Some target ->
  Walk.forEachElement BootstrapMuiClaude.transformModal
    (Ast.JSXElement o c attrs (pre ++ ClaudeElements.modal_part prop a k :: post))
  = None.
Proof.
  intros Ho Hp. rewrite forEachElement_element.
  destruct (Walk.mapW _ _) as [[kids' below]|] eqn:Hk; [|reflexivity].
  apply mapW_Forall2 in Hk. apply Forall2_app_inv_l in Hk.
  destruct Hk as [pre' [rest [_ [Hrest ->]]]].
  inversion Hrest as [|x x' r r' [lg Hx] _]; subst.
  apply ClaudeElements.modal_part_walked in Hx. destruct Hx as [k' ->].
  unfold BootstrapMuiClaude.transformModal. rewrite Ho.
  destruct (BootstrapMuiClaude.rename_in_place "Dialog" o c) as [o' c'].
  rewrite mapW_throws; [reflexivity|].
  unfold ClaudeElements.modal_part, BootstrapMuiClaude.modalChild.
  cbn [Ast.member_of Ast.name_is]. rewrite String.eqb_refl, Hp. reflexivity.
Qed.

Lemma claude_modal_throws_on_self_closing_part_witness :
  Walk.forEachElement BootstrapMuiClaude.transformModal
    (Ast.JSXElement (Ast.JSXIdentifier "Modal") (Some (Ast.JSXIdentifier "Modal")) []
       ([ Ast.JSXText "x" ] ++ ClaudeElements.modal_part "Header" [] [] :: []))
  = None.
Proof.
  apply (claude_modal_throws_on_self_closing_part
           (Ast.JSXIdentifier "Modal") (Some (Ast.JSXIdentifier "Modal")) []
           [ Ast.JSXText "x" ] [] "Header" "DialogTitle" [] []);
    reflexivity.
Defined.

(** ** bootstrap_mui_claude.js: what the class pass leaves alone *)

Module ClaudeClasses.
Import Js Ast Walk ClassRegex BootstrapMuiClaude.

Definition attr_name (a : Attr) : option string :=
  match a with
  | JSXAttribute n _ => Some n
  | JSXSpreadAttribute _ => None
  end.

Definition names (l : list Attr) : list (option string) := map attr_name l.

(** An attribute that is neither [className] nor [sx]. *)
Definition plain (a : Attr) : bool :=
  negb (attr_named "className" a || attr_named "sx" a).

Lemma class_not_plain a : attr_name a = Some "className" -> plain a = false.
Proof. destruct a as [n v|s]; [|discriminate]. intros H; inversion H. reflexivity. Qed.

Lemma merge_into_name o a : attr_name (merge_into o a) = attr_name a.
Proof.
  destruct a as [n v|s]; [|reflexivity].
  destruct v as [|e|e]; try reflexivity. destruct e; reflexivity.
Qed.

Lemma merge_into_plain o a : attr_named "sx" a = true -> plain (merge_into o a) = false.
Proof.
  destruct a as [n v|s]; [|discriminate]. cbn [attr_named]. intros H.
  assert (Hn : attr_name (merge_into o (JSXAttribute n v)) = Some n)
    by apply merge_into_name.
  destruct (merge_into o (JSXAttribute n v)) as [n' v'|]; [|discriminate].
  inversion Hn; subst. unfold plain. cbn [attr_named]. rewrite H.
  now rewrite orb_true_r.
Qed.

Lemma update_first_names o l :
  names (update_first (attr_named "sx") (merge_into o) l) = names l.
Proof.
  induction l as [|a r IH]; [reflexivity|].
  cbn [update_first]. destruct (attr_named "sx" a).
  - cbn [names map]. now rewrite merge_into_name.
  - cbn [names map]. f_equal. exact IH.
Qed.

Lemma update_first_plain o l :
  filter plain (update_first (attr_named "sx") (merge_into o) l) = filter plain l.
Proof.
  induction l as [|a r IH]; [reflexivity|].
  cbn [update_first]. destruct (attr_named "sx" a) eqn:Ha.
  - cbn [filter]. rewrite (merge_into_plain o a Ha).
    unfold plain. rewrite Ha, orb_true_r. reflexivity.
  - cbn [filter]. rewrite IH. reflexivity.
Qed.

Lemma mergeSxProp_names l o : exists extra, names (mergeSxProp l o) = names l ++ extra.
Proof.
  unfold mergeSxProp. destruct o as [|kv o]; [exists []; now rewrite app_nil_r|].
  destruct (existsb (attr_named "sx") l).
  - exists []. now rewrite update_first_names, app_nil_r.
  - eexists. unfold names. rewrite map_app. reflexivity.
Qed.

Lemma mergeSxProp_plain l o : filter plain (mergeSxProp l o) = filter plain l.
Proof.
  unfold mergeSxProp. destruct o as [|kv o]; [reflexivity|].
  destruct (existsb (attr_named "sx") l).
  - apply update_first_plain.
  - rewrite filter_app. cbn [filter plain attr_named String.eqb Ascii.eqb Bool.eqb orb negb].
    now rewrite app_nil_r.
Qed.

Lemma filter_plain_not_className l :
  filter plain (filter not_className l) = filter plain l.
Proof.
  induction l as [|a r IH]; [reflexivity|].
  cbn [filter]. unfold not_className at 1, plain at 2.
  destruct (attr_named "className" a) eqn:Ha; cbn [negb orb].
  - exact IH.
  - cbn [filter]. unfold plain at 1. rewrite Ha. cbn [orb].
    destruct (negb (attr_named "sx" a)); [f_equal|]; exact IH.
Qed.

Lemma set_nth_names i x l :
  nth_error (names l) i = Some (attr_name x) ->
  names (SxMerge.set_nth i x l) = names l.
Proof.
  revert i. induction l as [|b r IH]; intros i H; [now destruct i|].
  destruct i as [|k]; cbn [SxMerge.set_nth names map nth_error] in *.
  - inversion H. reflexivity.
  - f_equal. now apply IH.
Qed.

Lemma set_nth_plain i x l :
  nth_error (names l) i = Some (Some "className") ->
  plain x = false ->
  filter plain (SxMerge.set_nth i x l) = filter plain l.
Proof.
  revert i. induction l as [|b r IH]; intros i H Hx; [now destruct i|].
  destruct i as [|k]; cbn [SxMerge.set_nth names map nth_error filter] in *.
  - inversion H as [Hb]. rewrite Hx, (class_not_plain b Hb). reflexivity.
  - rewrite IH by assumption. reflexivity.
Qed.

(** The state of the loop over the collected attributes of one element:
    while the list is still the collected one, every collected attribute
    sits at its place under its name. *)
Definition in_place (orig : list Attr) (st : ClassState) : Prop :=
  attached st = true -> exists extra, names (cur st) = names orig ++ extra.

Definition same_plain (orig : list Attr) (st : ClassState) : Prop :=
  filter plain (cur st) = filter plain orig.

Definition untouched (orig : list Attr) (st : ClassState) : Prop :=
  changed st = false -> cur st = orig.

Lemma step_invariant orig st i v :
  nth_error (names orig) i = Some (Some "className") ->
  in_place orig st -> same_plain orig st -> untouched orig st ->
  in_place orig (classNameStep st i v)
  /\ same_plain orig (classNameStep st i v)
  /\ untouched orig (classNameStep st i v).
Proof.
  intros Hi Hin Hsame Hun. unfold classNameStep.
  destruct (class_string v) as [s|]; [|auto].
  destruct (extract CLASS_TO_SX "" s) as [sxObj cls].
  destruct sxObj as [|kv sxObj]; [auto|].
  set (o := kv :: sxObj).
  destruct (mergeSxProp_names (cur st) o) as [extra Hm].
  destruct (is_empty cls).
  - split; [intros H; discriminate H|]. split; [|intros H; discriminate H].
    unfold same_plain. cbn [cur].
    rewrite filter_plain_not_className, mergeSxProp_plain. exact Hsame.
  - destruct (attached st) eqn:Ha.
    + destruct (Hin Ha) as [extra0 Hn].
      assert (Hat : nth_error (names (mergeSxProp (cur st) o)) i
                    = Some (Some "className")).
      { rewrite Hm, Hn, <- app_assoc. rewrite nth_error_app1; [exact Hi|].
        apply nth_error_Some. rewrite Hi. discriminate. }
      split; [|split; [|intros H; discriminate H]].
      * intros _. cbn [cur]. exists (extra0 ++ extra).
        rewrite set_nth_names; [|exact Hat].
        rewrite Hm, Hn, app_assoc. reflexivity.
      * unfold same_plain. cbn [cur].
        rewrite set_nth_plain; [|exact Hat|reflexivity].
        rewrite mergeSxProp_plain. exact Hsame.
    + split; [intros H; cbn [attached] in H; congruence|].
      split; [|intros H; discriminate H].
      unfold same_plain. cbn [cur]. rewrite mergeSxProp_plain. exact Hsame.
Qed.

Lemma loop_invariant collected :
  forall pre st,
    in_place (pre ++ collected) st ->
    same_plain (pre ++ collected) st ->
    untouched (pre ++ collected) st ->
    same_plain (pre ++ collected) (classNameLoop (length pre) collected st)
    /\ untouched (pre ++ collected) (classNameLoop (length pre) collected st).
Proof.
  induction collected as [|a r IH]; intros pre st Hin Hsame Hun; [auto|].
  assert (Hsplit : pre ++ a :: r = (pre ++ [a]) ++ r) by now rewrite <- app_assoc.
  assert (Hlen : S (length pre) = length (pre ++ [a]))
    by (rewrite length_app; cbn; lia).
  cbn [classNameLoop]. destruct a as [n v|s].
  - destruct (String.eqb n "className") eqn:Hn.
    + apply String.eqb_eq in Hn. subst n.
      destruct (step_invariant (pre ++ JSXAttribute "className" v :: r) st (length pre) v)
        as [H1 [H2 H3]]; try assumption.
      { unfold names. rewrite map_app, nth_error_app2; rewrite length_map; [|lia].
        now rewrite Nat.sub_diag. }
      rewrite Hlen, Hsplit in *. now apply IH.
    + rewrite Hlen, Hsplit in *. now apply IH.
  - rewrite Hlen, Hsplit in *. now apply IH.
Qed.

End ClaudeClasses.

(** X7.  [transformClassNamesToSx] of bootstrap_mui_claude.js edits only
    the [className] and [sx] attributes of an element: all other
    attributes are in the list it leaves, in their order; and an element
    on which it reports no change keeps its attribute list as it was. *)
Theorem claude_class_pass_touches_only_class_and_sx attrs :
  filter ClaudeClasses.plain (BootstrapMuiClaude.cur (BootstrapMuiClaude.classNames attrs))
  = filter ClaudeClasses.plain attrs
  /\ (BootstrapMuiClaude.changed (BootstrapMuiClaude.classNames attrs) = false ->
      BootstrapMuiClaude.cur (BootstrapMuiClaude.classNames attrs) = attrs).
Proof.
  unfold BootstrapMuiClaude.classNames.
  apply (ClaudeClasses.loop_invariant attrs [] (BootstrapMuiClaude.mkClassState attrs true false)).
  - intros _. exists []. cbn [BootstrapMuiClaude.cur app]. now rewrite app_nil_r.
  - reflexivity.
  - intros _. reflexivity.
Qed.

(** ** The styles read off a class string *)

Module RegexStyles.
Import Js ClassRegex.

(** A style entry that a rule of the table yields: a digit under the key
    of a digit rule, or the fixed value of a word rule under its key. *)
Definition from_rule (rules : list Rule) (kv : string * SxValue) : Prop :=
  match snd kv with
  | SxNumber n => (0 <= n <= 9)%Z /\ exists p, In (DigitRule p (fst kv)) rules
  | SxString v => exists w, In (WordRule w (fst kv) v) rules
  end.

Lemma digit_value_range d : is_digit d = true -> (0 <= digit_value d <= 9)%Z.
Proof.
  unfold is_digit, digit_value. intros H. apply andb_true_iff in H.
  destruct H as [H1 H2]. apply Nat.leb_le in H1, H2. lia.
Qed.

Lemma match_here_from_rule r s len v :
  match_here r s = Some (len, v) -> from_rule [r] (rule_key r, v).
Proof.
  destruct r as [p k|w k x]; cbn [match_here rule_key].
  - destruct (strip_prefix p s) as [[|d rest]|]; try discriminate.
    destruct (is_digit d) eqn:Hd; [|discriminate].
    destruct (at_boundary rest); [|discriminate].
    intros H; inversion H; subst. split; [now apply digit_value_range|].
    exists p. now left.
  - destruct (strip_prefix w s) as [rest|]; [|discriminate].
    destruct (at_boundary rest); [|discriminate].
    intros H; inversion H; subst. exists w. now left.
Qed.

Lemma scan_from_rule r repl s :
  forall prev skip,
    Forall (fun v => from_rule [r] (rule_key r, v)) (fst (scan r repl prev skip s)).
Proof.
  induction s as [|c s IH]; intros prev skip; [constructor|].
  cbn [scan]. destruct skip as [|k]; [|apply IH].
  destruct (if prev then None else match_here r (String c s)) as [[len v]|] eqn:Hm.
  - specialize (IH (is_word c) (Nat.pred len)).
    destruct (scan r repl (is_word c) (Nat.pred len) s) as [ms rest].
    cbn [fst] in *. constructor; [|exact IH].
    destruct prev; [discriminate|]. eapply match_here_from_rule; eauto.
  - specialize (IH (is_word c) 0).
    destruct (scan r repl (is_word c) 0 s) as [ms rest]. exact IH.
Qed.

Lemma assign1_In {V} (o : Obj V) k v kv :
  In kv (assign1 o k v) -> In kv o \/ kv = (k, v).
Proof.
  induction o as [|[k' v'] r IH]; cbn [assign1].
  - intros [ <- | [] ]. now right.
  - destruct (String.eqb k k') eqn:Hk.
    + apply String.eqb_eq in Hk. subst k'. intros [ <- | H ]; [now right|].
      left. now right.
    + intros [ <- | H ]; [left; now left|].
      destruct (IH H) as [Hin| ->]; [left; now right|now right].
Qed.

Lemma from_rule_weaken r rules kv : In r rules -> from_rule [r] kv -> from_rule rules kv.
Proof.
  intros Hr. unfold from_rule. destruct (snd kv).
  - intros [Hn [p [Hp|[]]]]. split; [assumption|]. exists p. now rewrite <- Hp.
  - intros [w [Hw|[]]]. exists w. now rewrite <- Hw.
Qed.

Lemma assign_matches_from_rule rules r ms :
  In r rules ->
  Forall (fun v => from_rule [r] (rule_key r, v)) ms ->
  forall o, Forall (from_rule rules) o ->
            Forall (from_rule rules)
                   (fold_left (fun o v => assign1 o (rule_key r) v) ms o).
Proof.
  intros Hr Hms. induction Hms as [|v vs Hv _ IH]; intros o Ho; [exact Ho|].
  cbn [fold_left]. apply IH. apply Forall_forall. intros kv Hin.
  apply assign1_In in Hin. destruct Hin as [Hin| ->].
  - rewrite Forall_forall in Ho. now apply Ho.
  - eapply from_rule_weaken; eauto.
Qed.

Lemma apply_rule_from_rule rules repl r acc :
  In r rules ->
  Forall (from_rule rules) (fst acc) ->
  Forall (from_rule rules) (fst (apply_rule repl acc r)).
Proof.
  intros Hr Hacc. destruct acc as [o cls]. unfold apply_rule. cbn [fst snd] in *.
  pose proof (scan_from_rule r repl cls false 0) as Hms.
  destruct (scan r repl false 0 cls) as [ms rest].
  cbn [fst] in *. now apply assign_matches_from_rule.
Qed.

Lemma extract_from_rule rules repl s :
  Forall (from_rule rules) (fst (extract rules repl s)).
Proof.
  unfold extract.
  assert (H : forall todo acc,
             (forall r, In r todo -> In r rules) ->
             Forall (from_rule rules) (fst acc) ->
             Forall (from_rule rules) (fst (fold_left (apply_rule repl) todo acc))).
  { induction todo as [|r todo IH]; intros acc Hsub Hacc; [exact Hacc|].
    cbn [fold_left]. apply IH.
    - intros x Hx. apply Hsub. now right.
    - apply apply_rule_from_rule; [apply Hsub; now left|exact Hacc]. }
  apply H; [auto|constructor].
Qed.

End RegexStyles.

(** X8.  The style object that bootstrap_mui_claude.js and the second
    script of react-bootstrap-to-mui_gemini2.js read off a class string
    holds nothing but what a rule of the table yields: a number is a single
    digit, 0 to 9, under the key of a digit rule (so [mb-10] gives no
    style), and a string is the fixed value of a word rule under its key. *)
Theorem utility_styles_come_from_rules s :
  Forall (RegexStyles.from_rule BootstrapMuiClaude.CLASS_TO_SX)
         (fst (ClassRegex.extract BootstrapMuiClaude.CLASS_TO_SX "" s))
  /\ Forall (RegexStyles.from_rule GeminiCodemod.rules)
            (fst (GeminiCodemod.extractSxFromClasses s)).
Proof.
  split; [apply RegexStyles.extract_from_rule|].
  unfold GeminiCodemod.extractSxFromClasses.
  pose proof (RegexStyles.extract_from_rule GeminiCodemod.rules " " s) as H.
  destruct (ClassRegex.extract GeminiCodemod.rules " " s) as [sxObj cls]. exact H.
Qed.

Example claude_two_digit_spacing_is_no_style :
  ClassRegex.extract BootstrapMuiClaude.CLASS_TO_SX "" "mb-10 p-3"
  = ([ ("p", ClassRegex.SxNumber 3) ], "mb-10").
Proof. vm_compute. reflexivity. Qed.

(** ** bootstrap_mui_claude.js: the grid *)

(** X9.  [transformGrid] of bootstrap_mui_claude.js adds [container] and
    [spacing] to a Row, and [item] to a Col, only where the element does
    not have them: the attributes it had stay, in order, the new ones come
    after them on a Row and before them on a Col, and a Row or Col that
    has them already keeps its list as it is. *)
Theorem claude_grid_adds_missing_attributes_only c attrs kids :
  (exists c' added,
      BootstrapMuiClaude.transformRow
        (Ast.JSXElement (Ast.JSXIdentifier "Row") c attrs kids)
      = Some (Ast.JSXElement (Ast.JSXIdentifier "Grid") c' (attrs ++ added) kids,
              [ BootstrapMuiClaude.AddMUIImport "Grid"; BootstrapMuiClaude.SetHasChanges ])
      /\ BootstrapMuiClaude.has_attr "container" (attrs ++ added) = true
      /\ BootstrapMuiClaude.has_attr "spacing" (attrs ++ added) = true
      /\ (BootstrapMuiClaude.has_attr "container" attrs = true ->
          BootstrapMuiClaude.has_attr "spacing" attrs = true -> added = []))
  /\
  (exists c' added,
      BootstrapMuiClaude.transformCol
        (Ast.JSXElement (Ast.JSXIdentifier "Col") c attrs kids)
      = Some (Ast.JSXElement (Ast.JSXIdentifier "Grid") c' (added ++ attrs) kids,
              [ BootstrapMuiClaude.AddMUIImport "Grid"; BootstrapMuiClaude.SetHasChanges ])
      /\ BootstrapMuiClaude.has_attr "item" (added ++ attrs) = true
      /\ (BootstrapMuiClaude.has_attr "item" attrs = true -> added = [])).
Proof.
  assert (Hlast : forall n v l, BootstrapMuiClaude.has_attr n (l ++ [Ast.JSXAttribute n v]) = true).
  { intros n v l. unfold BootstrapMuiClaude.has_attr. rewrite existsb_app.
    cbn [existsb Ast.attr_named]. rewrite String.eqb_refl. now rewrite !orb_true_r. }
  assert (Hmore : forall n l l', BootstrapMuiClaude.has_attr n l = true ->
                                 BootstrapMuiClaude.has_attr n (l ++ l') = true).
  { intros n l l' H. unfold BootstrapMuiClaude.has_attr in *.
    now rewrite existsb_app, H. }
  split.
  - unfold BootstrapMuiClaude.transformRow.
    cbn [Ast.name_is String.eqb Ascii.eqb Bool.eqb BootstrapMuiClaude.rename_in_place
         BootstrapMuiClaude.set_name].
    eexists.
    destruct (BootstrapMuiClaude.has_attr "container" attrs) eqn:Hc.
    + destruct (BootstrapMuiClaude.has_attr "spacing" attrs) eqn:Hs.
      * exists []. rewrite app_nil_r.
        split; [reflexivity|]. split; [exact Hc|]. split; [exact Hs|]. reflexivity.
      * eexists. split; [reflexivity|].
        split; [now apply Hmore|]. split; [apply Hlast|].
        intros _ H. discriminate H.
    + destruct (BootstrapMuiClaude.has_attr "spacing"
                  (attrs ++ [Ast.JSXAttribute "container" Ast.NoValue])) eqn:Hs.
      * eexists. split; [reflexivity|].
        split; [apply Hlast|]. split; [exact Hs|].
        intros H. discriminate H.
      * exists [ Ast.JSXAttribute "container" Ast.NoValue;
                 Ast.JSXAttribute "spacing"
                   (Ast.JSXExpressionContainer (Ast.ELiteral Ast.Typed (Js.JNumber 2))) ].
        split; [now rewrite <- app_assoc|].
        split; [|split; [|intros H; discriminate H]].
        -- change (attrs ++ [Ast.JSXAttribute "container" Ast.NoValue;
                     Ast.JSXAttribute "spacing"
                       (Ast.JSXExpressionContainer (Ast.ELiteral Ast.Typed (Js.JNumber 2)))])
             with (attrs ++ [Ast.JSXAttribute "container" Ast.NoValue]
                         ++ [Ast.JSXAttribute "spacing"
                               (Ast.JSXExpressionContainer
                                  (Ast.ELiteral Ast.Typed (Js.JNumber 2)))]).
           rewrite app_assoc. apply Hmore, Hlast.
        -- change (attrs ++ [Ast.JSXAttribute "container" Ast.NoValue;
                     Ast.JSXAttribute "spacing"
                       (Ast.JSXExpressionContainer (Ast.ELiteral Ast.Typed (Js.JNumber 2)))])
             with (attrs ++ [Ast.JSXAttribute "container" Ast.NoValue]
                         ++ [Ast.JSXAttribute "spacing"
                               (Ast.JSXExpressionContainer
                                  (Ast.ELiteral Ast.Typed (Js.JNumber 2)))]).
           rewrite app_assoc. apply Hlast.
  - unfold BootstrapMuiClaude.transformCol.
    cbn [Ast.name_is String.eqb Ascii.eqb Bool.eqb BootstrapMuiClaude.rename_in_place
         BootstrapMuiClaude.set_name].
    eexists.
    destruct (BootstrapMuiClaude.has_attr "item" attrs) eqn:Hi.
    + exists []. split; [reflexivity|]. split; [exact Hi|]. reflexivity.
    + exists [ Ast.JSXAttribute "item" Ast.NoValue ].
      split; [reflexivity|]. split; [reflexivity|]. intros H. discriminate H.
Qed.

(** ** Passes that keep a tree free of a tag *)

Section WalkKeeps.
Import Ast Walk.
Context {E : Type}.
Variable cb : Node -> W E Node.
Variable sel : JSXName -> bool.

(** On an element the pass does not select, the callback returns a tree
    in which still nothing is selected. *)
Hypothesis cb_keeps :
  forall o c a kids n' l,
    sel o = false -> Forall (settled sel) kids ->
    cb (JSXElement o c a kids) = Some (n', l) -> settled sel n'.


End WalkKeeps.

Section WalkBody.
Import Ast Walk.
Context {E : Type}.
Variable cb : Node -> W E Node.
Variable sel : JSXName -> bool.

(** No element of the statements has a tag the pass selects. *)
Definition settled_body (b : list Stmt) : Prop :=
  Forall (fun s => Forall (settled sel) (jsx s)) b.

Lemma forEachRoot_Forall2 b b' log :
  forEachRoot cb b = Some (b', log) ->
  Forall2 (fun s s' => kind s' = kind s
                       /\ Forall2 (fun n n' => exists l, forEachElement cb n = Some (n', l))
                                  (jsx s) (jsx s')) b b'.
Proof.
  unfold forEachRoot. intros H. apply mapW_Forall2 in H.
  eapply Forall2_impl; [|exact H].
  intros s s' [lg Hs]. unfold bind, ret in Hs.
  destruct (mapW (forEachElement cb) (jsx s)) as [[r l]|] eqn:Hr; [|discriminate].
  inversion Hs; subst. cbn [kind jsx]. split; [reflexivity|].
  eapply mapW_Forall2; eauto.
Qed.


(** A body in which nothing is selected is walked to itself in silence by
    a callback that returns the elements it does not select as they are. *)
Lemma forEachRoot_fixed b :
  (forall o c a kids, sel o = false ->
                      cb (JSXElement o c a kids) = Some (JSXElement o c a kids, [])) ->
  settled_body b -> forEachRoot cb b = Some (b, []).
Proof.
  intros Hcb Hb. unfold forEachRoot. apply mapW_fixed.
  eapply Forall_impl; [|exact Hb]. intros s Hs.
  assert (Hw : mapW (forEachElement cb) (jsx s) = Some (jsx s, [])).
  { apply mapW_fixed. eapply Forall_impl; [|exact Hs]. intros n Hn.
    destruct (settled_fixed (fun _ : E => False) cb sel) with (n := n) as [log [Hf Hq]];
      [|exact Hn|].
    - intros o c a kids Ho. exists []. split; [now apply Hcb|constructor].
    - destruct log as [|e log]; [exact Hf|]. inversion Hq; subst. contradiction. }
  unfold bind, ret. rewrite Hw. destruct s. reflexivity.
Qed.

End WalkBody.


(** ** bootstrap_mui_deep.js: the passes as a whole *)

Module DeepRun.
Import Js Ast Walk BootstrapMuiDeep.

Definition selCol (o : JSXName) : bool := name_is o "Col".

Lemma convertComponent_skips b cfg o c a kids :
  name_is o b = false ->
  convertComponent b cfg (JSXElement o c a kids) = Some (JSXElement o c a kids, []).
Proof. intros H. unfold convertComponent. now rewrite H. Qed.


Lemma convertSubComponent_skips parent child cfg o c a kids :
  is_member o parent child = false ->
  convertSubComponent parent child cfg (JSXElement o c a kids)
  = Some (JSXElement o c a kids, []).
Proof. intros H. unfold convertSubComponent. now rewrite H. Qed.










Definition col_config : Config :=
  mkConfig "Grid" "@mui/material/Grid" None [ ("item", PBool true); ("xs", PNumber 12) ].




Lemma convertCol_skips o c a kids :
  selCol o = false ->
  convertCol (JSXElement o c a kids) = Some (JSXElement o c a kids, []).
Proof. unfold selCol, convertCol. now intros ->. Qed.

(** An element that one of the passes selects. *)
Definition selected (o : JSXName) : bool :=
  existsb (fun e => name_is o (fst e)) COMPONENT_MAP
  || existsb (fun e => is_member o (fst (fst e)) (snd (fst e))) SUBCOMPONENT_MAP.

Definition skips (cb : Node -> W Node) : Prop :=
  forall o c a kids,
    selected o = false -> cb (JSXElement o c a kids) = Some (JSXElement o c a kids, []).

Lemma selected_component o e :
  selected o = false -> In e COMPONENT_MAP -> name_is o (fst e) = false.
Proof.
  unfold selected. intros H Hin. apply orb_false_iff in H. destruct H as [H _].
  destruct (name_is o (fst e)) eqn:Hn; [|reflexivity].
  rewrite <- H. symmetry. apply existsb_exists. now exists e.
Qed.

Lemma selected_subcomponent o e :
  selected o = false -> In e SUBCOMPONENT_MAP ->
  is_member o (fst (fst e)) (snd (fst e)) = false.
Proof.
  unfold selected. intros H Hin. apply orb_false_iff in H. destruct H as [_ H].
  destruct (is_member o (fst (fst e)) (snd (fst e))) eqn:Hn; [|reflexivity].
  rewrite <- H. symmetry. apply existsb_exists. now exists e.
Qed.

Lemma passes_skip : Forall skips passes.
Proof.
  unfold passes. apply Forall_app. split; [|apply Forall_app; split].
  - unfold componentPasses. apply Forall_forall. intros cb Hin.
    apply in_map_iff in Hin. destruct Hin as [e [<- He]].
    intros o c a kids Ho. apply convertComponent_skips.
    now apply selected_component.
  - unfold subComponentPasses. apply Forall_forall. intros cb Hin.
    apply in_map_iff in Hin. destruct Hin as [e [<- He]].
    intros o c a kids Ho. apply convertSubComponent_skips.
    now apply selected_subcomponent.
  - repeat apply Forall_cons; try apply Forall_nil; intros o c a kids Ho.
    + apply convertCol_skips.
      apply (selected_component o ("Col", col_config) Ho). cbn. tauto.
    + assert (Hx : name_is o "Alert" = false).
      { apply (selected_component o ("Alert", plain "Alert" "@mui/material/Alert") Ho).
        cbn. tauto. }
      unfold convertAlert. now rewrite Hx.
    + assert (Hx : name_is o "Container" = false).
      { apply (selected_component o
                 ("Container", plain "Container" "@mui/material/Container") Ho).
        cbn. tauto. }
      unfold convertContainer. now rewrite Hx.
Qed.

Lemma runPasses_fixed ps :
  Forall skips ps ->
  forall st, settled_body selected (st_body st) -> runPasses ps st = Some st.
Proof.
  induction 1 as [|cb r Hcb _ IH]; intros st Hs; [reflexivity|].
  cbn [runPasses]. unfold runPass.
  rewrite (forEachRoot_fixed cb selected (st_body st) Hcb Hs).
  destruct st as [i b h]. cbn [st_imports st_body hasChanges] in *.
  now apply IH.
Qed.

End DeepRun.




(** X11.  bootstrap_mui_deep.js returns the source as it came when there
    is nothing for it to do: no import whose path contains [bootstrap],
    and no element whose tag is a key of [COMPONENT_MAP] or of
    [SUBCOMPONENT_MAP]. *)
Theorem deep_returns_source_when_nothing_matches p :
  existsb BootstrapMuiDeep.is_bootstrap_import (Ast.imports p) = false ->
  settled_body DeepRun.selected (Ast.body p) ->
  BootstrapMuiDeep.transform p = Some Ast.ReturnsSource.
Proof.
  intros Hi Hb. unfold BootstrapMuiDeep.transform.
  rewrite (DeepRun.runPasses_fixed _ DeepRun.passes_skip); [|exact Hb].
  cbn [BootstrapMuiDeep.removeBootstrapImports BootstrapMuiDeep.hasChanges
       BootstrapMuiDeep.st_imports orb].
  now rewrite Hi.
Qed.

Definition plain_module : Ast.Program :=
  Ast.mkProgram
    [ Ast.mkImport [ Ast.ImportDefaultSpecifier "React" ] Ast.Literal "react" ]
    [ Ast.mkStmt Ast.OtherStatement
        [ Ast.JSXElement (Ast.JSXIdentifier "div") (Some (Ast.JSXIdentifier "div"))
            [ Ast.JSXAttribute "className" (lit "mb-3") ]
            [ Ast.JSXElement
                (Ast.JSXMemberExpression (Ast.JSXIdentifier "Card") "Img") None [] [] ] ] ].

Lemma deep_returns_source_when_nothing_matches_witness :
  BootstrapMuiDeep.transform plain_module = Some Ast.ReturnsSource.
Proof.
  apply (deep_returns_source_when_nothing_matches plain_module).
  - reflexivity.
  - repeat constructor.
Defined.

(** ** bootstrap_mui_deep.js: the imports of the printed module *)

Module DeepImports.
Import Js Ast Walk BootstrapMuiDeep.

(** The declaration imports from [src] and binds the local name [n]. *)
Definition binds (src n : string) (d : ImportDeclaration) : bool :=
  String.eqb (source d) src
  && existsb (fun s => String.eqb (local_name s) n) (specifiers d).

Definition bound (src n : string) (l : list ImportDeclaration) : bool :=
  existsb (binds src n) l.

Definition with_default (c : string) (d : ImportDeclaration) : ImportDeclaration :=
  if existsb (fun s => String.eqb (local_name s) c) (specifiers d)
  then d
  else mkImport (specifiers d ++ [ImportDefaultSpecifier c]) (source_kind d) (source d).

Lemma addImport_nil s c :
  addImport s c [] = [mkImport [ImportDefaultSpecifier c] Literal s].
Proof. reflexivity. Qed.

Lemma addImport_cons s c d r :
  addImport s c (d :: r) =
  if String.eqb (source d) s then with_default c d :: r else d :: addImport s c r.
Proof.
  unfold addImport, with_default. cbn [app].
  destruct (String.eqb (source d) s); [reflexivity|].
  match goal with |- context [option_map _ ?x] => destruct x end; reflexivity.
Qed.

Lemma with_default_source c d : source (with_default c d) = source d.
Proof. unfold with_default. destruct (existsb _ _); reflexivity. Qed.

Lemma with_default_binds c d : binds (source d) c (with_default c d) = true.
Proof.
  unfold binds. rewrite with_default_source, String.eqb_refl. cbn [andb].
  unfold with_default. destruct (existsb _ (specifiers d)) eqn:He; [exact He|].
  cbn [specifiers]. rewrite existsb_app. cbn [existsb local_name].
  rewrite String.eqb_refl. now rewrite !orb_true_r.
Qed.

Lemma with_default_keeps s n c d : binds s n d = true -> binds s n (with_default c d) = true.
Proof.
  unfold binds. rewrite with_default_source. intros H.
  apply andb_true_iff in H. destruct H as [Hs Hn]. rewrite Hs. cbn [andb].
  unfold with_default.
  destruct (existsb (fun x => String.eqb (local_name x) c) (specifiers d)); [exact Hn|].
  cbn [specifiers]. rewrite existsb_app, Hn. reflexivity.
Qed.

Lemma addImport_bound s c l : bound s c (addImport s c l) = true.
Proof.
  induction l as [|d r IH].
  - rewrite addImport_nil. unfold bound, binds. cbn [existsb source specifiers local_name].
    now rewrite !String.eqb_refl.
  - rewrite addImport_cons. destruct (String.eqb (source d) s) eqn:Hs.
    + apply String.eqb_eq in Hs. subst s. unfold bound. cbn [existsb].
      now rewrite with_default_binds.
    + unfold bound in *. cbn [existsb]. rewrite IH. apply orb_true_r.
Qed.

Lemma addImport_keeps s n s' c l : bound s n l = true -> bound s n (addImport s' c l) = true.
Proof.
  induction l as [|d r IH]; [discriminate|].
  rewrite addImport_cons. unfold bound in *. cbn [existsb]. intros H.
  apply orb_true_iff in H.
  destruct (String.eqb (source d) s'); cbn [existsb]; apply orb_true_iff.
  - destruct H as [H|H]; [left; now apply with_default_keeps|now right].
  - destruct H as [H|H]; [now left|right; now apply IH].
Qed.

Lemma addImport_sources (P : string -> Prop) s c l :
  P s -> Forall (fun d => P (source d)) l ->
  Forall (fun d => P (source d)) (addImport s c l).
Proof.
  intros Hs. induction 1 as [|d r Hd Hr IH].
  - rewrite addImport_nil. constructor; [exact Hs|constructor].
  - rewrite addImport_cons. destruct (String.eqb (source d) s).
    + constructor; [|exact Hr]. now rewrite with_default_source.
    + constructor; assumption.
Qed.

(** The path of an import that step 1 leaves. *)
Definition clean (src : string) : Prop :=
  BootstrapMuiClaude.includes src "bootstrap"
  || BootstrapMuiClaude.includes src "react-bootstrap" = false.

Lemma configs_clean : Forall (fun cfg => clean (import cfg)) configs.
Proof. unfold clean. repeat constructor. Qed.

Lemma addComponentImport_sources l c :
  Forall (fun d => clean (source d)) l ->
  Forall (fun d => clean (source d)) (addComponentImport l c).
Proof.
  intros H. unfold addComponentImport.
  destruct (find _ configs) as [cfg|] eqn:Hf; [|exact H].
  apply addImport_sources; [|exact H].
  apply find_some in Hf. destruct Hf as [Hin _].
  pose proof configs_clean as Hc. rewrite Forall_forall in Hc. now apply Hc.
Qed.

Lemma addMuiImports_sources l b :
  Forall (fun d => clean (source d)) l ->
  Forall (fun d => clean (source d)) (addMuiImports l b).
Proof.
  intros H. unfold addMuiImports.
  assert (Hfold : forall used l0, Forall (fun d => clean (source d)) l0 ->
                    Forall (fun d => clean (source d))
                           (fold_left addComponentImport used l0)).
  { induction used as [|c used IH]; intros l0 H0; [exact H0|].
    cbn [fold_left]. apply IH. now apply addComponentImport_sources. }
  destruct (usedComponents b) as [|c used] eqn:Hu; [exact H|].
  apply addImport_sources; [reflexivity|]. now apply Hfold.
Qed.

Lemma runPasses_imports ps :
  forall st st', runPasses ps st = Some st' -> st_imports st' = st_imports st.
Proof.
  induction ps as [|cb r IH]; intros st st' H.
  - inversion H. reflexivity.
  - cbn [runPasses] in H. unfold runPass in H.
    destruct (forEachRoot cb (st_body st)) as [[b log]|]; [|discriminate].
    apply IH in H. exact H.
Qed.

(** [usedComponents] holds every target name that is the tag of an
    element. *)
Lemma usedComponents_In b s :
  In (JSXIdentifier s) (flat_map (fun st => flat_map opening_names (jsx st)) b) ->
  is_target s = true ->
  In s (usedComponents b).
Proof.
  unfold usedComponents. intros Hin Ht.
  assert (H : forall l used,
             In s used \/ In (JSXIdentifier s) l ->
             In s (fold_left (fun used o =>
                                match name_of o with
                                | Some x => if is_target x && negb (mem x used)
                                            then used ++ [x] else used
                                | None => used
                                end) l used)).
  { induction l as [|o l IH]; intros used [Hu|Hl]; cbn [fold_left]; auto.
    - destruct Hl.
    - apply IH. left. destruct (name_of o) as [x|]; [|exact Hu].
      destruct (is_target x && negb (mem x used)); [|exact Hu].
      apply in_or_app. now left.
    - destruct Hl as [->|Hl]; [|apply IH; now right].
      apply IH. left. cbn [name_of]. rewrite Ht. cbn [andb].
      destruct (mem s used) eqn:Hm; cbn [negb].
      + now apply mem_In.
      + apply in_or_app. right. now left. }
  apply H. now right.
Qed.

Lemma fold_keeps s n used :
  forall l, bound s n l = true -> bound s n (fold_left addComponentImport used l) = true.
Proof.
  induction used as [|c used IH]; intros l H; [exact H|].
  cbn [fold_left]. apply IH. unfold addComponentImport.
  destruct (find _ configs); [now apply addImport_keeps|exact H].
Qed.

Lemma fold_binds s cfg used :
  find (fun cfg => String.eqb (name cfg) s) configs = Some cfg ->
  In s used ->
  forall l, bound (import cfg) s (fold_left addComponentImport used l) = true.
Proof.
  intros Hf. induction used as [|c used IH]; intros Hin l; [destruct Hin|].
  cbn [fold_left]. destruct Hin as [->|Hin]; [|now apply IH].
  apply fold_keeps. unfold addComponentImport. rewrite Hf. apply addImport_bound.
Qed.

End DeepImports.

(** A module that uses [Row] and its own [Box]. *)
Definition row_module : Ast.Program :=
  Ast.mkProgram
    [ Ast.mkImport [ Ast.ImportSpecifier "Row" "Row" ] Ast.Literal "react-bootstrap";
      Ast.mkImport [ Ast.ImportDefaultSpecifier "Box" ] Ast.Literal "./Box" ]
    [ Ast.mkStmt Ast.OtherStatement
        [ Ast.JSXElement (Ast.JSXIdentifier "Row") (Some (Ast.JSXIdentifier "Row")) []
            [ Ast.JSXElement (Ast.JSXIdentifier "Box") None [] [] ] ] ].

Definition row_module_migrated : Ast.Program :=
  Ast.mkProgram
    [ Ast.mkImport [ Ast.ImportDefaultSpecifier "Box" ] Ast.Literal "./Box";
      Ast.mkImport [ Ast.ImportDefaultSpecifier "Grid" ] Ast.Literal "@mui/material/Grid";
      Ast.mkImport [ Ast.ImportDefaultSpecifier "Box" ] Ast.Literal "@mui/material/Box";
      Ast.mkImport [ Ast.ImportDefaultSpecifier "ThemeProvider" ] Ast.Literal
        "@mui/material/styles" ]
    [ Ast.mkStmt Ast.OtherStatement
        [ Ast.JSXElement (Ast.JSXIdentifier "Grid") (Some (Ast.JSXIdentifier "Grid"))
            [ Ast.JSXAttribute "container" Ast.NoValue;
              Ast.JSXAttribute "spacing"
                (Ast.JSXExpressionContainer (Ast.ELiteral Ast.Typed (Js.JNumber 2))) ]
            [ Ast.JSXElement (Ast.JSXIdentifier "Box") None [] [] ] ] ].

Example deep_row_run :
  BootstrapMuiDeep.transform row_module = Some (Ast.ToSource row_module_migrated).
Proof. vm_compute. reflexivity. Qed.

(** X12.  The import section that bootstrap_mui_deep.js prints has no
    import whose path contains [bootstrap].  The script prints the imports
    that step 1 left, passed through step 7 with the body that steps 2 to
    6 leave: whatever that body is, step 1 has removed every such import
    and step 7 adds none. *)
Theorem deep_output_has_no_bootstrap_import st body :
  Forall (fun d => BootstrapMuiDeep.is_bootstrap_import d = false)
         (BootstrapMuiDeep.addMuiImports
            (BootstrapMuiDeep.st_imports (BootstrapMuiDeep.removeBootstrapImports st))
            body).
Proof.
  apply DeepImports.addMuiImports_sources.
  cbn [BootstrapMuiDeep.removeBootstrapImports BootstrapMuiDeep.st_imports].
  apply Forall_forall. intros d Hd. apply filter_In in Hd. destruct Hd as [_ Hd].
  apply negb_true_iff in Hd. exact Hd.
Qed.

(** X13.  Step 7 of bootstrap_mui_deep.js: whatever body the steps
    before it leave, every element of it whose tag is the name of a target
    component, whether the run gave it that tag or it had it before, has
    that name bound, in the import section step 7 builds, by an import
    from the module path of the first table entry with that target name. *)
Theorem deep_target_tags_are_imported imports body s :
  In (Ast.JSXIdentifier s)
     (flat_map (fun st => flat_map Ast.opening_names (Ast.jsx st)) body) ->
  BootstrapMuiDeep.is_target s = true ->
  exists cfg,
    find (fun cfg => String.eqb (BootstrapMuiDeep.name cfg) s) BootstrapMuiDeep.configs
    = Some cfg
    /\ DeepImports.bound (BootstrapMuiDeep.import cfg) s
         (BootstrapMuiDeep.addMuiImports imports body) = true.
Proof.
  intros Hin Ht.
  destruct (find (fun cfg => String.eqb (BootstrapMuiDeep.name cfg) s)
                 BootstrapMuiDeep.configs) as [cfg|] eqn:Hf.
  - exists cfg. split; [reflexivity|].
    pose proof (DeepImports.usedComponents_In _ _ Hin Ht) as Hu.
    unfold BootstrapMuiDeep.addMuiImports.
    destruct (BootstrapMuiDeep.usedComponents body) as [|c used] eqn:Hused; [destruct Hu|].
    apply DeepImports.addImport_keeps. now apply DeepImports.fold_binds.
  - unfold BootstrapMuiDeep.is_target in Ht. apply existsb_exists in Ht.
    destruct Ht as [cfg [Hc Hn]].
    apply (find_none _ _ Hf) in Hc. congruence.
Qed.

Lemma deep_target_tags_are_imported_witness :
  exists cfg,
    find (fun cfg => String.eqb (BootstrapMuiDeep.name cfg) "Box") BootstrapMuiDeep.configs
    = Some cfg
    /\ DeepImports.bound (BootstrapMuiDeep.import cfg) "Box"
         (BootstrapMuiDeep.addMuiImports [] (Ast.body row_module_migrated)) = true.
Proof.
  apply (deep_target_tags_are_imported [] (Ast.body row_module_migrated) "Box").
  - cbn. tauto.
  - reflexivity.
Defined.

(** ** Passes that keep a mark on the tags *)

Section WalkTags.
Import Ast Walk.
Context {E T : Type}.
Variable cb : Node -> W E Node.
Variable mark : JSXName -> T.

(** The callback keeps the children of an element and the mark of its
    tag. *)
Hypothesis cb_mark :
  forall o c a kids n' l,
    cb (JSXElement o c a kids) = Some (n', l) ->
    exists o' c' a', n' = JSXElement o' c' a' kids /\ mark o' = mark o.

Lemma walk_marks n :
  forall n' log, forEachElement cb n = Some (n', log) ->
                 map mark (opening_names n') = map mark (opening_names n).
Proof.
  induction n as [o c a kids IH|s|inner IH] using Node_nested_ind; intros n' log H.
  - rewrite forEachElement_element in H.
    destruct (mapW (forEachElement cb) kids) as [[kids' below]|] eqn:Hk; [|discriminate].
    destruct (cb (JSXElement o c a kids')) as [[m here]|] eqn:Hcb; [|discriminate].
    inversion H; subst.
    destruct (cb_mark _ _ _ _ _ _ Hcb) as (o' & c' & a' & -> & Ho).
    cbn [opening_names map]. rewrite Ho. f_equal.
    apply mapW_Forall2 in Hk. clear Hcb H.
    induction Hk as [|k k' r r' [lg Hw] _ IHr]; [reflexivity|].
    inversion IH; subst. cbn [flat_map]. rewrite !map_app. f_equal; eauto.
  - inversion H; subst. reflexivity.
  - rewrite forEachElement_expression in H.
    destruct (mapW (forEachElement cb) inner) as [[inner' lg]|] eqn:Hk; [|discriminate].
    inversion H; subst. cbn [opening_names].
    apply mapW_Forall2 in Hk. clear H.
    induction Hk as [|k k' r r' [l Hw] _ IHr]; [reflexivity|].
    inversion IH; subst. cbn [flat_map]. rewrite !map_app. f_equal; eauto.
Qed.

(** The tags of a body, in document order. *)
Definition body_names (b : list Stmt) : list JSXName :=
  flat_map (fun s => flat_map opening_names (jsx s)) b.

Lemma forEachRoot_marks b b' log :
  forEachRoot cb b = Some (b', log) ->
  map mark (body_names b') = map mark (body_names b).
Proof.
  intros H. apply forEachRoot_Forall2 in H. unfold body_names.
  induction H as [|s s' r r' [_ Hs] _ IH]; [reflexivity|].
  cbn [flat_map]. rewrite !map_app. f_equal; [|exact IH].
  clear IH. induction Hs as [|n n' l l' [lg Hw] _ IHs]; [reflexivity|].
  cbn [flat_map]. rewrite !map_app. f_equal; [|exact IHs].
  eapply walk_marks; eauto.
Qed.

End WalkTags.

(** ** react-bootstrap-to-mui_claude.js: what is and is not replaced *)

Module RbClaudeRun.
Import Js Ast Walk RbToMuiClaude.

(** The names that [muiComp] gives in place of another. *)
Definition targets : list string :=
  [ "CardContent"; "CardActions"; "Checkbox"; "CircularProgress";
    "LinearProgress"; "ListItem"; "DialogTitle"; "DialogContent";
    "DialogActions"; "Dialog" ].

Lemma muiComp_cases comp : muiComp comp = comp \/ In (muiComp comp) targets.
Proof.
  unfold muiComp, targets.
  repeat match goal with
         | |- context [if ?b then _ else _] => destruct b; [right; cbn; tauto|]
         end.
  now left.
Qed.

Lemma replaced_is_mapped p comp :
  In comp (componentsToReplace p) ->
  mapped comp = true /\ mem comp (localComponents p) = false.
Proof.
  unfold componentsToReplace. intros H. apply filter_In in H.
  destruct H as [_ H]. apply andb_true_iff in H. destruct H as [Hl Hm].
  apply negb_true_iff in Hl. auto.
Qed.

Lemma In_mem k l : In k l -> mem k l = true.
Proof.
  intros H. unfold mem. apply existsb_exists. exists k.
  split; [assumption|apply String.eqb_refl].
Qed.

Lemma replaceComponent_marks comp x o c a kids n' l :
  comp <> x -> muiComp comp <> x -> comp <> "Row" ->
  replaceComponent comp (JSXElement o c a kids) = Some (n', l) ->
  exists o' c' a', n' = JSXElement o' c' a' kids /\ name_is o' x = name_is o x.
Proof.
  intros Hx Hm Hrow H. unfold replaceComponent in H.
  destruct (replaceOpening comp o a) as [[o' a']|] eqn:Ho; [|discriminate].
  inversion H; subst. exists o', (replaceClosing comp c), a'. split; [reflexivity|].
  unfold replaceOpening in Ho. destruct (name_is o comp) eqn:Hn.
  - destruct o as [y|]; [|discriminate]. cbn [name_is] in Hn.
    apply String.eqb_eq in Hn. subst y.
    destruct (if String.eqb comp "Button" then mapOpt buttonVariant a else Some a);
      [|discriminate].
    destruct (String.eqb comp "Row") eqn:Hr; [apply String.eqb_eq in Hr; contradiction|].
    cbn [set_name] in Ho.
    destruct (if String.eqb comp "Modal" then _ else _); [|discriminate].
    inversion Ho; subst. cbn [name_is].
    apply String.eqb_neq in Hx, Hm. now rewrite Hx, Hm.
  - inversion Ho; subst. reflexivity.
Qed.

Lemma runPasses_marks x comps :
  Forall (fun comp => comp <> x /\ muiComp comp <> x /\ comp <> "Row") comps ->
  forall b b', runPasses comps b = Some b' ->
               map (fun o => name_is o x) (body_names b')
               = map (fun o => name_is o x) (body_names b).
Proof.
  induction 1 as [|comp r [Hx [Hm Hr]] _ IH]; intros b b' H.
  - inversion H. reflexivity.
  - cbn [runPasses] in H.
    destruct (forEachRoot (replaceComponent comp) b) as [[b1 log]|] eqn:Hw; [|discriminate].
    rewrite (IH _ _ H).
    eapply forEachRoot_marks; [|exact Hw].
    intros o c a kids n' l. now apply replaceComponent_marks.
Qed.

Lemma push_name_paths P path name m :
  P path -> Forall (fun e => P (fst e)) m ->
  Forall (fun e : string * list string => P (fst e)) (push_name path name m).
Proof.
  intros Hp. induction 1 as [|[p names] r He Hr IH]; cbn [push_name].
  - constructor; [exact Hp|constructor].
  - destruct (String.eqb p path); constructor; assumption.
Qed.

Lemma muiImports_paths comps m :
  muiImports comps = Some m ->
  Forall (fun e => In (Some (fst e)) (values componentMap)) m.
Proof.
  unfold muiImports.
  assert (H : forall acc,
             match acc with
             | Some m0 => Forall (fun e => In (Some (fst e)) (values componentMap)) m0
             | None => True
             end ->
             match fold_left (fun acc comp =>
                                match acc with
                                | None => None
                                | Some m =>
                                    match get componentMap comp with
                                    | Own (Some muiPath) =>
                                        Some (push_name muiPath (muiCompName comp) m)
                                    | Inherited => None
                                    | _ => Some m
                                    end
                                end) comps acc with
             | Some m0 => Forall (fun e => In (Some (fst e)) (values componentMap)) m0
             | None => True
             end).
  { induction comps as [|comp comps IH]; intros acc Hacc; [exact Hacc|].
    cbn [fold_left]. apply IH. destruct acc as [m0|]; [|exact I].
    unfold get. destruct (own componentMap comp) as [[muiPath|]|] eqn:Ho.
    - apply (push_name_paths (fun path => In (Some path) (values componentMap)));
        [|exact Hacc].
      now apply own_values in Ho.
    - exact Hacc.
    - destruct (inherited comp); [exact I|exact Hacc]. }
  intros Hm. specialize (H (Some []) (Forall_nil _)). now rewrite Hm in H.
Qed.

Lemma paths_not_bootstrap :
  Forall (fun v => match v with
                   | Some path => String.eqb path "react-bootstrap" = false
                   | None => True
                   end) (values componentMap).
Proof. repeat constructor. Qed.

End RbClaudeRun.

Definition row_and_button_module : Ast.Program :=
  Ast.mkProgram
    [ Ast.mkImport [ Ast.ImportSpecifier "Row" "Row"; Ast.ImportSpecifier "Button" "Button" ]
                   Ast.Literal "react-bootstrap" ]
    [ Ast.mkStmt Ast.OtherStatement
        [ Ast.JSXElement (Ast.JSXIdentifier "Row") (Some (Ast.JSXIdentifier "Row")) []
            [ Ast.JSXElement (Ast.JSXIdentifier "Button") (Some (Ast.JSXIdentifier "Button"))
                [ Ast.JSXAttribute "variant" (lit "primary") ] [ Ast.JSXText "Go" ] ] ] ].

Definition row_and_button_migrated : Ast.Program :=
  Ast.mkProgram []
    [ Ast.mkStmt Ast.OtherStatement
        [ Ast.JSXElement (Ast.JSXIdentifier "Row") (Some (Ast.JSXIdentifier "Row")) []
            [ Ast.JSXElement (Ast.JSXIdentifier "Button") (Some (Ast.JSXIdentifier "Button"))
                [ Ast.JSXAttribute "variant" (lit "contained") ] [ Ast.JSXText "Go" ] ] ] ].

Example rb_claude_row_and_button_run :
  RbToMuiClaude.transform row_and_button_module
  = Some (Ast.ToSource row_and_button_migrated).
Proof. vm_compute. reflexivity. Qed.

(** X14.  react-bootstrap-to-mui_claude.js removes every import from
    react-bootstrap, yet it leaves the elements of some imported
    components as they are named: in the module it prints no import is
    from react-bootstrap, and for a name that has a falsy entry or none in
    [componentMap] ([Row] and [Form] have [null]), or that the module
    declares itself, the elements with that tag are the same, place by
    place, as in the input (the name being none of those [muiComp] writes). *)
Theorem rb_claude_leaves_unmapped_and_local_tags p q x :
  RbToMuiClaude.transform p = Some (Ast.ToSource q) ->
  RbToMuiClaude.mapped x = false \/ In x (RbToMuiClaude.localComponents p) ->
  ~ In x RbClaudeRun.targets ->
  Forall (fun d => RbToMuiClaude.from_react_bootstrap d = false) (Ast.imports q)
  /\ map (fun o => Ast.name_is o x) (body_names (Ast.body q))
     = map (fun o => Ast.name_is o x) (body_names (Ast.body p)).
Proof.
  unfold RbToMuiClaude.transform. intros H Hx Ht.
  destruct (RbToMuiClaude.bootstrapImports p) as [|i0 more]; [discriminate|].
  set (kept := filter (fun d => negb (RbToMuiClaude.from_react_bootstrap d)) (Ast.imports p))
    in H.
  assert (Hkept : Forall (fun d => RbToMuiClaude.from_react_bootstrap d = false) kept).
  { apply Forall_forall. intros d Hd. apply filter_In in Hd. destruct Hd as [_ Hd].
    now apply negb_true_iff in Hd. }
  destruct (match kept with
            | [] => Some kept
            | _ => option_map (fun m => map RbToMuiClaude.importStatement m ++ kept)
                              (RbToMuiClaude.muiImports (RbToMuiClaude.componentsToReplace p))
            end) as [imports'|] eqn:Hi; [|discriminate].
  destruct (RbToMuiClaude.runPasses _ (Ast.body p)) as [body'|] eqn:Hr; [|discriminate].
  inversion H; subst. cbn [Ast.imports Ast.body]. split.
  - destruct kept as [|k0 ks]; [inversion Hi; constructor|].
    destruct (RbToMuiClaude.muiImports _) as [m|] eqn:Hm; [|discriminate].
    inversion Hi; subst. apply Forall_app. split; [|exact Hkept].
    apply RbClaudeRun.muiImports_paths in Hm.
    apply Forall_forall. intros d Hd. apply in_map_iff in Hd. destruct Hd as [e [<- He]].
    rewrite Forall_forall in Hm. specialize (Hm e He).
    pose proof RbClaudeRun.paths_not_bootstrap as Hp. rewrite Forall_forall in Hp.
    exact (Hp _ Hm).
  - apply (RbClaudeRun.runPasses_marks x _) in Hr; [exact Hr|].
    apply Forall_forall. intros comp Hc.
    apply RbClaudeRun.replaced_is_mapped in Hc. destruct Hc as [Hm Hl].
    assert (Hne : comp <> x).
    { intros ->. destruct Hx as [Hx|Hx]; [congruence|].
      apply RbClaudeRun.In_mem in Hx. congruence. }
    split; [exact Hne|]. split.
    + destruct (RbClaudeRun.muiComp_cases comp) as [He|Hin]; [congruence|].
      intros He. apply Ht. now rewrite <- He.
    + intros ->. discriminate Hm.
Qed.

Lemma rb_claude_leaves_unmapped_and_local_tags_witness :
  Forall (fun d => RbToMuiClaude.from_react_bootstrap d = false)
         (Ast.imports row_and_button_migrated)
  /\ map (fun o => Ast.name_is o "Row") (body_names (Ast.body row_and_button_migrated))
     = map (fun o => Ast.name_is o "Row") (body_names (Ast.body row_and_button_module)).
Proof.
  apply (rb_claude_leaves_unmapped_and_local_tags
           row_and_button_module row_and_button_migrated "Row").
  - vm_compute. reflexivity.
  - left. reflexivity.
  - cbn. intuition discriminate.
Defined.

(** A [Button] of the module's own, declared inside the function that
    uses it: the import of [Button] is removed and the elements stay. *)
Definition nested_button_module : Ast.Program :=
  Ast.mkProgram
    [ Ast.mkImport [ Ast.ImportSpecifier "Button" "Button" ] Ast.Literal "react-bootstrap";
      Ast.mkImport [ Ast.ImportDefaultSpecifier "React" ] Ast.Literal "react" ]
    [ Ast.mkStmt (Ast.Within (Ast.FunctionDeclaration "Page")
                             [ Ast.VariableFunction "Button" ])
        [ Ast.JSXElement (Ast.JSXIdentifier "Button") (Some (Ast.JSXIdentifier "Button"))
            [ Ast.JSXAttribute "variant" (lit "primary") ] [ Ast.JSXText "Go" ] ] ].

Example rb_claude_nested_local_component :
  RbToMuiClaude.localComponents nested_button_module = [ "Button"; "Page" ]
  /\ RbToMuiClaude.transform nested_button_module
     = Some (Ast.ToSource
               (Ast.mkProgram
                  [ Ast.mkImport [ Ast.ImportDefaultSpecifier "React" ] Ast.Literal "react" ]
                  (Ast.body nested_button_module))).
Proof. split; vm_compute; reflexivity. Qed.

(** X15.  react-bootstrap-to-mui_claude.js inserts the MUI imports before
    the first import that is left after the removal of the react-bootstrap
    ones; when the module imported from react-bootstrap only, none is left
    and the module it prints has no import at all, whatever it renamed. *)
Theorem rb_claude_sole_import_leaves_none p q :
  forallb RbToMuiClaude.from_react_bootstrap (Ast.imports p) = true ->
  RbToMuiClaude.transform p = Some (Ast.ToSource q) ->
  Ast.imports q = [].
Proof.
  intros Hall. unfold RbToMuiClaude.transform.
  destruct (RbToMuiClaude.bootstrapImports p) as [|i0 more]; [discriminate|].
  assert (Hk : filter (fun d => negb (RbToMuiClaude.from_react_bootstrap d)) (Ast.imports p)
               = []).
  { induction (Ast.imports p) as [|d r IH]; [reflexivity|].
    cbn [forallb] in Hall. apply andb_true_iff in Hall. destruct Hall as [Hd Hr].
    cbn [filter]. rewrite Hd. cbn [negb]. now apply IH. }
  rewrite Hk.
  destruct (RbToMuiClaude.runPasses _ (Ast.body p)) as [body'|]; [|discriminate].
  intros H; inversion H. reflexivity.
Qed.

Lemma rb_claude_sole_import_leaves_none_witness :
  Ast.imports row_and_button_migrated = [].
Proof.
  apply (rb_claude_sole_import_leaves_none row_and_button_module).
  - reflexivity.
  - vm_compute. reflexivity.
Defined.

(** ** Keys of an object built by assignment *)

Lemma own_assign1_same {V} (o : Js.Obj V) k v : Js.own (Js.assign1 o k v) k = Some v.
Proof.
  induction o as [|[k' v'] r IH]; cbn [Js.assign1 Js.own].
  - now rewrite String.eqb_refl.
  - destruct (String.eqb k k') eqn:Hk; cbn [Js.own]; rewrite Hk; [reflexivity|exact IH].
Qed.

Lemma own_assign1_other {V} (o : Js.Obj V) k v k0 :
  k0 <> k -> Js.own (Js.assign1 o k v) k0 = Js.own o k0.
Proof.
  intros Hne. induction o as [|[k' v'] r IH]; cbn [Js.assign1 Js.own].
  - apply String.eqb_neq in Hne. now rewrite Hne.
  - destruct (String.eqb k k') eqn:Hk; cbn [Js.own].
    + apply String.eqb_eq in Hk. subst k'.
      apply String.eqb_neq in Hne. now rewrite Hne.
    + destruct (String.eqb k0 k'); [reflexivity|exact IH].
Qed.

(** ** react-bootstrap-to-mui_manus.js: the import section *)

Module ManusImports.
Import Js Ast Walk RbToMuiManus.

(** The specifiers of the imports from react-bootstrap. *)
Definition rb_specifiers (l : list ImportDeclaration) : list ImportSpec :=
  flat_map specifiers (filter from_react_bootstrap l).

(** A specifier whose imported name has no entry in [componentMap]; a
    default or namespace import. *)
Definition unmapped (spec : ImportSpec) : bool :=
  match spec with
  | ImportSpecifier imported _ => negb (mapped imported)
  | _ => true
  end.

Definition record (m : Obj string) (spec : ImportSpec) : Obj string :=
  match spec with
  | ImportSpecifier imported local => assign1 m local imported
  | _ => m
  end.

Definition named (spec : ImportSpec) : option string :=
  match spec with
  | ImportSpecifier imported _ => Some imported
  | _ => None
  end.

Lemma record_other m spec k :
  k <> local_name spec -> own (record m spec) k = own m k.
Proof.
  destruct spec as [imported local| |]; cbn [record local_name]; intros H;
    [now apply own_assign1_other|reflexivity|reflexivity].
Qed.

Lemma fold_record_other specs :
  forall m k, ~ In k (map local_name specs) ->
              own (fold_left record specs m) k = own m k.
Proof.
  induction specs as [|spec r IH]; intros m k Hk; [reflexivity|].
  cbn [fold_left]. rewrite IH.
  - apply record_other. intros ->. apply Hk. now left.
  - intros Hin. apply Hk. now right.
Qed.

Lemma fold_record_own specs :
  forall m,
    NoDup (map local_name specs) ->
    forall spec, In spec specs ->
                 (named spec = None -> own m (local_name spec) = None) ->
                 own (fold_left record specs m) (local_name spec) = named spec.
Proof.
  induction specs as [|spec0 r IH]; intros m Hnd spec Hin Hm; [destruct Hin|].
  cbn [map] in Hnd. inversion Hnd as [|? ? Hn0 Hr]; subst.
  cbn [fold_left]. destruct Hin as [->|Hin].
  - rewrite fold_record_other by exact Hn0.
    destruct spec as [imported local| |]; cbn [record local_name named] in *.
    + apply own_assign1_same.
    + now apply Hm.
    + now apply Hm.
  - apply IH; [exact Hr|exact Hin|].
    intros Hnamed. rewrite record_other; [now apply Hm|].
    intros He. apply Hn0. rewrite <- He. now apply in_map.
Qed.

Lemma aliases_own imports spec :
  NoDup (map local_name (rb_specifiers imports)) ->
  In spec (rb_specifiers imports) ->
  own (reactBootstrapImports imports) (local_name spec) = named spec.
Proof.
  intros Hnd Hin. unfold reactBootstrapImports.
  change (fun m spec0 => match spec0 with
                         | ImportSpecifier imported local => assign1 m local imported
                         | _ => m
                         end) with record.
  now apply fold_record_own.
Qed.

Lemma keep_is_unmapped imports spec :
  NoDup (map local_name (rb_specifiers imports)) ->
  In spec (rb_specifiers imports) ->
  keep_specifier (reactBootstrapImports imports) spec = unmapped spec.
Proof.
  intros Hnd Hin. unfold keep_specifier. rewrite (aliases_own _ _ Hnd Hin).
  destruct spec; reflexivity.
Qed.

Lemma filterImport_specifiers aliases l :
  rb_specifiers (flat_map (filterImport aliases) l)
  = filter (keep_specifier aliases) (rb_specifiers l).
Proof.
  unfold rb_specifiers. induction l as [|d r IH]; [reflexivity|].
  cbn [flat_map]. rewrite filter_app, flat_map_app, IH. clear IH.
  cbn [filter]. unfold filterImport.
  destruct (from_react_bootstrap d) eqn:Hd.
  - cbn [flat_map]. rewrite filter_app. f_equal.
    destruct (filter (keep_specifier aliases) (specifiers d)) as [|s0 ss] eqn:Hf;
      [reflexivity|].
    cbn [filter]. unfold from_react_bootstrap at 1. cbn [source].
    unfold from_react_bootstrap in Hd. rewrite Hd. cbn [flat_map specifiers].
    now rewrite app_nil_r.
  - cbn [filter]. rewrite Hd. reflexivity.
Qed.

(** The paths of [componentMap]. *)
Definition from_table (e : Effect) : Prop :=
  match e with SetMuiImport _ path => path = "@mui/material" end.



Lemma manus_request_paths log :
  Forall from_table log ->
  Forall (fun e => snd e = "@mui/material") (muiImports log).
Proof.
  unfold muiImports. intros H.
  assert (Hfold : forall m, Forall (fun e : string * string => snd e = "@mui/material") m ->
                    Forall (fun e : string * string => snd e = "@mui/material")
                           (fold_left (fun m e => match e with
                                                  | SetMuiImport c p => assign1 m c p
                                                  end) log m)).
  { induction H as [|e r He _ IH]; intros m Hm; [exact Hm|].
    cbn [fold_left]. apply IH. destruct e as [c p]. cbn [from_table] in He. subst p.
    apply Forall_forall. intros kv Hin. apply RegexStyles.assign1_In in Hin.
    destruct Hin as [Hin| ->]; [|reflexivity].
    rewrite Forall_forall in Hm. now apply Hm. }
  apply Hfold. constructor.
Qed.

Lemma add_to_paths path c m :
  path = "@mui/material" ->
  Forall (fun e : string * list string => fst e = "@mui/material") m ->
  Forall (fun e : string * list string => fst e = "@mui/material") (add_to path c m).
Proof.
  intros Hp. induction 1 as [|[p cs] r He Hr IH]; cbn [add_to].
  - constructor; [exact Hp|constructor].
  - destruct (String.eqb p path); constructor; assumption.
Qed.

Lemma news_paths existing m :
  Forall (fun e => snd e = "@mui/material") m ->
  Forall (fun e => fst e = "@mui/material") (newMuiImportSpecifiers existing m).
Proof.
  unfold newMuiImportSpecifiers. intros H.
  assert (Hfold : forall acc,
             Forall (fun e : string * list string => fst e = "@mui/material") acc ->
             Forall (fun e : string * list string => fst e = "@mui/material")
                    (fold_left (fun acc e => if mem (fst e) existing then acc
                                             else add_to (snd e) (fst e) acc) m acc)).
  { induction H as [|e r He _ IH]; intros acc Hacc; [exact Hacc|].
    cbn [fold_left]. apply IH. destruct (mem (fst e) existing); [exact Hacc|].
    now apply add_to_paths. }
  apply Hfold. constructor.
Qed.

End ManusImports.

Definition aliased_module : Ast.Program :=
  Ast.mkProgram
    [ Ast.mkImport [ Ast.ImportDefaultSpecifier "RB";
                     Ast.ImportSpecifier "Button" "Btn";
                     Ast.ImportSpecifier "Carousel" "Carousel" ]
                   Ast.Literal "react-bootstrap" ]
    [ Ast.mkStmt Ast.OtherStatement
        [ Ast.JSXElement (Ast.JSXIdentifier "Btn") (Some (Ast.JSXIdentifier "Btn"))
            [ Ast.JSXAttribute "size" (dyn "compact") ] [ Ast.JSXText "Go" ] ] ].

Definition aliased_module_migrated : Ast.Program :=
  Ast.mkProgram
    [ Ast.mkImport [ Ast.ImportDefaultSpecifier "RB";
                     Ast.ImportSpecifier "Carousel" "Carousel" ]
                   Ast.Literal "react-bootstrap";
      Ast.mkImport [ Ast.ImportSpecifier "Button" "Button" ] Ast.Literal "@mui/material" ]
    [ Ast.mkStmt Ast.OtherStatement
        [ Ast.JSXElement (Ast.JSXIdentifier "Button") (Some (Ast.JSXIdentifier "Button"))
            [ Ast.JSXAttribute "size" (lit "medium") ] [ Ast.JSXText "Go" ] ] ].

Example manus_aliased_run :
  RbToMuiManus.transformer aliased_module = Some (Ast.ToSource aliased_module_migrated).
Proof. vm_compute. reflexivity. Qed.

(** X16.  react-bootstrap-to-mui_manus.js, on a module whose imports from
    react-bootstrap bind pairwise distinct local names: whatever
    components the element pass has recorded (each with the path of its
    [componentMap] entry, [@mui/material]), the specifiers that still
    import from react-bootstrap in the import section the script builds
    are those whose imported name has no entry in [componentMap],
    together with the default and namespace imports, in their order. *)
Theorem manus_keeps_unmapped_specifiers imports log :
  NoDup (map Ast.local_name (ManusImports.rb_specifiers imports)) ->
  Forall ManusImports.from_table log ->
  ManusImports.rb_specifiers
    (RbToMuiManus.synthesizeImports (RbToMuiManus.reactBootstrapImports imports) log imports)
  = filter ManusImports.unmapped (ManusImports.rb_specifiers imports).
Proof.
  intros Hnd Hlog. unfold RbToMuiManus.synthesizeImports.
  assert (Hnews : Forall (fun e : string * list string => fst e = "@mui/material")
                    (RbToMuiManus.newMuiImportSpecifiers
                       (RbToMuiManus.existingMuiImports imports)
                       (RbToMuiManus.muiImports log))).
  { now apply ManusImports.news_paths, ManusImports.manus_request_paths. }
  unfold ManusImports.rb_specifiers at 1. rewrite filter_app, flat_map_app.
  assert (Hnone : filter RbToMuiManus.from_react_bootstrap
                    (rev (map RbToMuiManus.importStatement
                            (RbToMuiManus.newMuiImportSpecifiers
                               (RbToMuiManus.existingMuiImports imports)
                               (RbToMuiManus.muiImports log)))) = []).
  { rewrite <- map_rev. apply Forall_rev in Hnews.
    induction Hnews as [|e r He _ IH]; [reflexivity|].
    cbn [map filter]. unfold RbToMuiManus.from_react_bootstrap at 1.
    unfold RbToMuiManus.importStatement at 1. cbn [Ast.source]. rewrite He.
    cbn. exact IH. }
  rewrite Hnone. cbn [flat_map]. rewrite app_nil_r.
  change (flat_map Ast.specifiers
            (filter RbToMuiManus.from_react_bootstrap
               (flat_map (RbToMuiManus.filterImport
                            (RbToMuiManus.reactBootstrapImports imports))
                         imports)))
    with (ManusImports.rb_specifiers
            (flat_map (RbToMuiManus.filterImport
                         (RbToMuiManus.reactBootstrapImports imports))
                      imports)).
  rewrite ManusImports.filterImport_specifiers.
  apply filter_ext_in. intros spec Hin. now apply ManusImports.keep_is_unmapped.
Qed.

Lemma manus_keeps_unmapped_specifiers_witness :
  ManusImports.rb_specifiers
    (RbToMuiManus.synthesizeImports
       (RbToMuiManus.reactBootstrapImports (Ast.imports aliased_module))
       [ RbToMuiManus.SetMuiImport "Button" "@mui/material" ]
       (Ast.imports aliased_module))
  = filter ManusImports.unmapped (ManusImports.rb_specifiers (Ast.imports aliased_module)).
Proof.
  apply (manus_keeps_unmapped_specifiers (Ast.imports aliased_module)
           [ RbToMuiManus.SetMuiImport "Button" "@mui/material" ]).
  - repeat constructor; cbn; intuition discriminate.
  - repeat constructor.
Defined.

(** ** What a walk logs for the elements it meets *)

Section WalkTells.
Import Ast Walk.
Context {E : Type}.
Variable cb : Node -> W E Node.
Variable told : JSXName -> option E.

Hypothesis cb_tells :
  forall o c a kids n' l e,
    cb (JSXElement o c a kids) = Some (n', l) -> told o = Some e -> In e l.




End WalkTells.

Module ManusAdded.
Import Js Ast Walk RbToMuiManus.







(** The new imports hold [c] under [path]. *)
Definition has (path c : string) (acc : list (string * list string)) : Prop :=
  exists cs, In (path, cs) acc /\ In c cs.





End ManusAdded.



(** ** react-bootstrap-to-mui_manus.js: the attributes *)

Module ManusAttrs.
Import Js Ast RbToMuiManus.

(** [propMap[component]] *)
Definition rules_of (component : string) : Obj PropTransformer :=
  match own propMap component with
  | Some rules => rules
  | None => []
  end.

(** An attribute whose name no plain object inherits. *)
Definition ordinary (a : Attr) : bool :=
  match a with
  | JSXAttribute n _ => negb (inherited n)
  | JSXSpreadAttribute _ => true
  end.

Definition all_null (rules : Obj PropTransformer) : Prop :=
  forall k r, own rules k = Some r -> r = Null.

Lemma null_rule_keeps rules a :
  all_null rules -> ordinary a = true -> transformAttr rules a = Some a.
Proof.
  intros Hnull Ha. destruct a as [n v|s]; [|reflexivity].
  unfold transformAttr, get. destruct (own rules n) as [r|] eqn:Ho.
  - now rewrite (Hnull _ _ Ho).
  - cbn [ordinary] in Ha. apply negb_true_iff in Ha. now rewrite Ha.
Qed.

Lemma null_rules_keep rules attrs :
  all_null rules -> forallb ordinary attrs = true -> transformAttrs rules attrs = Some attrs.
Proof.
  intros Hnull. unfold transformAttrs.
  induction attrs as [|a r IH]; intros H; [reflexivity|].
  cbn [forallb] in H. apply andb_true_iff in H. destruct H as [Ha Hr].
  cbn [mapOpt]. rewrite (null_rule_keeps _ _ Hnull Ha), (IH Hr). reflexivity.
Qed.

Lemma input_rules_null : all_null (rules_of "Input").
Proof.
  intros k r. cbn. destruct (String.eqb k "type"); [|discriminate].
  intros H; now inversion H.
Qed.

Lemma formControl_rules_null : all_null (rules_of "FormControl").
Proof.
  intros k r. cbn. destruct (String.eqb k "controlId"); [|discriminate].
  intros H; now inversion H.
Qed.

End ManusAttrs.

(** X18.  The [null] entries of [propMap] in
    react-bootstrap-to-mui_manus.js ([type] of Input, [controlId] of
    FormControl), commented as removing the prop, remove nothing: the test
    that guards the rewriting of an attribute is false for them, so the
    attributes of such an element come back as they were. *)
Theorem manus_null_rules_remove_nothing attrs :
  forallb ManusAttrs.ordinary attrs = true ->
  RbToMuiManus.transformAttrs (ManusAttrs.rules_of "Input") attrs = Some attrs
  /\ RbToMuiManus.transformAttrs (ManusAttrs.rules_of "FormControl") attrs = Some attrs.
Proof.
  intros H. split.
  - apply ManusAttrs.null_rules_keep; [apply ManusAttrs.input_rules_null|exact H].
  - apply ManusAttrs.null_rules_keep; [apply ManusAttrs.formControl_rules_null|exact H].
Qed.

Lemma manus_null_rules_remove_nothing_witness :
  RbToMuiManus.transformAttrs (ManusAttrs.rules_of "Input")
    [ Ast.JSXAttribute "type" (lit "email"); Ast.JSXAttribute "controlId" (lit "mail") ]
  = Some [ Ast.JSXAttribute "type" (lit "email"); Ast.JSXAttribute "controlId" (lit "mail") ]
  /\ RbToMuiManus.transformAttrs (ManusAttrs.rules_of "FormControl")
       [ Ast.JSXAttribute "type" (lit "email"); Ast.JSXAttribute "controlId" (lit "mail") ]
     = Some [ Ast.JSXAttribute "type" (lit "email");
              Ast.JSXAttribute "controlId" (lit "mail") ].
Proof.
  apply (manus_null_rules_remove_nothing
           [ Ast.JSXAttribute "type" (lit "email");
             Ast.JSXAttribute "controlId" (lit "mail") ]).
  reflexivity.
Defined.

(** X19.  react-bootstrap-to-mui_manus.js hands to a rule function the
    value node itself when the node is not tagged [Literal] (a computed
    expression, or a string the parser tags [StringLiteral]): the [size]
    of a Button then becomes the literal [medium], a breakpoint of a Col
    becomes the literal [NaN], and the [variant] of a Button makes the
    transform throw, since the node is no value for a literal. *)
Theorem manus_rewrites_values_it_cannot_read v :
  RbToMuiManus.argument v = RbToMuiManus.ArgNode v ->
  RbToMuiManus.transformAttr (ManusAttrs.rules_of "Button") (Ast.JSXAttribute "size" v)
  = Some (Ast.JSXAttribute "size" (lit "medium"))
  /\ RbToMuiManus.transformAttr (ManusAttrs.rules_of "Col") (Ast.JSXAttribute "md" v)
     = Some (Ast.JSXAttribute "md" (Ast.Bare (Ast.ELiteral Ast.Literal Js.JNaN)))
  /\ RbToMuiManus.transformAttr (ManusAttrs.rules_of "Button") (Ast.JSXAttribute "variant" v)
     = None.
Proof.
  intros H. unfold RbToMuiManus.transformAttr.
  change (Js.get (ManusAttrs.rules_of "Button") "size")
    with (Js.Own (RbToMuiManus.ValueFn RbToMuiManus.buttonSize)).
  change (Js.get (ManusAttrs.rules_of "Button") "variant")
    with (Js.Own (RbToMuiManus.ValueFn RbToMuiManus.buttonVariant)).
  change (Js.get (ManusAttrs.rules_of "Col") "md")
    with (Js.Own (snd (RbToMuiManus.gridSize "md"))).
  cbn [RbToMuiManus.gridSize snd]. rewrite H. repeat split.
Qed.

Lemma manus_rewrites_values_it_cannot_read_witness :
  RbToMuiManus.transformAttr (ManusAttrs.rules_of "Button")
    (Ast.JSXAttribute "size" (dyn "compact ? 'sm' : 'lg'"))
  = Some (Ast.JSXAttribute "size" (lit "medium"))
  /\ RbToMuiManus.transformAttr (ManusAttrs.rules_of "Col")
       (Ast.JSXAttribute "md" (dyn "compact ? 'sm' : 'lg'"))
     = Some (Ast.JSXAttribute "md" (Ast.Bare (Ast.ELiteral Ast.Literal Js.JNaN)))
  /\ RbToMuiManus.transformAttr (ManusAttrs.rules_of "Button")
       (Ast.JSXAttribute "variant" (dyn "compact ? 'sm' : 'lg'"))
     = None.
Proof.
  apply (manus_rewrites_values_it_cannot_read (dyn "compact ? 'sm' : 'lg'")).
  reflexivity.
Defined.

(** ** src/unnamed/part_001: the tree and the new imports *)

Module CardTree.
Import Js Ast Walk CardCodemod.

(** A tree with every tag, opening and closing, taken through [f]. *)
Fixpoint map_names (f : JSXName -> JSXName) (n : Node) : Node :=
  match n with
  | JSXElement o c a kids => JSXElement (f o) (option_map f c) a (map (map_names f) kids)
  | JSXText s => JSXText s
  | JSXExpressionChild inner => JSXExpressionChild (map (map_names f) inner)
  end.

Definition map_body (f : JSXName -> JSXName) (b : list Stmt) : list Stmt :=
  map (fun s => mkStmt (kind s) (map (map_names f) (jsx s))) b.

(** The name that the second pass leaves for [x] under one alias. *)
Definition renamed (alias : string) (x : JSXName) : JSXName :=
  fst (rewrite_name alias x).

Lemma renamed_identifier alias s : renamed alias (JSXIdentifier s) = JSXIdentifier s.
Proof. reflexivity. Qed.

Lemma rewriteCard_renames alias o c a kids :
  exists l, rewriteCard alias (JSXElement o c a kids)
            = Some (JSXElement (renamed alias o) (option_map (renamed alias) c) a kids, l).
Proof.
  unfold rewriteCard, renamed.
  destruct (rewrite_name alias o) as [o' l1].
  destruct c as [x|]; cbn [option_map fst].
  - destruct (rewrite_name alias x) as [x' l2]. eexists. reflexivity.
  - eexists. reflexivity.
Qed.

Lemma mapW_renames alias l :
  Forall (fun n => exists log, forEachElement (rewriteCard alias) n
                               = Some (map_names (renamed alias) n, log)) l ->
  exists log, mapW (forEachElement (rewriteCard alias)) l
              = Some (map (map_names (renamed alias)) l, log).
Proof.
  induction 1 as [|n r [l1 Hn] _ [l2 Hr]]; [exists []; reflexivity|].
  exists (l1 ++ l2). now rewrite mapW_cons, Hn, Hr.
Qed.

Lemma walk_renames alias n :
  exists log, forEachElement (rewriteCard alias) n
              = Some (map_names (renamed alias) n, log).
Proof.
  induction n as [o c a kids IH|s|inner IH] using Node_nested_ind.
  - destruct (mapW_renames alias kids IH) as [below Hk].
    destruct (rewriteCard_renames alias o c a (map (map_names (renamed alias)) kids))
      as [here Hcb].
    exists (here ++ below). rewrite forEachElement_element, Hk, Hcb. reflexivity.
  - exists []. reflexivity.
  - destruct (mapW_renames alias inner IH) as [lg Hk].
    exists lg. rewrite forEachElement_expression, Hk. reflexivity.
Qed.

Lemma forEachRoot_renames alias b :
  exists log, forEachRoot (rewriteCard alias) b = Some (map_body (renamed alias) b, log).
Proof.
  unfold forEachRoot, map_body. induction b as [|s r [lr Hr]]; [exists []; reflexivity|].
  destruct (mapW_renames alias (jsx s)) as [ls Hs].
  { apply Forall_forall. intros n _. apply walk_renames. }
  exists ((ls ++ []) ++ lr). rewrite mapW_cons, Hr. unfold bind, ret. rewrite Hs.
  reflexivity.
Qed.

Lemma map_names_compose f g n :
  map_names g (map_names f n) = map_names (fun x => g (f x)) n.
Proof.
  induction n as [o c a kids IH|s|inner IH] using Node_nested_ind; cbn [map_names].
  - f_equal; [now destruct c|]. rewrite map_map. apply map_ext_in.
    intros k Hk. rewrite Forall_forall in IH. now apply IH.
  - reflexivity.
  - f_equal. rewrite map_map. apply map_ext_in.
    intros k Hk. rewrite Forall_forall in IH. now apply IH.
Qed.

Lemma map_body_compose f g b :
  map_body g (map_body f b) = map_body (fun x => g (f x)) b.
Proof.
  unfold map_body. rewrite map_map. apply map_ext. intros s. cbn [kind jsx].
  f_equal. rewrite map_map. apply map_ext. intros n. apply map_names_compose.
Qed.

Lemma map_names_id n : map_names (fun x => x) n = n.
Proof.
  induction n as [o c a kids IH|s|inner IH] using Node_nested_ind; cbn [map_names].
  - f_equal; [now destruct c|]. rewrite <- (map_id kids) at 2. apply map_ext_in.
    intros k Hk. rewrite Forall_forall in IH. now apply IH.
  - reflexivity.
  - f_equal. rewrite <- (map_id inner) at 2. apply map_ext_in.
    intros k Hk. rewrite Forall_forall in IH. now apply IH.
Qed.

Lemma map_body_id b : map_body (fun x => x) b = b.
Proof.
  unfold map_body. rewrite <- (map_id b) at 2. apply map_ext. intros [k j].
  cbn [kind jsx]. f_equal. rewrite <- (map_id j) at 2. apply map_ext.
  intros n. apply map_names_id.
Qed.

(** The second pass as one renaming. *)
Definition renaming (aliases : list string) : JSXName -> JSXName :=
  fold_left (fun g alias x => renamed alias (g x)) aliases (fun x => x).

Lemma secondPass_renames aliases :
  forall b g, fst (secondPass aliases (map_body g b))
              = map_body (fold_left (fun g alias x => renamed alias (g x)) aliases g) b.
Proof.
  induction aliases as [|alias r IH]; intros b g; [reflexivity|].
  cbn [secondPass fold_left].
  destruct (forEachRoot_renames alias (map_body g b)) as [log Hw]. rewrite Hw.
  rewrite map_body_compose.
  specialize (IH b (fun x => renamed alias (g x))).
  destruct (secondPass r (map_body (fun x => renamed alias (g x)) b)) as [b2 l2].
  exact IH.
Qed.

Lemma renaming_identifier aliases :
  forall g s, g (JSXIdentifier s) = JSXIdentifier s ->
              fold_left (fun g alias x => renamed alias (g x)) aliases g (JSXIdentifier s)
              = JSXIdentifier s.
Proof.
  induction aliases as [|alias r IH]; intros g s Hg; [exact Hg|].
  cbn [fold_left]. apply IH. now rewrite Hg.
Qed.

End CardTree.

(** X20.  The codemod of src/unnamed/part_001 changes nothing in the tree
    but qualified tags: the body it prints is the body it was given with
    every tag taken through one renaming that leaves an identifier as it
    is, so attributes, text, children and the tags that are plain
    identifiers (the local aliases) stay; and with no [Card] among the
    named imports from react-bootstrap the body is the one it was given. *)
Theorem card_codemod_renames_qualified_tags_only p :
  exists q g,
    CardCodemod.transformer p = Ast.ToSource q
    /\ (forall s, g (Ast.JSXIdentifier s) = Ast.JSXIdentifier s)
    /\ Ast.body q = CardTree.map_body g (Ast.body p)
    /\ (CardCodemod.cardAliases (snd (CardCodemod.firstPass (Ast.imports p))) = [] ->
        Ast.body q = Ast.body p).
Proof.
  unfold CardCodemod.transformer.
  destruct (CardCodemod.firstPass (Ast.imports p)) as [imports1 log1]. cbn [snd].
  pose proof (CardTree.secondPass_renames (CardCodemod.cardAliases log1) (Ast.body p)
                (fun x => x)) as Hs.
  rewrite CardTree.map_body_id in Hs.
  destruct (CardCodemod.secondPass (CardCodemod.cardAliases log1) (Ast.body p))
    as [body2 log2].
  cbn [fst] in Hs. eexists. eexists. split; [reflexivity|]. cbn [Ast.body].
  split; [|split; [exact Hs|]].
  - intros s. now apply CardTree.renaming_identifier.
  - intros Ha. rewrite Hs, Ha. apply CardTree.map_body_id.
Qed.

Module CardRebind.
Import Js Ast Walk CardCodemod.

(** Some import from [src] has a named specifier that binds [local]. *)
Definition provides (src local : string) (l : list ImportDeclaration) : Prop :=
  exists d, In d l /\ source d = src /\ has_local local (specifiers d) = true.

Lemma same_item_eq a b : same_item a b = true -> a = b.
Proof.
  unfold same_item. intros H. apply andb_true_iff in H. destruct H as [H1 H2].
  apply String.eqb_eq in H1, H2. destruct a, b. cbn in *. now subst.
Qed.

Lemma has_local_app l specs more :
  has_local l specs = true -> has_local l (specs ++ more) = true.
Proof. unfold has_local. intros H. now rewrite existsb_app, H. Qed.

Lemma add_items_keeps items :
  forall specs l, has_local l specs = true -> has_local l (add_items items specs) = true.
Proof.
  unfold add_items. induction items as [|i r IH]; intros specs l H; [exact H|].
  cbn [fold_left]. apply IH. destruct (has_local (localName i) specs); [exact H|].
  now apply has_local_app.
Qed.

Lemma add_items_adds items :
  forall specs item, In item items ->
                     has_local (localName item) (add_items items specs) = true.
Proof.
  induction items as [|i r IH]; intros specs item Hin; [destruct Hin|].
  destruct Hin as [->|Hin].
  - unfold add_items. cbn [fold_left].
    change (fold_left _ r ?acc) with (add_items r acc).
    apply add_items_keeps.
    destruct (has_local (localName item) specs) eqn:Hh; [exact Hh|].
    unfold has_local. rewrite existsb_app. cbn [existsb specifier_of].
    rewrite String.eqb_refl. now rewrite !orb_true_r.
  - unfold add_items. cbn [fold_left].
    change (fold_left _ r ?acc) with (add_items r acc). now apply IH.
Qed.

Lemma merge_provides src items :
  forall ds l' item,
    merge_into_existing src items ds = Some l' ->
    In item items -> provides src (localName item) l'.
Proof.
  induction ds as [|d r IH]; intros l' item H Hin; [discriminate|].
  cbn [merge_into_existing] in H.
  destruct (source_kind d) eqn:Hk.
  - destruct (String.eqb (source d) src) eqn:Hs.
    + inversion H; subst. eexists. split; [now left|]. cbn [source specifiers].
      split; [reflexivity|]. now apply add_items_adds.
    + destruct (merge_into_existing src items r) as [r'|] eqn:Hr; [|discriminate].
      inversion H; subst. destruct (IH _ _ eq_refl Hin) as (d' & Hd & Hsrc & Hl).
      exists d'. split; [now right|auto].
  - destruct (merge_into_existing src items r) as [r'|] eqn:Hr; [|discriminate].
    inversion H; subst. destruct (IH _ _ eq_refl Hin) as (d' & Hd & Hsrc & Hl).
    exists d'. split; [now right|auto].
Qed.

Lemma merge_keeps src items s l :
  forall ds l',
    merge_into_existing src items ds = Some l' ->
    provides s l ds -> provides s l l'.
Proof.
  induction ds as [|d r IH]; intros l' H Hp; [discriminate|].
  cbn [merge_into_existing] in H.
  assert (Hrest : forall r', merge_into_existing src items r = Some r' ->
                             provides s l (d :: r')).
  { intros r' Hr. destruct Hp as (d0 & [->|Hd] & Hsrc & Hl).
    - exists d0. split; [now left|auto].
    - destruct (IH _ Hr) as (d1 & Hd1 & Hs1 & Hl1).
      + exists d0. auto.
      + exists d1. split; [now right|auto]. }
  destruct (source_kind d).
  - destruct (String.eqb (source d) src) eqn:Hs.
    + inversion H; subst. apply String.eqb_eq in Hs.
      destruct Hp as (d0 & [->|Hd] & Hsrc & Hl).
      * eexists. split; [now left|]. cbn [source specifiers].
        split; [congruence|]. now apply add_items_keeps.
      * exists d0. split; [now right|auto].
    + destruct (merge_into_existing src items r) as [r'|]; [|discriminate].
      inversion H; subst. now apply Hrest.
  - destruct (merge_into_existing src items r) as [r'|]; [|discriminate].
    inversion H; subst. now apply Hrest.
Qed.

Lemma insertImport_provides imports e item :
  In item (snd e) -> provides (fst e) (localName item) (insertImport imports e).
Proof.
  intros Hin. unfold insertImport.
  destruct (snd e) as [|i r] eqn:He; [destruct Hin|].
  destruct (merge_into_existing (fst e) (i :: r) imports) as [l'|] eqn:Hm.
  - eapply merge_provides; eauto.
  - eexists. split; [now left|]. cbn [source specifiers]. split; [reflexivity|].
    unfold has_local. apply existsb_exists. exists (specifier_of item).
    split; [now apply in_map|]. cbn [specifier_of]. apply String.eqb_refl.
Qed.

Lemma insertImport_keeps imports e s l :
  provides s l imports -> provides s l (insertImport imports e).
Proof.
  intros Hp. unfold insertImport.
  destruct (snd e) as [|i r]; [exact Hp|].
  destruct (merge_into_existing (fst e) (i :: r) imports) as [l'|] eqn:Hm.
  - eapply merge_keeps; eauto.
  - destruct Hp as (d & Hd & Hs & Hl). exists d. split; [now right|auto].
Qed.

Lemma fold_insert_keeps m s l :
  forall imports, provides s l imports -> provides s l (fold_left insertImport m imports).
Proof.
  induction m as [|e r IH]; intros imports H; [exact H|].
  cbn [fold_left]. apply IH. now apply insertImport_keeps.
Qed.

Lemma fold_insert_provides m src items item :
  In (src, items) m -> In item items ->
  forall imports, provides src (localName item) (fold_left insertImport m imports).
Proof.
  intros Hm Hi. induction m as [|e r IH]; intros imports; [destruct Hm|].
  cbn [fold_left]. destruct Hm as [->|Hm]; [|now apply IH].
  apply fold_insert_keeps. now apply (insertImport_provides imports (src, items) item).
Qed.

(** The scheduled imports hold [item] under [src]. *)
Definition scheduled (src : string) (item : Item) (m : list (string * list Item)) : Prop :=
  exists items, In (src, items) m /\ In item items.

Lemma schedule_scheduled src item m : scheduled src item (schedule src item m).
Proof.
  induction m as [|[s items] r IH]; cbn [schedule].
  - exists [item]. split; now left.
  - destruct (String.eqb s src) eqn:Hs.
    + apply String.eqb_eq in Hs. subst s.
      destruct (existsb (same_item item) items) eqn:He.
      * apply existsb_exists in He. destruct He as [x [Hx Hsame]].
        apply same_item_eq in Hsame. subst x.
        exists items. split; [now left|exact Hx].
      * exists (items ++ [item]). split; [now left|]. apply in_or_app. right. now left.
    + destruct IH as [items' [Hin Hi]]. exists items'. split; [now right|exact Hi].
Qed.

Lemma schedule_keeps src item s0 i0 m :
  scheduled s0 i0 m -> scheduled s0 i0 (schedule src item m).
Proof.
  intros [items0 [Hin Hi]]. induction m as [|[s items] r IH]; [destruct Hin|].
  cbn [schedule]. destruct Hin as [He|Hin].
  - inversion He; subst. destruct (String.eqb s0 src).
    + destruct (existsb (same_item item) items0).
      * exists items0. split; [now left|exact Hi].
      * exists (items0 ++ [item]). split; [now left|]. apply in_or_app. now left.
    + exists items0. split; [now left|exact Hi].
  - destruct (String.eqb s src).
    + exists items0. split; [now right|exact Hi].
    + destruct (IH Hin) as [items' [Hin' Hi']]. exists items'. split; [now right|exact Hi'].
Qed.

Lemma newImports_scheduled log src item :
  In (Schedule src item) log -> scheduled src item (newImports log).
Proof.
  unfold newImports.
  assert (Hkeep : forall l m, scheduled src item m ->
                    scheduled src item
                      (fold_left (fun m e => match e with
                                             | Schedule s i => schedule s i m
                                             | _ => m
                                             end) l m)).
  { induction l as [|e r IH]; intros m Hm; [exact Hm|].
    cbn [fold_left]. apply IH. destruct e; try exact Hm. now apply schedule_keeps. }
  generalize (@nil (string * list Item)).
  induction log as [|e r IH]; intros m Hin; [destruct Hin|].
  cbn [fold_left]. destruct Hin as [->|Hin]; [|now apply IH].
  apply Hkeep, schedule_scheduled.
Qed.

Lemma firstPass_schedules imports d imported local r :
  In d imports -> from_react_bootstrap d = true ->
  In (ImportSpecifier imported local) (specifiers d) ->
  own REPLACEMENTS imported = Some r ->
  In (Schedule (importSource r) (mkItem (newName r) local)) (snd (firstPass imports)).
Proof.
  intros Hd Hrb Hs Ho. unfold firstPass. cbn [snd].
  apply in_flat_map. exists d. split; [exact Hd|].
  unfold rewriteImport. rewrite Hrb. cbn [snd].
  apply in_flat_map. exists (ImportSpecifier imported local). split; [exact Hs|].
  cbn [visit_specifier]. rewrite Ho. cbn [snd]. apply in_or_app. right. now left.
Qed.

End CardRebind.

Definition card_alias_module : Ast.Program :=
  Ast.mkProgram
    [ Ast.mkImport [ Ast.ImportSpecifier "Card" "BSCard";
                     Ast.ImportSpecifier "Accordion" "Accordion" ]
                   Ast.Literal "react-bootstrap" ]
    [ Ast.mkStmt Ast.OtherStatement
        [ Ast.JSXElement (Ast.JSXIdentifier "BSCard") (Some (Ast.JSXIdentifier "BSCard")) []
            [ Ast.JSXElement (Ast.JSXMemberExpression (Ast.JSXIdentifier "BSCard") "Body")
                (Some (Ast.JSXMemberExpression (Ast.JSXIdentifier "BSCard") "Body"))
                [ Ast.JSXAttribute "className" (lit "p-3") ] [] ] ] ].

Definition card_alias_module_migrated : Ast.Program :=
  Ast.mkProgram
    [ Ast.mkImport [ Ast.ImportSpecifier "CardContent" "CardContent" ] Ast.Literal
        "@mui/material/CardContent";
      Ast.mkImport [ Ast.ImportSpecifier "Card" "BSCard" ] Ast.Literal "@mui/material/Card";
      Ast.mkImport [ Ast.ImportSpecifier "Accordion" "Accordion" ] Ast.Literal
        "react-bootstrap" ]
    [ Ast.mkStmt Ast.OtherStatement
        [ Ast.JSXElement (Ast.JSXIdentifier "BSCard") (Some (Ast.JSXIdentifier "BSCard")) []
            [ Ast.JSXElement (Ast.JSXIdentifier "CardContent")
                (Some (Ast.JSXIdentifier "CardContent"))
                [ Ast.JSXAttribute "className" (lit "p-3") ] [] ] ] ].

Example card_alias_run :
  CardCodemod.transformer card_alias_module = Ast.ToSource card_alias_module_migrated.
Proof. vm_compute. reflexivity. Qed.

(** X21.  The codemod of src/unnamed/part_001 keeps the local aliases
    bound: for every named import from react-bootstrap whose imported name
    is a key of [REPLACEMENTS], the module it prints has an import from the
    module path of the replacement with a named specifier that binds the
    same local name. *)
Theorem card_codemod_rebinds_migrated_names p d imported local r :
  In d (Ast.imports p) ->
  CardCodemod.from_react_bootstrap d = true ->
  In (Ast.ImportSpecifier imported local) (Ast.specifiers d) ->
  Js.own CardCodemod.REPLACEMENTS imported = Some r ->
  exists q,
    CardCodemod.transformer p = Ast.ToSource q
    /\ CardRebind.provides (CardCodemod.importSource r) local (Ast.imports q).
Proof.
  intros Hd Hrb Hs Ho.
  pose proof (CardRebind.firstPass_schedules _ _ _ _ _ Hd Hrb Hs Ho) as Hlog.
  unfold CardCodemod.transformer.
  destruct (CardCodemod.firstPass (Ast.imports p)) as [imports1 log1]. cbn [snd] in Hlog.
  destruct (CardCodemod.secondPass (CardCodemod.cardAliases log1) (Ast.body p))
    as [body2 log2].
  eexists. split; [reflexivity|]. cbn [Ast.imports].
  assert (Hsch : CardRebind.scheduled (CardCodemod.importSource r)
                   (CardCodemod.mkItem (CardCodemod.newName r) local)
                   (CardCodemod.newImports (log1 ++ log2))).
  { apply CardRebind.newImports_scheduled. apply in_or_app. now left. }
  destruct Hsch as [items [Hin Hi]].
  exact (CardRebind.fold_insert_provides _ _ _ _ Hin Hi imports1).
Qed.

Lemma card_codemod_rebinds_migrated_names_witness :
  exists q,
    CardCodemod.transformer card_alias_module = Ast.ToSource q
    /\ CardRebind.provides (CardCodemod.importSource (CardCodemod.mui "Card")) "BSCard"
         (Ast.imports q).
Proof.
  apply (card_codemod_rebinds_migrated_names card_alias_module
           (Ast.mkImport [ Ast.ImportSpecifier "Card" "BSCard";
                           Ast.ImportSpecifier "Accordion" "Accordion" ]
                         Ast.Literal "react-bootstrap")
           "Card" "BSCard" (CardCodemod.mui "Card")).
  - left. reflexivity.
  - reflexivity.
  - left. reflexivity.
  - reflexivity.
Defined.

(** ** react-bootstrap-to-mui_gemini2.js, second script: the element passes *)

Module GeminiElements.
Import Js Ast.

(** [j.jsxAttribute(j.jsxIdentifier(n), j.literal(s))] *)
Definition literalAttr (n s : string) : Attr :=
  JSXAttribute n (Bare (ELiteral Literal (JString s))).

(** *** transformAlert *)

Definition variantMap : Obj string :=
  [ ("primary", "info"); ("secondary", "info"); ("success", "success");
    ("danger", "error"); ("warning", "warning"); ("info", "info");
    ("light", "info"); ("dark", "info") ].

(** The callback of [attrs.forEach] in [transformAlert].  [val] is
    [attr.value.value] when [attr.value.type === 'Literal'] and [null]
    otherwise; [variantMap[val] || 'info'] finds an entry under a string
    only (a number, a boolean or [null] is spelled as a key the object
    lacks), and [j.literal] rejects what a name of [Object.prototype]
    gives. *)
Definition alertAttr (attr : Attr) : option Attr :=
  match attr with
  | JSXAttribute n v =>
      if String.eqb n "variant" then
        match v with
        | Bare (ELiteral Literal (JString val)) =>
            match get variantMap val with
            | Own sev =>
                Some (literalAttr "severity" (if is_empty sev then "info" else sev))
            | Inherited => None
            | Undefined => Some (literalAttr "severity" "info")
            end
        | _ => Some (literalAttr "severity" "info")
        end
      else Some attr
  | JSXSpreadAttribute _ => Some attr
  end.

(** [element.attributes] at the end of [transformAlert]. *)
Definition alertAttrs (attrs : list Attr) : option (list Attr) :=
  mapOpt alertAttr attrs.

(** *** transformContainer *)

(** [j.jsxAttribute(j.jsxIdentifier('maxWidth'),
    j.jsxExpressionContainer(j.booleanLiteral(false)))] *)
Definition maxWidthFalse : Attr :=
  JSXAttribute "maxWidth" (JSXExpressionContainer (ELiteral Typed (JBool false))).

Definition containerAttr (attr : Attr) : list Attr :=
  match attr with
  | JSXAttribute n v =>
      if String.eqb n "fluid" then
        match v with
        | NoValue => [maxWidthFalse]
        | Bare (ELiteral Literal (JBool true)) => [maxWidthFalse]
        | _ => []
        end
      else [attr]
  | JSXSpreadAttribute _ => [attr]
  end.

(** [path.node.openingElement.attributes] at the end of
    [transformContainer]. *)
Definition containerAttrs (attrs : list Attr) : list Attr :=
  flat_map containerAttr attrs.

(** *** transformGridElements: the Col part *)

(** [s.split(/\s+/)]: the pieces between the runs of white space; a run
    at either end gives an empty piece there. *)
Fixpoint split_ws_aux (cur : string) (in_run : bool) (s : string) : list string :=
  match s with
  | EmptyString => [cur]
  | String c r =>
      if is_space c
      then if in_run then split_ws_aux EmptyString true r
           else cur :: split_ws_aux EmptyString true r
      else split_ws_aux (cur ++ String c EmptyString) false r
  end.

Definition split_ws (s : string) : list string := split_ws_aux EmptyString false s.

Definition breakpoints : list string := [ "xs"; "sm"; "md"; "lg"; "xl" ].

(** [a.type === 'JSXAttribute' && ['xs', 'sm', 'md', 'lg', 'xl'].includes(a.name.name)] *)
Definition is_breakpoint (a : Attr) : bool :=
  match a with
  | JSXAttribute n _ => mem n breakpoints
  | JSXSpreadAttribute _ => false
  end.

(** [j.jsxAttribute(j.jsxIdentifier(br), j.jsxExpressionContainer(j.literal(size)))] *)
Definition sizeAttr (br : string) (size : Value) : Attr :=
  JSXAttribute br (JSXExpressionContainer (ELiteral Literal size)).

(** [tok.match(/^col-(\d+)$/)], giving [Number(m[1])]. *)
Definition col_size (tok : string) : option Value :=
  match strip_prefix "col-" tok with
  | Some d => option_map of_integer (digits_value d)
  | None => None
  end.

(** The alternatives of [(xs|sm|md|lg|xl)] in turn, each followed by
    [-(\d+)$]; the breakpoint and [Number(m[2])]. *)
Fixpoint first_break (brs : list string) (rest : string) : option (string * Value) :=
  match brs with
  | [] => None
  | br :: more =>
      match strip_prefix (br ++ "-") rest with
      | Some d =>
          match digits_value d with
          | Some n => Some (br, of_integer n)
          | None => first_break more rest
          end
      | None => first_break more rest
      end
  end.

(** [tok.match(/^col-(xs|sm|md|lg|xl)-(\d+)$/)] *)
Definition col_break (tok : string) : option (string * Value) :=
  match strip_prefix "col-" tok with
  | Some rest => first_break breakpoints rest
  | None => None
  end.

(** The callback of [tokens.forEach]. *)
Definition tokenAttrs (tok : string) : list Attr :=
  (match col_size tok with Some size => [sizeAttr "xs" size] | None => [] end)
  ++ (match col_break tok with Some (br, size) => [sizeAttr br size] | None => [] end).

(** [cls] of a [className] attribute: reading [classAttr.value.type]
    throws when the attribute has no value, and [cls.split] when the
    literal holds something other than a string. *)
Definition colClasses (v : AttrValue) : option string :=
  match v with
  | NoValue => None
  | Bare (ELiteral Literal (JString s)) => Some s
  | Bare (ELiteral Literal _) => None
  | JSXExpressionContainer (ELiteral Literal (JString s)) => Some s
  | JSXExpressionContainer (ELiteral Literal _) => None
  | _ => Some EmptyString
  end.

Definition itemAttr : Attr := JSXAttribute "item" NoValue.

(** [p.node.openingElement.attributes] at the end of the callback for a
    [Col]. *)
Definition colAttrs (attrs : list Attr) : option (list Attr) :=
  let newAttrs := itemAttr :: filter is_breakpoint attrs in
  match find (attr_named "className") attrs with
  | Some (JSXAttribute _ v) =>
      match colClasses v with
      | Some cls => Some (newAttrs ++ flat_map tokenAttrs (split_ws cls))
      | None => None
      end
  | _ => Some newAttrs
  end.

(** *** transformButton *)

Definition bootstrapVariantMap : Obj (string * string) :=
  [ ("primary", ("contained", "primary")); ("secondary", ("contained", "secondary"));
    ("success", ("contained", "success")); ("danger", ("contained", "error"));
    ("warning", ("contained", "warning")); ("info", ("contained", "info"));
    ("light", ("outlined", "inherit")); ("dark", ("outlined", "inherit"));
    ("link", ("text", "primary"));
    ("outline-primary", ("outlined", "primary"));
    ("outline-secondary", ("outlined", "secondary"));
    ("outline-success", ("outlined", "success"));
    ("outline-danger", ("outlined", "error"));
    ("outline-warning", ("outlined", "warning"));
    ("outline-info", ("outlined", "info")) ].

Definition sizeMap : Obj string := [ ("sm", "small"); ("lg", "large") ].

(** What the first loop leaves in [variantProp], [sizeProp] or
    [classNameAttr]: the value of the last attribute of that name. *)
Definition last_named (n : string) (attrs : list Attr) : option AttrValue :=
  fold_left (fun acc a => match a with
                          | JSXAttribute n' v => if String.eqb n' n then Some v else acc
                          | JSXSpreadAttribute _ => acc
                          end) attrs None.

(** [otherAttrs] *)
Definition other (a : Attr) : bool :=
  negb (attr_named "variant" a || attr_named "size" a || attr_named "className" a).

(** [prop && prop.value && prop.value.type === 'Literal'], then
    [prop.value.value]; [None] is [undefined]. *)
Definition literalOf (v : option AttrValue) : option Value :=
  match v with
  | Some (Bare (ELiteral Literal p)) => Some p
  | _ => None
  end.

Definition truthy := GeminiTransform.truthy.

(** The callback of [classes.forEach] on [(bsVariant, bsSize)]. *)
Definition classStep (st : option Value * option Value) (c : string)
  : option Value * option Value :=
  let (bsVariant, bsSize) := st in
  (match strip_prefix "btn-" c with
   | Some rest => if truthy bsVariant then bsVariant else Some (JString rest)
   | None => bsVariant
   end,
   if negb (truthy bsSize) && (String.eqb c "btn-sm" || String.eqb c "btn-lg")
   then match strip_prefix "btn-" c with
        | Some rest => Some (JString rest)
        | None => bsSize
        end
   else bsSize).

(** [classString] of the Button's [className]; [classString.split] exists
    on a string only. *)
Definition buttonClasses (v : AttrValue) : option string :=
  match v with
  | Bare (ELiteral Literal (JString s)) => Some s
  | Bare (ELiteral Literal _) => None
  | JSXExpressionContainer (ELiteral Literal (JString s)) => Some s
  | JSXExpressionContainer (ELiteral Literal _) => None
  | _ => Some EmptyString
  end.

(** [bsVariant] and [bsSize] once the props and the class names are read. *)
Definition inferred (attrs : list Attr) : option (option Value * option Value) :=
  let bsVariant := literalOf (last_named "variant" attrs) in
  let bsSize := literalOf (last_named "size" attrs) in
  if negb (truthy bsVariant) || negb (truthy bsSize) then
    match last_named "className" attrs with
    | None | Some NoValue => Some (bsVariant, bsSize)
    | Some v =>
        match buttonClasses v with
        | Some classString =>
            Some (fold_left classStep (split_ws classString) (bsVariant, bsSize))
        | None => None
        end
    end
  else Some (bsVariant, bsSize).

(** [if (bsVariant && bootstrapVariantMap[bsVariant]) { ... }]: a name of
    [Object.prototype] gives a value without [variant] and [color], which
    [j.literal] rejects. *)
Definition variantAttrs (bsVariant : option Value) : option (list Attr) :=
  match bsVariant with
  | Some (JString s) =>
      if is_empty s then Some []
      else match get bootstrapVariantMap s with
           | Own (variant, color) =>
               Some [ literalAttr "variant" variant; literalAttr "color" color ]
           | Inherited => None
           | Undefined => Some []
           end
  | _ => Some []
  end.

(** [if (bsSize && sizeMap[bsSize]) { ... }] *)
Definition sizeAttrs (bsSize : option Value) : option (list Attr) :=
  match bsSize with
  | Some (JString s) =>
      if is_empty s then Some []
      else match get sizeMap s with
           | Own size => if is_empty size then Some [] else Some [ literalAttr "size" size ]
           | Inherited => None
           | Undefined => Some []
           end
  | _ => Some []
  end.

(** [element.attributes] at the end of [transformButton]. *)
Definition buttonAttrs (attrs : list Attr) : option (list Attr) :=
  match inferred attrs with
  | None => None
  | Some (bsVariant, bsSize) =>
      match variantAttrs bsVariant, sizeAttrs bsSize with
      | Some vs, Some ss =>
          Some ((if truthy bsVariant then [] else [ literalAttr "variant" "text" ])
                ++ filter other attrs ++ vs ++ ss)
      | _, _ => None
      end
  end.

(** *** The imports: step 2 and insertMuiImports *)

(** [src === 'react-bootstrap' || src.includes('bootstrap')] is the second
    test alone; [contains] is [includes]. *)
Fixpoint contains (needle s : string) : bool :=
  match strip_prefix needle s with
  | Some _ => true
  | None => match s with
            | EmptyString => false
            | String _ r => contains needle r
            end
  end.

Definition from_bootstrap (d : ImportDeclaration) : bool :=
  contains "bootstrap" (source d).

(** [src.startsWith('@mui/material/')] *)
Definition under_mui (d : ImportDeclaration) : bool :=
  startsWith (source d) "@mui/material/".

(** [j.importDeclaration([j.importDefaultSpecifier(j.identifier(name))],
    j.literal(`@mui/material/${name}`))] *)
Definition muiImport (name : string) : ImportDeclaration :=
  mkImport [ImportDefaultSpecifier name] Literal ("@mui/material/" ++ name).

(** [insertMuiImports()] for the components [muiImports] holds, in the
    order they were added. *)
Definition insertMuiImports (muiImports : list string)
           (imports : list ImportDeclaration) : list ImportDeclaration :=
  map muiImport muiImports ++ filter (fun d => negb (under_mui d)) imports.

(** The import section of the printed module: step 2, then
    [insertMuiImports]. *)
Definition printedImports (muiImports : list string)
           (imports : list ImportDeclaration) : list ImportDeclaration :=
  insertMuiImports muiImports (filter (fun d => negb (from_bootstrap d)) imports).

End GeminiElements.

Module GeminiFacts.
Import Js Ast GeminiElements.

Definition severities : list string := [ "info"; "success"; "error"; "warning" ].

(** The value is a string written without braces and tagged [Literal]. *)
Definition plain_string (a : Attr) : bool :=
  match a with
  | JSXAttribute _ (Bare (ELiteral Literal (JString _))) => true
  | _ => false
  end.

Definition becomes (a b : Attr) : Prop :=
  (attr_named "variant" a = false /\ b = a)
  \/ (attr_named "variant" a = true
      /\ exists s, In s severities /\ b = literalAttr "severity" s
                   /\ (plain_string a = false -> s = "info"%string)).

Lemma alertAttr_becomes a b : alertAttr a = Some b -> becomes a b.
Proof.
  destruct a as [n v|s]; [|intros H; inversion H; left; split; reflexivity].
  unfold alertAttr. destruct (String.eqb n "variant") eqn:Hn;
    [|intros H; inversion H; left; split; [exact Hn|reflexivity]].
  intros H. right. split; [exact Hn|].
  assert (Hinfo : exists s, In s severities
                            /\ literalAttr "severity" "info" = literalAttr "severity" s
                            /\ (plain_string (JSXAttribute n v) = false -> s = "info"%string)).
  { exists "info"%string. split; [now left|]. split; [reflexivity|]. intros _. reflexivity. }
  destruct v as [|e|e]; try (inversion H; subst; exact Hinfo).
  destruct e as [k p|ps|src]; try (inversion H; subst; exact Hinfo).
  destruct k; try (inversion H; subst; exact Hinfo).
  destruct p as [val| | | |]; try (inversion H; subst; exact Hinfo).
  unfold get in H. destruct (own variantMap val) as [sev|] eqn:Ho.
  - inversion H; subst. apply own_values in Ho.
    exists (if is_empty sev then "info"%string else sev).
    split; [|split; [reflexivity|intros Hp; discriminate Hp]].
    cbn in Ho. unfold severities.
    repeat (destruct Ho as [<-|Ho]; [cbn; tauto|]). destruct Ho.
  - destruct (inherited val); [discriminate|]. inversion H; subst. exact Hinfo.
Qed.

(** A [fluid] that has a value other than a bare literal: [fluid={...}] or
    [fluid="md"]. *)
Definition valued (a : Attr) : bool :=
  match a with
  | JSXAttribute _ (JSXExpressionContainer _) => true
  | JSXAttribute _ (Bare (ELiteral _ (JString _))) => true
  | _ => false
  end.

Definition not_fluid (a : Attr) : bool := negb (attr_named "fluid" a).

Lemma containerAttr_no_fluid a :
  existsb (attr_named "fluid") (containerAttr a) = false.
Proof.
  destruct a as [n v|s]; [|reflexivity]. unfold containerAttr.
  destruct (String.eqb n "fluid") eqn:Hn.
  - destruct v as [|[[|] [| | | |[|]]| |]|]; reflexivity.
  - cbn [existsb attr_named]. now rewrite Hn.
Qed.

Lemma containerAttr_valued a :
  (attr_named "fluid" a = true -> valued a = true) ->
  containerAttr a = filter not_fluid [a].
Proof.
  destruct a as [n v|s]; [|reflexivity]. unfold containerAttr, not_fluid.
  cbn [filter attr_named]. destruct (String.eqb n "fluid"); [|reflexivity].
  intros H. specialize (H eq_refl). cbn [negb].
  destruct v as [|[[|] [| | | |[|]]| |]|]; try reflexivity; discriminate H.
Qed.

(** The attribute is read off the class name [tok]: [col-<digits>] gives
    [xs], [col-<breakpoint>-<digits>] gives that breakpoint, each with the
    Number the digits spell. *)
Definition read_off (tok : string) (a : Attr) : Prop :=
  exists d n,
    digits_value d = Some n
    /\ ((tok = ("col-" ++ d)%string /\ a = sizeAttr "xs" (of_integer n))
        \/ exists br, In br breakpoints
                      /\ tok = ("col-" ++ br ++ "-" ++ d)%string
                      /\ a = sizeAttr br (of_integer n)).

(** The class names the Col callback goes through. *)
Definition class_tokens (attrs : list Attr) : list string :=
  match find (attr_named "className") attrs with
  | Some (JSXAttribute _ v) =>
      match colClasses v with
      | Some cls => split_ws cls
      | None => []
      end
  | _ => []
  end.

Lemma strip_prefix_inv p :
  forall s r, strip_prefix p s = Some r -> s = (p ++ r)%string.
Proof.
  induction p as [|c p IH]; intros s r H; cbn [strip_prefix] in H.
  - now inversion H.
  - destruct s as [|c' s']; [discriminate|].
    destruct (Ascii.eqb c c') eqn:Hc; [|discriminate].
    apply Ascii.eqb_eq in Hc. subst c'. cbn [append]. f_equal. now apply IH.
Qed.

Lemma strip_prefix_append p r : strip_prefix p (p ++ r) = Some r.
Proof.
  induction p as [|c p IH]; [reflexivity|].
  cbn [strip_prefix append]. now rewrite Ascii.eqb_refl.
Qed.

Lemma append_assoc (a b c : string) : ((a ++ b) ++ c = a ++ (b ++ c))%string.
Proof. induction a as [|x a IH]; cbn [append]; [reflexivity|now rewrite IH]. Qed.

Lemma first_break_sound brs rest br v :
  first_break brs rest = Some (br, v) ->
  In br brs /\ exists d n, digits_value d = Some n
                           /\ rest = (br ++ "-" ++ d)%string /\ v = of_integer n.
Proof.
  induction brs as [|b more IH]; [discriminate|]. cbn [first_break].
  destruct (strip_prefix (b ++ "-") rest) as [d|] eqn:Hp.
  - destruct (digits_value d) as [m|] eqn:Hd.
    + intros H. inversion H; subst. split; [now left|].
      exists d, m. split; [exact Hd|]. split; [|reflexivity].
      apply strip_prefix_inv in Hp. now rewrite append_assoc in Hp.
    + intros H. destruct (IH H) as [Hin Hrest]. split; [now right|exact Hrest].
  - intros H. destruct (IH H) as [Hin Hrest]. split; [now right|exact Hrest].
Qed.

Lemma first_break_complete br d n :
  In br breakpoints -> digits_value d = Some n ->
  first_break breakpoints (br ++ "-" ++ d) = Some (br, of_integer n).
Proof.
  intros Hin Hd. unfold breakpoints in *. cbn [In] in Hin.
  repeat (destruct Hin as [<-|Hin];
          [cbn [first_break append strip_prefix Ascii.eqb Bool.eqb];
           now rewrite Hd|]).
  destruct Hin.
Qed.

Lemma tokenAttrs_read_off tok a : In a (tokenAttrs tok) <-> read_off tok a.
Proof.
  unfold tokenAttrs, read_off. split.
  - intros H. apply in_app_or in H. destruct H as [H|H].
    + unfold col_size in H. destruct (strip_prefix "col-" tok) as [d|] eqn:Hp; [|destruct H].
      destruct (digits_value d) as [n|] eqn:Hd; [|destruct H].
      cbn [option_map] in H. destruct H as [<-|[]].
      exists d, n. split; [exact Hd|]. left. split; [|reflexivity].
      now apply strip_prefix_inv.
    + unfold col_break in H. destruct (strip_prefix "col-" tok) as [rest|] eqn:Hp; [|destruct H].
      destruct (first_break breakpoints rest) as [[br v]|] eqn:Hb; [|destruct H].
      destruct H as [<-|[]].
      destruct (first_break_sound _ _ _ _ Hb) as [Hin [d [n [Hd [-> ->]]]]].
      exists d, n. split; [exact Hd|]. right. exists br. split; [exact Hin|].
      split; [|reflexivity]. now apply strip_prefix_inv.
  - intros [d [n [Hd [[-> ->]|[br [Hin [-> ->]]]]]]]; apply in_or_app.
    + left. unfold col_size. rewrite strip_prefix_append, Hd. now left.
    + right. unfold col_break. rewrite strip_prefix_append.
      rewrite (first_break_complete _ _ _ Hin Hd). now left.
Qed.

Lemma read_off_breakpoint tok a : read_off tok a -> is_breakpoint a = true.
Proof.
  intros [d [n [_ [[_ ->]|[br [Hin [_ ->]]]]]]]; [reflexivity|].
  unfold sizeAttr, is_breakpoint. unfold breakpoints in *. cbn in Hin.
  repeat (destruct Hin as [<-|Hin]; [reflexivity|]). destruct Hin.
Qed.

Definition generated (a : Attr) : Prop :=
  exists n s, In n [ "variant"; "color"; "size" ]%string /\ a = literalAttr n s.

Lemma generated_not_class a : generated a -> attr_named "className" a = false.
Proof.
  intros [n [s [Hin ->]]]. cbn in Hin.
  repeat (destruct Hin as [<-|Hin]; [reflexivity|]). destruct Hin.
Qed.

Lemma variantAttrs_generated v l : variantAttrs v = Some l -> Forall generated l.
Proof.
  unfold variantAttrs. destruct v as [[s| | | |]|]; try (intros H; inversion H; constructor).
  destruct (is_empty s); [intros H; inversion H; constructor|].
  destruct (get bootstrapVariantMap s) as [[variant color]| |];
    intros H; inversion H; subst; repeat constructor.
  - exists "variant"%string, variant. split; [cbn; tauto|reflexivity].
  - exists "color"%string, color. split; [cbn; tauto|reflexivity].
Qed.

Lemma sizeAttrs_generated v l : sizeAttrs v = Some l -> Forall generated l.
Proof.
  unfold sizeAttrs. destruct v as [[s| | | |]|]; try (intros H; inversion H; constructor).
  destruct (is_empty s); [intros H; inversion H; constructor|].
  destruct (get sizeMap s) as [size| |]; try (intros H; inversion H; constructor).
  destruct (is_empty size); intros H; inversion H; subst; repeat constructor.
  exists "size"%string, size. split; [cbn; tauto|reflexivity].
Qed.

Lemma no_class_generated l :
  Forall generated l -> existsb (attr_named "className") l = false.
Proof.
  induction 1 as [|a r Ha _ IH]; [reflexivity|].
  cbn [existsb]. now rewrite (generated_not_class _ Ha), IH.
Qed.

Lemma no_class_other attrs :
  existsb (attr_named "className") (filter other attrs) = false.
Proof.
  induction attrs as [|a r IH]; [reflexivity|]. cbn [filter].
  destruct (other a) eqn:Ho; [|exact IH].
  cbn [existsb]. rewrite IH. unfold other in Ho.
  destruct (attr_named "className" a); [|reflexivity].
  now rewrite !orb_true_r in Ho.
Qed.

Lemma muiImport_under name : under_mui (muiImport name) = true.
Proof.
  unfold under_mui, muiImport, startsWith. cbn [source].
  now rewrite strip_prefix_append.
Qed.

Lemma filter_all {A} (f : A -> bool) l :
  (forall a, In a l -> f a = true) -> filter f l = l.
Proof.
  induction l as [|a r IH]; intros H; [reflexivity|].
  cbn [filter]. rewrite (H a (or_introl eq_refl)), IH; [reflexivity|].
  intros b Hb. apply H. now right.
Qed.

Lemma filter_none {A} (f : A -> bool) l :
  (forall a, In a l -> f a = false) -> filter f l = [].
Proof.
  induction l as [|a r IH]; intros H; [reflexivity|].
  cbn [filter]. rewrite (H a (or_introl eq_refl)). apply IH.
  intros b Hb. apply H. now right.
Qed.

End GeminiFacts.

(** X22.  [transformAlert] of the second script of
    react-bootstrap-to-mui_gemini2.js keeps the number and the places of
    the attributes of an Alert and leaves every attribute other than
    [variant] as it is; each [variant] becomes a [severity] whose value is
    one of [info], [success], [error] and [warning], and it is [info]
    whenever the value is not a plain string literal (a computed
    [variant={kind}] loses its value). *)
Theorem gemini_alert_variant_becomes_severity attrs out :
  GeminiElements.alertAttrs attrs = Some out ->
  Forall2 GeminiFacts.becomes attrs out.
Proof.
  unfold GeminiElements.alertAttrs. intros H. apply mapOpt_Forall2 in H.
  eapply Forall2_impl; [|exact H].
  intros a b. apply GeminiFacts.alertAttr_becomes.
Qed.

Lemma gemini_alert_variant_becomes_severity_witness :
  Forall2 GeminiFacts.becomes
    [ Ast.JSXAttribute "variant" (dyn "kind"); Ast.JSXAttribute "dismissible" Ast.NoValue ]
    [ GeminiElements.literalAttr "severity" "info";
      Ast.JSXAttribute "dismissible" Ast.NoValue ].
Proof.
  apply (gemini_alert_variant_becomes_severity
           [ Ast.JSXAttribute "variant" (dyn "kind");
             Ast.JSXAttribute "dismissible" Ast.NoValue ]).
  vm_compute. reflexivity.
Defined.

(** X23.  [transformContainer] of the second script of
    react-bootstrap-to-mui_gemini2.js leaves no [fluid] attribute; a
    [fluid] with a value in braces or a string value ([fluid={true}],
    [fluid="md"]) is removed and nothing takes its place: when every
    [fluid] of the element is written that way the new attribute list is
    the old one without [fluid]. *)
Theorem gemini_container_drops_valued_fluid attrs :
  existsb (Ast.attr_named "fluid") (GeminiElements.containerAttrs attrs) = false
  /\ (Forall (fun a => Ast.attr_named "fluid" a = true -> GeminiFacts.valued a = true) attrs ->
      GeminiElements.containerAttrs attrs = filter GeminiFacts.not_fluid attrs).
Proof.
  unfold GeminiElements.containerAttrs. split.
  - induction attrs as [|a r IH]; [reflexivity|].
    cbn [flat_map]. rewrite existsb_app, IH.
    now rewrite GeminiFacts.containerAttr_no_fluid.
  - induction 1 as [|a r Ha _ IH]; [reflexivity|].
    cbn [flat_map]. rewrite IH, (GeminiFacts.containerAttr_valued _ Ha).
    change (a :: r) with ([a] ++ r). now rewrite filter_app.
Qed.

Example gemini_container_fluid_in_braces :
  GeminiElements.containerAttrs
    [ Ast.JSXAttribute "fluid"
        (Ast.JSXExpressionContainer (Ast.ELiteral Ast.Literal (Js.JBool true)));
      Ast.JSXAttribute "className" (lit "page") ]
  = [ Ast.JSXAttribute "className" (lit "page") ]
  /\ GeminiElements.containerAttrs [ Ast.JSXAttribute "fluid" Ast.NoValue ]
     = [ GeminiElements.maxWidthFalse ].
Proof. split; reflexivity. Qed.

Example gemini_col_number_is_a_double :
  GeminiElements.tokenAttrs "col-md-9007199254740993"
  = [ GeminiElements.sizeAttr "md" (Js.JNumber 9007199254740992) ].
Proof. vm_compute. reflexivity. Qed.

(** X24.  The Col part of [transformGridElements] of the second script of
    react-bootstrap-to-mui_gemini2.js builds the attribute list anew: a
    new [item], the [xs], [sm], [md], [lg] and [xl] attributes of the
    element in their order, then the attributes read off the class names:
    for each [col-<digits>] an [xs] and for each
    [col-<breakpoint>-<digits>] that breakpoint, with the Number the
    digits spell, and nothing else.  Every other attribute of the Col
    ([className], [key], handlers, spread attributes) is gone. *)
Theorem gemini_col_keeps_breakpoints_only attrs out :
  GeminiElements.colAttrs attrs = Some out ->
  exists derived,
    out = GeminiElements.itemAttr
            :: filter GeminiElements.is_breakpoint attrs ++ derived
    /\ (forall a, In a derived <->
                  exists tok, In tok (GeminiFacts.class_tokens attrs)
                              /\ GeminiFacts.read_off tok a)
    /\ (forall a, In a out ->
                  a = GeminiElements.itemAttr \/ GeminiElements.is_breakpoint a = true).
Proof.
  intros H.
  assert (Hd : exists derived,
             out = GeminiElements.itemAttr
                     :: filter GeminiElements.is_breakpoint attrs ++ derived
             /\ derived = flat_map GeminiElements.tokenAttrs
                                   (GeminiFacts.class_tokens attrs)).
  { unfold GeminiElements.colAttrs in H. unfold GeminiFacts.class_tokens.
    destruct (find (Ast.attr_named "className") attrs) as [[n v|s]|].
    - destruct (GeminiElements.colClasses v) as [cls|]; [|discriminate].
      inversion H; subst. eexists. split; reflexivity.
    - inversion H; subst. exists []. rewrite app_nil_r. split; reflexivity.
    - inversion H; subst. exists []. rewrite app_nil_r. split; reflexivity. }
  destruct Hd as [derived [-> ->]]. eexists. split; [reflexivity|].
  assert (Hiff : forall a,
             In a (flat_map GeminiElements.tokenAttrs (GeminiFacts.class_tokens attrs)) <->
             exists tok, In tok (GeminiFacts.class_tokens attrs)
                         /\ GeminiFacts.read_off tok a).
  { intros a. rewrite in_flat_map. split; intros [tok [Hin Ha]]; exists tok;
      (split; [exact Hin|]); now apply GeminiFacts.tokenAttrs_read_off. }
  split; [exact Hiff|].
  intros a [Ha|Ha]; [now left|]. right.
  apply in_app_or in Ha. destruct Ha as [Ha|Ha].
  - apply filter_In in Ha. tauto.
  - apply Hiff in Ha. destruct Ha as [tok [_ Ha]].
    eapply GeminiFacts.read_off_breakpoint; eauto.
Qed.

Lemma gemini_col_keeps_breakpoints_only_witness :
  exists derived,
    [ GeminiElements.itemAttr;
      Ast.JSXAttribute "md" (Ast.JSXExpressionContainer
                               (Ast.ELiteral Ast.Literal (Js.JNumber 6)));
      GeminiElements.sizeAttr "xs" (Js.JNumber 12) ]
    = GeminiElements.itemAttr
        :: filter GeminiElements.is_breakpoint
             [ Ast.JSXAttribute "key" (dyn "id");
               Ast.JSXAttribute "md" (Ast.JSXExpressionContainer
                                        (Ast.ELiteral Ast.Literal (Js.JNumber 6)));
               Ast.JSXAttribute "className" (lit "col-12 sidebar");
               Ast.JSXSpreadAttribute "rest" ] ++ derived
    /\ (forall a, In a derived <->
                  exists tok,
                    In tok (GeminiFacts.class_tokens
                              [ Ast.JSXAttribute "key" (dyn "id");
                                Ast.JSXAttribute "md"
                                  (Ast.JSXExpressionContainer
                                     (Ast.ELiteral Ast.Literal (Js.JNumber 6)));
                                Ast.JSXAttribute "className" (lit "col-12 sidebar");
                                Ast.JSXSpreadAttribute "rest" ])
                    /\ GeminiFacts.read_off tok a)
    /\ (forall a,
           In a [ GeminiElements.itemAttr;
                  Ast.JSXAttribute "md" (Ast.JSXExpressionContainer
                                           (Ast.ELiteral Ast.Literal (Js.JNumber 6)));
                  GeminiElements.sizeAttr "xs" (Js.JNumber 12) ] ->
           a = GeminiElements.itemAttr \/ GeminiElements.is_breakpoint a = true).
Proof.
  apply (gemini_col_keeps_breakpoints_only
           [ Ast.JSXAttribute "key" (dyn "id");
             Ast.JSXAttribute "md" (Ast.JSXExpressionContainer
                                      (Ast.ELiteral Ast.Literal (Js.JNumber 6)));
             Ast.JSXAttribute "className" (lit "col-12 sidebar");
             Ast.JSXSpreadAttribute "rest" ]).
  vm_compute. reflexivity.
Defined.

(** X25.  [transformButton] of the second script of
    react-bootstrap-to-mui_gemini2.js never puts [className] back: the new
    attribute list is the attributes other than [variant], [size] and
    [className] in their order, between attributes the function builds
    itself ([variant], [color], [size] with literal values), so a Button
    loses all its class names.  When the element has no [className] and
    its [variant] is missing or not a literal, the list starts with
    [variant="text"]. *)
Theorem gemini_button_drops_class_name attrs out :
  GeminiElements.buttonAttrs attrs = Some out ->
  existsb (Ast.attr_named "className") out = false
  /\ (exists pre suf,
         out = pre ++ filter GeminiElements.other attrs ++ suf
         /\ Forall GeminiFacts.generated pre /\ Forall GeminiFacts.generated suf)
  /\ (GeminiElements.literalOf (GeminiElements.last_named "variant" attrs) = None ->
      GeminiElements.last_named "className" attrs = None ->
      exists rest, out = GeminiElements.literalAttr "variant" "text" :: rest).
Proof.
  unfold GeminiElements.buttonAttrs. intros H.
  destruct (GeminiElements.inferred attrs) as [[bsVariant bsSize]|] eqn:Hi; [|discriminate].
  destruct (GeminiElements.variantAttrs bsVariant) as [vs|] eqn:Hv; [|discriminate].
  destruct (GeminiElements.sizeAttrs bsSize) as [ss|] eqn:Hs; [|discriminate].
  inversion H; subst. clear H.
  apply GeminiFacts.variantAttrs_generated in Hv.
  apply GeminiFacts.sizeAttrs_generated in Hs.
  assert (Hpre : Forall GeminiFacts.generated
                   (if GeminiElements.truthy bsVariant then []
                    else [ GeminiElements.literalAttr "variant" "text" ])).
  { destruct (GeminiElements.truthy bsVariant); repeat constructor.
    exists "variant"%string, "text"%string. split; [cbn; tauto|reflexivity]. }
  assert (Hsuf : Forall GeminiFacts.generated (vs ++ ss)).
  { apply Forall_app. split; assumption. }
  split; [|split].
  - rewrite !existsb_app.
    rewrite (GeminiFacts.no_class_generated _ Hpre), GeminiFacts.no_class_other.
    apply GeminiFacts.no_class_generated in Hv, Hs. now rewrite Hv, Hs.
  - eexists _, (vs ++ ss). split; [reflexivity|]. split; assumption.
  - intros Hlit Hcls. unfold GeminiElements.inferred in Hi.
    rewrite Hlit, Hcls in Hi. cbn in Hi. inversion Hi; subst.
    cbn. eexists. reflexivity.
Qed.

Lemma gemini_button_drops_class_name_witness :
  existsb (Ast.attr_named "className")
    [ Ast.JSXAttribute "onClick" (dyn "save");
      GeminiElements.literalAttr "size" "large" ] = false
  /\ (exists pre suf,
         [ Ast.JSXAttribute "onClick" (dyn "save");
           GeminiElements.literalAttr "size" "large" ]
         = pre ++ filter GeminiElements.other
                    [ Ast.JSXAttribute "className" (lit "btn-lg me-2");
                      Ast.JSXAttribute "onClick" (dyn "save") ] ++ suf
         /\ Forall GeminiFacts.generated pre /\ Forall GeminiFacts.generated suf)
  /\ (GeminiElements.literalOf
        (GeminiElements.last_named "variant"
           [ Ast.JSXAttribute "className" (lit "btn-lg me-2");
             Ast.JSXAttribute "onClick" (dyn "save") ]) = None ->
      GeminiElements.last_named "className"
        [ Ast.JSXAttribute "className" (lit "btn-lg me-2");
          Ast.JSXAttribute "onClick" (dyn "save") ] = None ->
      exists rest,
        [ Ast.JSXAttribute "onClick" (dyn "save");
          GeminiElements.literalAttr "size" "large" ]
        = GeminiElements.literalAttr "variant" "text" :: rest).
Proof.
  apply (gemini_button_drops_class_name
           [ Ast.JSXAttribute "className" (lit "btn-lg me-2");
             Ast.JSXAttribute "onClick" (dyn "save") ]).
  vm_compute. reflexivity.
Defined.

Definition styled_module_imports : list Ast.ImportDeclaration :=
  [ Ast.mkImport [ Ast.ImportSpecifier "Alert" "Alert" ] Ast.Literal "react-bootstrap";
    Ast.mkImport [ Ast.ImportSpecifier "styled" "styled" ] Ast.Literal
      "@mui/material/styles";
    Ast.mkImport [ Ast.ImportDefaultSpecifier "React" ] Ast.Literal "react" ].

Example gemini_styles_import_is_lost :
  GeminiElements.printedImports [ "Alert" ] styled_module_imports
  = [ Ast.mkImport [ Ast.ImportDefaultSpecifier "Alert" ] Ast.Literal "@mui/material/Alert";
      Ast.mkImport [ Ast.ImportDefaultSpecifier "React" ] Ast.Literal "react" ].
Proof. vm_compute. reflexivity. Qed.

(** X26.  Step 2 and [insertMuiImports] of the second script of
    react-bootstrap-to-mui_gemini2.js: the imports of a path under
    [@mui/material/] in the printed module are exactly one default import
    per recorded component, in recording order, so every such import the
    module had before (for instance of [@mui/material/styles]) is removed
    and not restored; no import of a path containing [bootstrap] remains,
    and the other imports stay in their order. *)
Theorem gemini_existing_mui_imports_are_replaced names imports :
  filter GeminiElements.under_mui (GeminiElements.printedImports names imports)
  = map GeminiElements.muiImport names
  /\ filter (fun d => negb (GeminiElements.under_mui d))
            (GeminiElements.printedImports names imports)
     = filter (fun d => negb (GeminiElements.under_mui d)
                        && negb (GeminiElements.from_bootstrap d)) imports.
Proof.
  unfold GeminiElements.printedImports, GeminiElements.insertMuiImports.
  rewrite !filter_app. split.
  - rewrite (GeminiFacts.filter_all GeminiElements.under_mui).
    + rewrite (GeminiFacts.filter_none GeminiElements.under_mui); [apply app_nil_r|].
      intros d Hd. apply filter_In in Hd. destruct Hd as [_ Hd].
      now destruct (GeminiElements.under_mui d).
    + intros d Hd. apply in_map_iff in Hd. destruct Hd as [name [<- _]].
      apply GeminiFacts.muiImport_under.
  - rewrite (GeminiFacts.filter_none (fun d => negb (GeminiElements.under_mui d))
               (map GeminiElements.muiImport names)).
    + cbn [app]. induction imports as [|d r IH]; [reflexivity|].
      cbn [filter].
      destruct (GeminiElements.from_bootstrap d) eqn:Hb,
               (GeminiElements.under_mui d) eqn:Hu;
        cbn [negb andb filter]; rewrite ?Hu; cbn [negb filter]; rewrite ?Hu;
        cbn [negb]; rewrite <- IH; reflexivity.
    + intros d Hd. apply in_map_iff in Hd. destruct Hd as [name [<- _]].
      now rewrite GeminiFacts.muiImport_under.
Qed.
